(** * London crime dashboard: a shallow embedding of [dashboard_code.py]

    The script loads a crime table and a borough boundary table, derives a
    [Season] column, computes grouped aggregates with pandas, merges the
    per-borough aggregate with the boundaries, builds a Dash layout and
    registers four callbacks.  The embedding below follows the script top
    to bottom.

    Conventions.
    - A pandas [DataFrame] is a list of records, one record per row, in row
      order.  Columns read from the CSV are typed as the data model types
      them.  A text column holds strings; a blank cell of it is read as
      NaN and is [None] here.  An integer column is an [int64] column,
      which is what [read_csv] gives when no cell of it is blank.  A
      [float64] column holds IEEE binary64 values, NaN for a blank cell.
    - A Python [str] is a [string] whose characters are code points below
      256; [strip] and [lower] are given on that whole range.
    - An [int64] reduction wraps around modulo [2^64] as numpy does.
    - A [float64] is a primitive binary64 float.  The two float
      reductions of the script add in the order the libraries add:
      [Series.mean] sums with numpy's pairwise summation, and the mean of
      a [groupby] sums each group with pandas' compensated summation. *)

From Stdlib Require Import ZArith List String Ascii Bool Lia Permutation Sorted.
From Stdlib Require Import Floats.
Import ListNotations.
Local Open Scope Z_scope.
Local Open Scope string_scope.
Local Open Scope list_scope.

Set Implicit Arguments.

(** ** Python strings *)

Module PyStr.

(** [str.isspace] on code points below 256. *)
Definition is_space (c : ascii) : bool :=
  let n := nat_of_ascii c in
  ((9 <=? n)%nat && (n <=? 13)%nat)
  || ((28 <=? n)%nat && (n <=? 32)%nat)
  || (n =? 133)%nat || (n =? 160)%nat.

(** [str.lower] on one code point below 256: [A-Z] and the upper-case
    Latin-1 letters [U+00C0 .. U+00DE] (without the multiplication sign
    [U+00D7]) move up by 32. *)
Definition lower_char (c : ascii) : ascii :=
  let n := nat_of_ascii c in
  if ((65 <=? n)%nat && (n <=? 90)%nat)
     || ((192 <=? n)%nat && (n <=? 222)%nat && negb (n =? 215)%nat)
  then ascii_of_nat (n + 32) else c.

Fixpoint lower (s : string) : string :=
  match s with
  | EmptyString => EmptyString
  | String c s' => String (lower_char c) (lower s')
  end.

Fixpoint lstrip (s : string) : string :=
  match s with
  | EmptyString => EmptyString
  | String c s' => if is_space c then lstrip s' else s
  end.

Fixpoint rstrip (s : string) : string :=
  match s with
  | EmptyString => EmptyString
  | String c s' =>
      match rstrip s' with
      | EmptyString => if is_space c then EmptyString else String c EmptyString
      | t => String c t
      end
  end.

Definition strip (s : string) : string := rstrip (lstrip s).

(** [s.str.strip().str.lower()] on one cell. *)
Definition normalize (s : string) : string := lower (strip s).

End PyStr.

(** ** int64 arithmetic *)

Module Int64.

Definition wrap (z : Z) : Z := (z + 2 ^ 63) mod 2 ^ 64 - 2 ^ 63.

Definition add (a b : Z) : Z := wrap (a + b).

(** [Series.sum()] of an [int64] column; the sum of no rows is [0]. *)
Definition sum (l : list Z) : Z := fold_left add l 0.

End Int64.

(** ** float64 reductions *)

Module F64.

Local Open Scope float_scope.

(** Conversion of an integer to the nearest binary64 value. *)
Definition of_Z (z : Z) : float :=
  SF2Prim (binary_normalize prec emax z 0%Z false).

Definition dropna (xs : list float) : list float :=
  filter (fun x => negb (is_nan x)) xs.

(** The loop [for i in range(n): res += a[i]]. *)
Definition add_seq (res : float) (xs : list float) : float :=
  fold_left PrimFloat.add xs res.

(** The eight running sums [r[0] .. r[7]] of numpy's unrolled loop. *)
Record Lanes : Set := mkLanes {
  r0 : float; r1 : float; r2 : float; r3 : float;
  r4 : float; r5 : float; r6 : float; r7 : float
}.

(** The unrolled part of numpy's [pairwise_sum] for a block of 8 to 128
    values, after [r] has taken the first eight of them: every further
    full group of eight is added lane by lane, the lanes are added up as
    [((r0 + r1) + (r2 + r3)) + ((r4 + r5) + (r6 + r7))], and the fewer
    than eight values left over are added one by one. *)
Fixpoint unrolled_sum (r : Lanes) (xs : list float) : float :=
  match xs with
  | a0 :: a1 :: a2 :: a3 :: a4 :: a5 :: a6 :: a7 :: rest =>
      unrolled_sum {| r0 := r0 r + a0; r1 := r1 r + a1; r2 := r2 r + a2;
                      r3 := r3 r + a3; r4 := r4 r + a4; r5 := r5 r + a5;
                      r6 := r6 r + a6; r7 := r7 r + a7 |} rest
  | _ =>
      add_seq (((r0 r + r1 r) + (r2 r + r3 r))
               + ((r4 r + r5 r) + (r6 r + r7 r))) xs
  end.

Definition block_sum (a : list float) : float :=
  match a with
  | a0 :: a1 :: a2 :: a3 :: a4 :: a5 :: a6 :: a7 :: rest =>
      unrolled_sum {| r0 := a0; r1 := a1; r2 := a2; r3 := a3;
                      r4 := a4; r5 := a5; r6 := a6; r7 := a7 |} rest
  | _ => add_seq (-0) a
  end.

(** numpy's [pairwise_sum] (the inner loop of [add.reduce] on a
    contiguous float64 array).  Fewer than 8 values are added one by one
    onto [-0.0], the start value that keeps a sum of negative zeros
    negative (nothing but the sign of a zero sum depends on it); up to
    128 values go through the unrolled loop; a longer array is cut at
    [n2 = n / 2 - (n / 2) mod 8] and the sums of the two parts are added.
    Each part is shorter than the array, so [depth], an upper bound on
    the nesting of the cuts, is never used up when it is the length of
    the array (lemma [pairwise_sum_cut] below). *)
Fixpoint pairwise_sum_upto (depth : nat) (a : list float) : float :=
  let n := List.length a in
  if (n <? 8)%nat then add_seq (-0) a
  else if (n <=? 128)%nat then block_sum a
  else
    match depth with
    | O => block_sum a
    | S depth' =>
        let n2 := (n / 2 - (n / 2) mod 8)%nat in
        pairwise_sum_upto depth' (firstn n2 a)
        + pairwise_sum_upto depth' (skipn n2 a)
    end.

Definition pairwise_sum (a : list float) : float :=
  pairwise_sum_upto (List.length a) a.

(** [ndarray.sum()] of a float64 array: the initial value of the
    reduction plus the pairwise sum. *)
Definition np_sum (a : list float) : float := -0 + pairwise_sum a.

(** [Series.mean()] with [skipna=True] (pandas' [nanmean]): the NaN cells
    are replaced by [0.0], the array is summed by numpy, and the sum is
    divided by the number of cells that are not NaN; with no such cell the
    mean is NaN. *)
Definition mean (xs : list float) : float :=
  match List.length (dropna xs) with
  | O => nan
  | count =>
      np_sum (map (fun x => if is_nan x then 0 else x) xs)
      / of_Z (Z.of_nat count)
  end.

(** One step of the compensated (Kahan) summation of pandas'
    [group_mean]: [val] is added to the running sum [sumx], and the
    rounding error of the addition is kept in [compensation] for the next
    step; a compensation that comes out as NaN is reset to [0.0]. *)
Definition kahan_step (acc : float * float) (val : float) : float * float :=
  let (sumx, compensation) := acc in
  let y := val - compensation in
  let t := sumx + y in
  let c := t - sumx - y in
  (t, if is_nan c then 0 else c).

Definition kahan_sum (xs : list float) : float :=
  fst (fold_left kahan_step xs (0, 0)).

(** The mean of one group of [groupby(...).mean()] and of
    [groupby(...).agg(... 'mean')]: the compensated sum of the cells that
    are not NaN, divided by their count; NaN when the group has no such
    cell. *)
Definition group_mean (xs : list float) : float :=
  match dropna xs with
  | [] => nan
  | vs => kahan_sum vs / of_Z (Z.of_nat (List.length vs))
  end.

(** Grouped mean of an [int64] column: the values are converted to
    float64. *)
Definition mean_int (xs : list Z) : float := group_mean (map of_Z xs).

Definition fmax (a b : float) : float := if a <? b then b else a.

(** [Series.max()] with [skipna=True]: NaN when no value is left. *)
Definition series_max (xs : list float) : float :=
  match dropna xs with
  | [] => nan
  | x :: t => fold_left fmax t x
  end.

End F64.

(** ** Errors *)

Inductive PyError : Set :=
| ValueError  (* idxmax of an empty Series *)
| IndexError  (* index 0 of an empty array *)
| KeyError    (* a column that the table does not have *)
| AttributeError  (* the [.str] accessor of a column without strings *)
| TypeError.  (* a callback argument that no dropdown gives *)

Inductive PyResult (A : Type) : Type :=
| Ok (a : A)
| Raise (e : PyError).

Arguments Ok {A} a.
Arguments Raise {A} e.

(** ** Data model *)

(** One row of [updated_crime_data_with_rate.csv].  A blank cell of a
    text column is [None]. *)
Record CsvRow : Type := mkCsvRow {
  csv_Boroughs : option string;
  csv_Year : Z;
  csv_Month : Z;
  csv_MajorCrime : option string;
  csv_CrimeCount : Z;
  csv_CrimeRatePer1000 : float;
  csv_Population : Z
}.

(** One row of [crime_data] once the [Season] column has been added. *)
Record CrimeRecord : Type := mkCrime {
  Boroughs : option string;
  Year : Z;
  Month : Z;
  MajorCrime : option string;
  CrimeCount : Z;
  CrimeRatePer1000 : float;
  Population : Z;
  Season : string
}.

(** One feature of the boundary file: its [name] property and its
    geometry, a ring of (longitude, latitude) points. *)
Record Boundary : Type := mkBoundary {
  name : string;
  geometry : list (float * float)
}.

(** One row of [groupby(keys, as_index=False).agg({'CrimeCount': 'sum',
    'CrimeRatePer1000': 'mean'})]: the key columns and the two reduced
    columns. *)
Record AggRow (K : Type) : Type := mkAgg {
  agg_key : K;
  agg_CrimeCount : Z;
  agg_CrimeRatePer1000 : float
}.

(** One row of the per-borough aggregate with the mean population. *)
Record GeoAggRow : Type := mkGeoAgg {
  geo_Boroughs : string;
  geo_Population : float;
  geo_CrimeCount : Z;
  geo_CrimeRatePer1000 : float
}.

(** ** Season classifier *)

Definition in_list (x : Z) (l : list Z) : bool := existsb (Z.eqb x) l.

Definition get_season (month : Z) : string :=
  if in_list month [12; 1; 2] then "Winter"
  else if in_list month [3; 4; 5] then "Spring"
  else if in_list month [6; 7; 8] then "Summer"
  else "Autumn".

(** [crime_data['Season'] = crime_data['Month'].apply(get_season)] *)
Definition add_season (r : CsvRow) : CrimeRecord :=
  {| Boroughs := csv_Boroughs r;
     Year := csv_Year r;
     Month := csv_Month r;
     MajorCrime := csv_MajorCrime r;
     CrimeCount := csv_CrimeCount r;
     CrimeRatePer1000 := csv_CrimeRatePer1000 r;
     Population := csv_Population r;
     Season := get_season (csv_Month r) |}.

(** ** Group keys and [groupby] *)

(** Values usable as group keys carry the order pandas sorts them by. *)
Class GroupKey (K : Type) : Type := { key_compare : K -> K -> comparison }.

(** The cells of a column: a value, or [None] for NaN.  [unique] tells
    NaN from every value and keeps it once; only values are group keys,
    so the place given to NaN in the order is never used. *)
#[export] Instance GroupKey_option (A : Type) `{GroupKey A} :
  GroupKey (option A) :=
  {| key_compare := fun x y =>
       match x, y with
       | Some a, Some b => key_compare a b
       | Some _, None => Lt
       | None, Some _ => Gt
       | None, None => Eq
       end |}.

#[export] Instance GroupKey_string : GroupKey string :=
  {| key_compare := String.compare |}.

#[export] Instance GroupKey_Z : GroupKey Z :=
  {| key_compare := Z.compare |}.

(** A tuple of keys is ordered lexicographically. *)
#[export] Instance GroupKey_pair (A B : Type) `{GroupKey A} `{GroupKey B} :
  GroupKey (A * B) :=
  {| key_compare := fun x y =>
       match key_compare (fst x) (fst y) with
       | Eq => key_compare (snd x) (snd y)
       | c => c
       end |}.

(** Whether a cell holds a value; for the key of a row, whether its key
    cells are all there. *)
Definition keyed {K : Type} (c : option K) : bool :=
  match c with
  | Some _ => true
  | None => false
  end.

Section GroupBy.

Context {K : Type} `{GroupKey K}.

Definition key_eqb (a b : K) : bool :=
  match key_compare a b with Eq => true | _ => false end.

(** [Series.unique()]: the distinct values in order of first appearance. *)
Fixpoint unique (l : list K) : list K :=
  match l with
  | [] => []
  | k :: t => k :: filter (fun k' => negb (key_eqb k' k)) (unique t)
  end.

Fixpoint insert_sorted (k : K) (l : list K) : list K :=
  match l with
  | [] => [k]
  | h :: t =>
      match key_compare k h with
      | Gt => h :: insert_sorted k t
      | _ => k :: h :: t
      end
  end.

Definition sort_keys (l : list K) : list K := fold_right insert_sorted [] l.

Context {R : Type}.

(** Whether the key cells of a row hold the key [k].  The key of a row is
    [None] when one of its key cells is NaN. *)
Definition has_key (k : K) (c : option K) : bool :=
  match c with
  | Some k' => key_eqb k' k
  | None => false
  end.

(** The keys of the rows that have one, in row order. *)
Definition present_keys (key : R -> option K) (rows : list R) : list K :=
  flat_map (fun r => match key r with Some k => [k] | None => [] end) rows.

(** The rows of one group, in row order. *)
Definition group_rows (key : R -> option K) (rows : list R) (k : K)
  : list R :=
  filter (fun r => has_key k (key r)) rows.

(** The keys of the groups: the distinct keys of the rows, in key order. *)
Definition group_keys (key : R -> option K) (rows : list R) : list K :=
  sort_keys (unique (present_keys key rows)).

(** [df.groupby(keys)] with the defaults [sort=True] and [dropna=True]:
    one group per distinct key, groups in key order; a row with a NaN
    key cell belongs to no group. *)
Definition groupby (key : R -> option K) (rows : list R)
  : list (K * list R) :=
  map (fun k => (k, group_rows key rows k)) (group_keys key rows).

(** [.agg({'CrimeCount': 'sum', 'CrimeRatePer1000': 'mean'})] *)
Definition agg_sum_mean (key : R -> option K) (count : R -> Z)
           (rate : R -> float) (rows : list R) : list (AggRow K) :=
  map (fun g => {| agg_key := fst g;
                   agg_CrimeCount := Int64.sum (map count (snd g));
                   agg_CrimeRatePer1000 :=
                     F64.group_mean (map rate (snd g)) |})
      (groupby key rows).

(** [.agg({'CrimeCount': 'sum'})] and [groupby(...)['CrimeCount'].sum()] *)
Definition agg_sum (key : R -> option K) (count : R -> Z) (rows : list R)
  : list (K * Z) :=
  map (fun g => (fst g, Int64.sum (map count (snd g)))) (groupby key rows).

(** [groupby(...)['CrimeRatePer1000'].mean()] *)
Definition agg_mean (key : R -> option K) (rate : R -> float)
           (rows : list R) : list (K * float) :=
  map (fun g => (fst g, F64.group_mean (map rate (snd g))))
      (groupby key rows).

End GroupBy.

(** [Series.idxmax()] of an integer Series indexed by group key: the label
    of the first row holding the largest value; an empty Series raises. *)
Fixpoint idxmax_from {K : Type} (best : K * Z) (l : list (K * Z)) : K :=
  match l with
  | [] => fst best
  | kv :: t => if (snd best <? snd kv)%Z then idxmax_from kv t else idxmax_from best t
  end.

Definition idxmax {K : Type} (s : list (K * Z)) : PyResult K :=
  match s with
  | [] => Raise ValueError
  | kv :: t => Ok (idxmax_from kv t)
  end.

(** ** Start-up aggregates *)

Definition group_borough (rows : list CrimeRecord) : list (AggRow string) :=
  agg_sum_mean Boroughs CrimeCount CrimeRatePer1000 rows.

(** The key of a row under [groupby(['Boroughs', 'Season'])]. *)
Definition borough_season_key (r : CrimeRecord) : option (string * string) :=
  match Boroughs r with
  | Some b => Some (b, Season r)
  | None => None
  end.

(** The key of a row under [groupby(['Year', 'MajorCrime'])]. *)
Definition year_crime_key (r : CrimeRecord) : option (Z * string) :=
  match MajorCrime r with
  | Some c => Some (Year r, c)
  | None => None
  end.

Definition group_borough_season (rows : list CrimeRecord)
  : list (AggRow (string * string)) :=
  agg_sum_mean borough_season_key CrimeCount CrimeRatePer1000 rows.

Definition group_year_crime (rows : list CrimeRecord)
  : list (AggRow (Z * string)) :=
  agg_sum_mean year_crime_key CrimeCount CrimeRatePer1000 rows.

(** [groupby('Boroughs', as_index=False).agg({'Population': 'mean',
    'CrimeCount': 'sum', 'CrimeRatePer1000': 'mean'})] *)
Definition group_borough_level (rows : list CrimeRecord) : list GeoAggRow :=
  map (fun g => {| geo_Boroughs := fst g;
                   geo_Population := F64.mean_int (map Population (snd g));
                   geo_CrimeCount := Int64.sum (map CrimeCount (snd g));
                   geo_CrimeRatePer1000 :=
                     F64.group_mean (map CrimeRatePer1000 (snd g)) |})
      (groupby Boroughs rows).

(** ** Geo merge *)

(** [geo_df['name'] = geo_df['name'].str.strip().str.lower()] *)
Definition normalize_names (geo : list Boundary) : list Boundary :=
  map (fun b => {| name := PyStr.normalize (name b);
                   geometry := geometry b |}) geo.

(** [df['Boroughs'] = df['Boroughs'].str.strip().str.lower()] *)
Definition normalize_boroughs (rows : list GeoAggRow) : list GeoAggRow :=
  map (fun r => {| geo_Boroughs := PyStr.normalize (geo_Boroughs r);
                   geo_Population := geo_Population r;
                   geo_CrimeCount := geo_CrimeCount r;
                   geo_CrimeRatePer1000 := geo_CrimeRatePer1000 r |}) rows.

(** [left.merge(right, left_on='name', right_on='Boroughs')]: an inner
    join on string equality, in the order of the left rows. *)
Definition merge (left : list Boundary) (right : list GeoAggRow)
  : list (Boundary * GeoAggRow) :=
  flat_map (fun l =>
              map (pair l)
                  (filter (fun r => String.eqb (name l) (geo_Boroughs r)) right))
           left.

(** ** Chart specifications

    A figure is kept as the chart kind, the table it plots and its title.
    Axis bindings, colours and the text overlay of the map are display
    only and are left out. *)

Inductive ChartKind : Set := Bar | Pie | Line | ChoroplethMapbox.

Inductive ChartData : Type :=
| ByBorough (rows : list (AggRow string))
| ByBoroughSeason (rows : list (AggRow (string * string)))
| BySeason (rows : list (AggRow string))
| ByYearCrime (rows : list (AggRow (Z * string)))
| CountByBorough (rows : list (string * Z))
| GeoRows (rows : list (Boundary * GeoAggRow)).

Record Figure : Type := mkFigure {
  chart : ChartKind;
  data : ChartData;
  title : string
}.

(** ** Module-level state *)

Record Globals : Type := mkGlobals {
  crime_data : list CrimeRecord;
  borough_data : list (AggRow string);
  seasonal_data : list (AggRow (string * string));
  yearly_data : list (AggRow (Z * string));
  geo_df : list Boundary;
  borough_level_data : list GeoAggRow;
  merged_geo_df : list (Boundary * GeoAggRow);
  geojson_data : list (Boundary * GeoAggRow);
  fig : Figure
}.

(** The module-level names after the module body up to the construction
    of the app (lines 27-112) has run: each [let] is one assignment, and
    a rebinding is an in-place column update.  With what files the body
    stops before its end is told by [module_body] below. *)
Definition startup (csv : list CsvRow) (geojson : list Boundary) : Globals :=
  let crime_data := map add_season csv in
  let borough_data := group_borough crime_data in
  let seasonal_data := group_borough_season crime_data in
  let yearly_data := group_year_crime crime_data in
  let geo_df := geojson in
  let borough_level_data := group_borough_level crime_data in
  let geo_df := normalize_names geo_df in
  let borough_level_data := normalize_boroughs borough_level_data in
  let merged_geo_df := merge geo_df borough_level_data in
  let geojson_data := merged_geo_df in
  let fig := {| chart := ChoroplethMapbox;
                data := GeoRows merged_geo_df;
                title := "Crime Rates Across London Boroughs" |} in
  {| crime_data := crime_data;
     borough_data := borough_data;
     seasonal_data := seasonal_data;
     yearly_data := yearly_data;
     geo_df := geo_df;
     borough_level_data := borough_level_data;
     merged_geo_df := merged_geo_df;
     geojson_data := geojson_data;
     fig := fig |}.

(** ** Page layout *)

(** The value of a dropdown: one cell of a column, or a list of cells. *)
Inductive DropdownValue : Type :=
| Single (v : option string)
| Multi (vs : list (option string)).

#[warnings="-register-all"] Inductive Component : Type :=
| H1 (text : string)
| H3 (text : string)
| Label (text : string)
| Div (id : option string) (children : list Component)
| Tabs (children : list Component)
| Tab (label : string) (children : list Component)
| Dropdown (id : string) (options : list (option string * option string))
           (value : DropdownValue) (multi : bool) (clearable : bool)
| Graph (id : string) (figure : option Figure)
| DataTable (id : string) (columns : list string) (page_size : nat).

(** [[{'label': v, 'value': v} for v in values]] *)
Definition options_of (values : list (option string))
  : list (option string * option string) :=
  map (fun v => (v, v)) values.

(** [app.layout] (lines 118-245).  [unique()[0]] raises on a table with no
    rows; [unique()[:3]] does not. *)
Definition layout (g : Globals) : PyResult Component :=
  match unique (map MajorCrime (crime_data g)) with
  | [] => Raise IndexError
  | first_crime :: _ =>
      let boroughs := unique (map Boroughs (crime_data g)) in
      let crimes := unique (map MajorCrime (crime_data g)) in
      Ok (Div None [
        H1 "London Crime Dashboard";
        Tabs [
          Tab "Borough Analysis" [
            Div None [
              H3 "Crime by Borough";
              Graph "borough-crime-bar-chart"
                (Some {| chart := Bar; data := ByBorough (borough_data g);
                         title := "Crime Counts and Rates by Borough" |})];
            Div None [
              H3 "Crime Distribution Across Boroughs (Pie Chart)";
              Graph "borough-pie-chart"
                (Some {| chart := Pie; data := ByBorough (borough_data g);
                         title := "Crime Distribution by Borough" |})]];
          Tab "Seasonal Crime Patterns" [
            Div None [
              H3 "Seasonal Crime Patterns Across Boroughs";
              Dropdown "borough-dropdown"
                ((Some "All Boroughs", Some "All") :: options_of boroughs)
                (Single (Some "All")) false false;
              Graph "seasonal-crime-pattern-graph" None]];
          Tab "Yearly Trends" [
            Div None [
              H3 "Yearly Crime Trends";
              Graph "yearly-trends-graph"
                (Some {| chart := Line; data := ByYearCrime (yearly_data g);
                         title :=
                           "Yearly Trends of Crime Rates by Major Crime Type" |})]];
          Tab "Crime Type Analysis" [
            Div None [
              H3 "Compare Crime Types Across Boroughs";
              Div None [
                Label "Select Crime Type:";
                Dropdown "crime-type-dropdown" (options_of crimes)
                  (Single first_crime) false false];
              Div None [
                Label "Select Boroughs:";
                Dropdown "borough-comparison-dropdown" (options_of boroughs)
                  (Multi (firstn 3 boroughs)) true false];
              Div None [Graph "borough-comparison-bar-chart" None]]];
          Tab "Statistics and Table" [
            Div None [
              H3 "Interactive Crime Statistics";
              Label "Select Crime Type:";
              Dropdown "crime-type-dropdown-stats" (options_of crimes)
                (Single first_crime) false false;
              Div (Some "statistics-content") [];
              H3 "Crime Data Table";
              DataTable "crime-data-table"
                ["Boroughs"; "CrimeCount"; "CrimeRatePer1000"] 10]];
          Tab "Geospatial Map" [
            Div None [
              H3 "Geospatial Map of Borough Crime Data";
              Graph "crime-choropleth-map" (Some (fig g))]]]])
  end.

(** The ids of all components of a tree, in document order. *)
Fixpoint component_ids (c : Component) : list string :=
  match c with
  | H1 _ | H3 _ | Label _ => []
  | Div (Some i) ch => i :: flat_map component_ids ch
  | Div None ch => flat_map component_ids ch
  | Tabs ch => flat_map component_ids ch
  | Tab _ ch => flat_map component_ids ch
  | Dropdown i _ _ _ _ => [i]
  | Graph i _ => [i]
  | DataTable i _ _ => [i]
  end.

(** The dropdowns of a tree, each with its id, option values and value. *)
Fixpoint dropdowns (c : Component)
  : list (string * (list (option string) * DropdownValue)) :=
  match c with
  | Dropdown i opts v _ _ => [(i, (map snd opts, v))]
  | Div _ ch | Tabs ch | Tab _ ch => flat_map dropdowns ch
  | _ => []
  end.

(** The children of the tab with a given label. *)
Fixpoint tab_children (lbl : string) (c : Component) : list Component :=
  match c with
  | Tab l ch =>
      if String.eqb l lbl then ch else flat_map (tab_children lbl) ch
  | Div _ ch | Tabs ch => flat_map (tab_children lbl) ch
  | _ => []
  end.

(** ** Callbacks

    A callback body runs against the module-level state and may raise.
    The state is threaded through so that what a body does to it is part
    of its result. *)

Definition M (A : Type) : Type := Globals -> PyResult A * Globals.

Definition ret {A : Type} (a : A) : M A := fun g => (Ok a, g).

Definition bind {A B : Type} (m : M A) (k : A -> M B) : M B :=
  fun g =>
    match m g with
    | (Ok a, g') => k a g'
    | (Raise e, g') => (Raise e, g')
    end.

(** Reading a module-level name. *)
Definition global {A : Type} (field : Globals -> A) : M A :=
  fun g => (Ok (field g), g).

(** A library call that returns or raises. *)
Definition call {A : Type} (r : PyResult A) : M A := fun g => (r, g).

Notation "x <- m ;; k" := (bind m (fun x => k))
  (at level 61, m at next level, right associativity).

(** The four values shown by the statistics list; the [html.Li] items
    format them into text. *)
Record Statistics : Type := mkStatistics {
  total_crimes : Z;
  average_crime_rate : float;
  most_affected_borough : string;
  highest_crime_rate : float
}.

(** Lines 252-272. *)
Definition update_seasonal_graph (selected_borough : string) : M Figure :=
  seasonal_data <- global seasonal_data ;;
  let (filtered_data, title) :=
    if String.eqb selected_borough "All" then
      (BySeason (agg_sum_mean (fun r => Some (snd (agg_key r)))
                              (@agg_CrimeCount _) (@agg_CrimeRatePer1000 _)
                              seasonal_data),
       "Seasonal Crime Patterns Across All Boroughs")
    else
      (ByBoroughSeason
         (filter (fun r => String.eqb (fst (agg_key r)) selected_borough)
                 seasonal_data),
       ("Seasonal Crime Patterns in " ++ selected_borough)%string) in
  ret {| chart := Bar; data := filtered_data; title := title |}.

(** [cell == s] for a string [s]: a NaN cell is equal to no string. *)
Definition cell_is (s : string) (cell : option string) : bool :=
  match cell with
  | Some v => String.eqb v s
  | None => false
  end.

(** [crime_data[crime_data['MajorCrime'] == selected_crime_type]] *)
Definition filter_crime_type (selected_crime_type : string)
           (rows : list CrimeRecord) : list CrimeRecord :=
  filter (fun r => cell_is selected_crime_type (MajorCrime r)) rows.

(** [Series.isin(values)] on one cell.  A NaN cell is taken to match a
    null of the list; a row with a NaN borough belongs to no group of the
    [groupby] that follows, whichever way this goes. *)
Definition isin (v : option string) (values : list (option string)) : bool :=
  existsb (key_eqb v) values.

(** Lines 280-294. *)
Definition update_borough_comparison (selected_crime_type : string)
           (selected_boroughs : list (option string)) : M Figure :=
  crime_data <- global crime_data ;;
  let filtered_data :=
    agg_sum Boroughs CrimeCount
      (filter (fun r => cell_is selected_crime_type (MajorCrime r)
                        && isin (Boroughs r) selected_boroughs)
              crime_data) in
  ret {| chart := Bar;
         data := CountByBorough filtered_data;
         title := ("Crime Count for '" ++ selected_crime_type
                   ++ "' Across Selected Boroughs")%string |}.

(** Lines 302-326. *)
Definition update_statistics_and_table (selected_crime_type : string)
  : M (Statistics * list (AggRow string)) :=
  crime_data <- global crime_data ;;
  let filtered_data := filter_crime_type selected_crime_type crime_data in
  let total_crimes := Int64.sum (map CrimeCount filtered_data) in
  let average_crime_rate := F64.mean (map CrimeRatePer1000 filtered_data) in
  most_affected_borough <-
    call (idxmax (agg_sum Boroughs CrimeCount filtered_data)) ;;
  let highest_crime_rate :=
    F64.series_max
      (map snd (agg_mean Boroughs CrimeRatePer1000 filtered_data)) in
  let statistics :=
    {| total_crimes := total_crimes;
       average_crime_rate := average_crime_rate;
       most_affected_borough := most_affected_borough;
       highest_crime_rate := highest_crime_rate |} in
  let table_data := group_borough filtered_data in
  ret (statistics, table_data).

(** Lines 333-375. *)
Definition update_geospatial_map (selected_crime_type : string) : M Figure :=
  crime_data <- global crime_data ;;
  let filtered_data := filter_crime_type selected_crime_type crime_data in
  let borough_level_filtered := group_borough_level filtered_data in
  geo_df <- global geo_df ;;
  let merged_filtered := merge geo_df borough_level_filtered in
  ret {| chart := ChoroplethMapbox;
         data := GeoRows merged_filtered;
         title := ("Crime Rates Across London Boroughs: "
                   ++ selected_crime_type)%string |}.

(** ** Interaction layer *)

(** The value of a component property.  [VNull] is the value of a
    dropdown whose chosen cell is NaN: the page holds it as a null, and a
    callback receives it as [None]. *)
Inductive PropValue : Type :=
| VStr (s : string)
| VNull
| VList (l : list (option string))
| VFigure (f : Figure)
| VStatistics (s : Statistics)
| VRecords (rows : list (AggRow string)).

(** A property is addressed by component id and property name. *)
Definition Prop_id : Type := (string * string)%type.

Definition prop_eqb (a b : Prop_id) : bool :=
  String.eqb (fst a) (fst b) && String.eqb (snd a) (snd b).

(** One [@app.callback(outputs, inputs)] registration. *)
Record Callback : Type := mkCallback {
  outputs : list Prop_id;
  inputs : list Prop_id;
  handler : list PropValue -> M (list PropValue)
}.

(** The four registrations.  A handler passes the values of its inputs
    to the decorated function.  With [None] for a selection, every
    comparison [column == None] of the bodies is false row by row, so no
    row is selected and the title shows ["None"]; these cases are spelled
    out.  Values of any other shape do not come from the dropdowns of the
    page; for them a handler stops with [TypeError]. *)
Definition seasonal_callback : Callback :=
  {| outputs := [("seasonal-crime-pattern-graph", "figure")];
     inputs := [("borough-dropdown", "value")];
     handler := fun args =>
       match args with
       | [VStr selected_borough] =>
           f <- update_seasonal_graph selected_borough ;; ret [VFigure f]
       | [VNull] =>
           ret [VFigure {| chart := Bar; data := ByBoroughSeason [];
                           title := "Seasonal Crime Patterns in None" |}]
       | _ => call (Raise TypeError)
       end |}.

Definition comparison_callback : Callback :=
  {| outputs := [("borough-comparison-bar-chart", "figure")];
     inputs := [("crime-type-dropdown", "value");
                ("borough-comparison-dropdown", "value")];
     handler := fun args =>
       match args with
       | [VStr selected_crime_type; VList selected_boroughs] =>
           f <- update_borough_comparison selected_crime_type
                                          selected_boroughs ;;
           ret [VFigure f]
       | [VNull; VList _] =>
           ret [VFigure {| chart := Bar; data := CountByBorough [];
                           title :=
                             "Crime Count for 'None' Across Selected Boroughs" |}]
       | _ => call (Raise TypeError)
       end |}.

Definition statistics_callback : Callback :=
  {| outputs := [("statistics-content", "children");
                 ("crime-data-table", "data")];
     inputs := [("crime-type-dropdown-stats", "value")];
     handler := fun args =>
       match args with
       | [VStr selected_crime_type] =>
           r <- update_statistics_and_table selected_crime_type ;;
           ret [VStatistics (fst r); VRecords (snd r)]
       | [VNull] => call (Raise ValueError)
       | _ => call (Raise TypeError)
       end |}.

Definition map_callback : Callback :=
  {| outputs := [("crime-choropleth-map", "figure")];
     inputs := [("crime-type-dropdown-map", "value")];
     handler := fun args =>
       match args with
       | [VStr selected_crime_type] =>
           f <- update_geospatial_map selected_crime_type ;; ret [VFigure f]
       | [VNull] =>
           ret [VFigure {| chart := ChoroplethMapbox; data := GeoRows [];
                           title := "Crime Rates Across London Boroughs: None" |}]
       | _ => call (Raise TypeError)
       end |}.

(** The registered callbacks, in source order. *)
Definition callbacks : list Callback :=
  [seasonal_callback; comparison_callback; statistics_callback; map_callback].

(** The property values the page currently shows. *)
Definition View : Type := Prop_id -> option PropValue.

Definition set_prop (p : Prop_id) (v : PropValue) (w : View) : View :=
  fun q => if prop_eqb q p then Some v else w q.

Fixpoint set_props (ps : list Prop_id) (vs : list PropValue) (w : View) : View :=
  match ps, vs with
  | p :: ps', v :: vs' => set_props ps' vs' (set_prop p v w)
  | _, _ => w
  end.

(** The current values of a callback's inputs, if all of them exist. *)
Fixpoint gather (w : View) (ps : list Prop_id) : option (list PropValue) :=
  match ps with
  | [] => Some []
  | p :: ps' =>
      match w p, gather w ps' with
      | Some v, Some vs => Some (v :: vs)
      | _, _ => None
      end
  end.

Record AppState : Type := mkAppState {
  globals : Globals;
  page : Component;
  view : View
}.

(** Running one callback: its return values replace its declared outputs;
    when it raises, the page keeps what it showed. *)
Definition fire (cb : Callback) (st : AppState) : AppState :=
  match gather (view st) (inputs cb) with
  | None => st
  | Some args =>
      match handler cb args (globals st) with
      | (Ok outs, g') =>
          {| globals := g'; page := page st;
             view := set_props (outputs cb) outs (view st) |}
      | (Raise _, g') =>
          {| globals := g'; page := page st; view := view st |}
      end
  end.

Definition depends_on (ctl : string) (cb : Callback) : bool :=
  existsb (prop_eqb (ctl, "value")) (inputs cb).

Definition dropdown_value (v : DropdownValue) : PropValue :=
  match v with
  | Single (Some s) => VStr s
  | Single None => VNull
  | Multi l => VList l
  end.

(** A selection change on a dropdown of the page: the new value is stored
    and every callback that takes it as input runs. *)
Definition on_change (ctl : string) (v : DropdownValue) (st : AppState)
  : AppState :=
  if existsb (String.eqb ctl) (map fst (dropdowns (page st))) then
    fold_left (fun s cb => fire cb s)
              (filter (depends_on ctl) callbacks)
              {| globals := globals st; page := page st;
                 view := set_prop (ctl, "value") (dropdown_value v) (view st) |}
  else st.

(** The figures and dropdown values the layout itself carries. *)
Fixpoint initial_props (c : Component) : list (Prop_id * PropValue) :=
  match c with
  | Dropdown i _ v _ _ => [((i, "value"), dropdown_value v)]
  | Graph i (Some f) => [((i, "figure"), VFigure f)]
  | Div _ ch | Tabs ch | Tab _ ch => flat_map initial_props ch
  | _ => []
  end.

(** The module body with what can stop it before the app is built.
    Line 71 reads [geo_df['name']]: the table read from a boundary file
    without features has no such column.  Line 72 takes [.str] of the
    [Boroughs] column of the per-borough aggregate: when the CSV has rows
    and none of them names a borough, [read_csv] gives a float64 column of
    NaN for [Boroughs], the aggregate has no row and a float64 key
    column, and the accessor refuses a column that is not of strings. *)
Definition module_body (csv : list CsvRow) (geojson : list Boundary)
  : PyResult Globals :=
  match geojson with
  | [] => Raise KeyError
  | _ =>
      match csv with
      | [] => Ok (startup csv geojson)
      | _ =>
          if existsb (fun r => keyed (csv_Boroughs r)) csv
          then Ok (startup csv geojson)
          else Raise AttributeError
      end
  end.

(** Serving the page: the module body runs, the layout is built from the
    start-up state, and every callback whose inputs are on the page runs
    once. *)
Definition serve (csv : list CsvRow) (geojson : list Boundary)
  : PyResult AppState :=
  match module_body csv geojson with
  | Raise e => Raise e
  | Ok g =>
      match layout g with
      | Raise e => Raise e
      | Ok p =>
          let w := fold_left (fun w pv => set_prop (fst pv) (snd pv) w)
                             (initial_props p) (fun _ => None) in
          Ok (fold_left (fun s cb => fire cb s) callbacks
                        {| globals := g; page := p; view := w |})
      end
  end.

(** ** Vocabulary of the properties *)

(** The law of a key order that grouping relies on: two keys compare
    equal exactly when they are the same key. *)
Class GroupKeyOk (K : Type) `{GroupKey K} : Prop := {
  key_compare_eq : forall a b : K, key_compare a b = Eq <-> a = b
}.

Arguments GroupKeyOk K {_}.

(** The laws that make [key_compare] a strict total order. *)
Class GroupKeyOrder (K : Type) `{GroupKey K} : Prop := {
  key_compare_antisym : forall a b : K,
    key_compare b a = CompOpp (key_compare a b);
  key_compare_trans : forall a b c : K,
    key_compare a b = Lt -> key_compare b c = Lt -> key_compare a c = Lt
}.

Arguments GroupKeyOrder K {_}.

Definition key_lt {K : Type} `{GroupKey K} (a b : K) : Prop :=
  key_compare a b = Lt.

(** The exact sum of a list of integers. *)
Definition Zsum (l : list Z) : Z := fold_right Z.add 0 l.

(** An aggregate has exactly one row per distinct key of its input; a row
    of which a key cell is NaN has no key. *)
Definition one_row_per_key {K R O : Type} `{GroupKey K}
           (key : R -> option K) (out_key : O -> K)
           (input : list R) (output : list O) : Prop :=
  NoDup (map out_key output)
  /\ (forall k, In k (map out_key output) <-> In (Some k) (map key input))
  /\ List.length output = List.length (unique (present_keys key input)).

(** Each row of an aggregate holds the sum, wrapped to int64, of the
    counts of the input rows that have its key. *)
Definition counts_by_key {K R O : Type} `{GroupKey K}
           (key : R -> option K) (count : R -> Z)
           (out_key : O -> K) (out_count : O -> Z)
           (input : list R) (output : list O) : Prop :=
  forall o, In o output ->
    out_count o
    = Int64.wrap
        (Zsum (map count (filter (fun r => has_key (out_key o) (key r)) input))).

(** The summed column of an aggregate adds up, as an int64 sum, to the
    counts of the input rows that have a key. *)
Definition count_preserved {K R O : Type}
           (key : R -> option K) (count : R -> Z) (out_count : O -> Z)
           (input : list R) (output : list O) : Prop :=
  Int64.wrap (Zsum (map out_count output))
  = Int64.wrap (Zsum (map count (filter (fun r => keyed (key r)) input))).

(** The three together. *)
Definition aggregates {K R O : Type} `{GroupKey K}
           (key : R -> option K) (count : R -> Z)
           (out_key : O -> K) (out_count : O -> Z)
           (input : list R) (output : list O) : Prop :=
  one_row_per_key key out_key input output
  /\ counts_by_key key count out_key out_count input output
  /\ count_preserved key count out_count input output.

(** The group keys of the script, read off a row of the CSV. *)
Definition csv_borough_season_key (r : CsvRow) : option (string * string) :=
  match csv_Boroughs r with
  | Some b => Some (b, get_season (csv_Month r))
  | None => None
  end.

Definition csv_year_crime_key (r : CsvRow) : option (Z * string) :=
  match csv_MajorCrime r with
  | Some c => Some (csv_Year r, c)
  | None => None
  end.

(** The rows of one borough, the sum of its counts and the mean of its
    rates, read off the table directly. *)
Definition rows_of_borough (b : string) (rows : list CrimeRecord)
  : list CrimeRecord :=
  filter (fun r => cell_is b (Boroughs r)) rows.

Definition borough_count (rows : list CrimeRecord) (b : string) : Z :=
  Int64.wrap (Zsum (map CrimeCount (rows_of_borough b rows))).

Definition borough_rate (rows : list CrimeRecord) (b : string) : float :=
  F64.group_mean (map CrimeRatePer1000 (rows_of_borough b rows)).

(** The rows of one borough within one season. *)
Definition rows_of_borough_season (k : string * string)
           (rows : list CrimeRecord) : list CrimeRecord :=
  filter (fun r => cell_is (fst k) (Boroughs r)
                   && String.eqb (Season r) (snd k)) rows.

(** The (borough, season) pairs of one season, in group order. *)
Definition pairs_of_season (s : string) (rows : list CrimeRecord)
  : list (string * string) :=
  filter (fun k => String.eqb (snd k) s)
         (group_keys borough_season_key rows).

(** The rows of one season. *)
Definition rows_of_season (s : string) (rows : list CrimeRecord)
  : list CrimeRecord :=
  filter (fun r => String.eqb (Season r) s) rows.

(** The rows of one season that name a borough. *)
Definition named_rows_of_season (s : string) (rows : list CrimeRecord)
  : list CrimeRecord :=
  filter (fun r => String.eqb (Season r) s && keyed (Boroughs r)) rows.

(** [m] is the largest of the values of [xs] that are not NaN. *)
Definition is_max_of (xs : list float) (m : float) : Prop :=
  In m xs /\ PrimFloat.is_nan m = false
  /\ forall x, In x xs -> PrimFloat.is_nan x = false -> PrimFloat.leb x m = true.

(** The states the served page can be in: the state right after the page
    is served, and any state a selection change leads to. *)
Inductive reachable (csv : list CsvRow) (geojson : list Boundary)
  : AppState -> Prop :=
| reachable_serve : forall st,
    serve csv geojson = Ok st -> reachable csv geojson st
| reachable_change : forall st ctl v,
    reachable csv geojson st -> reachable csv geojson (on_change ctl v st).

(** ** Sample data *)

Definition camden_csv (y1 p1 y2 p2 : Z) : list CsvRow :=
  [ {| csv_Boroughs := Some "Camden"; csv_Year := y1; csv_Month := 1;
       csv_MajorCrime := Some "Burglary"; csv_CrimeCount := 10;
       csv_CrimeRatePer1000 := 2.0%float; csv_Population := p1 |};
    {| csv_Boroughs := Some "Camden"; csv_Year := y2; csv_Month := 7;
       csv_MajorCrime := Some "Burglary"; csv_CrimeCount := 20;
       csv_CrimeRatePer1000 := 4.0%float; csv_Population := p2 |} ].

Definition sample_csv : list CsvRow := camden_csv 2023 270000 2023 270000.

Definition sample_geojson : list Boundary :=
  [ {| name := "Camden"; geometry := [] |} ].

(** Three January records: two in Camden with rate 1.0 and one in
    Lambeth with rate 4.0. *)
Definition uneven_csv : list CsvRow :=
  [ {| csv_Boroughs := Some "Camden"; csv_Year := 2023; csv_Month := 1;
       csv_MajorCrime := Some "Burglary"; csv_CrimeCount := 5;
       csv_CrimeRatePer1000 := 1.0%float; csv_Population := 270000 |};
    {| csv_Boroughs := Some "Camden"; csv_Year := 2023; csv_Month := 1;
       csv_MajorCrime := Some "Robbery"; csv_CrimeCount := 7;
       csv_CrimeRatePer1000 := 1.0%float; csv_Population := 270000 |};
    {| csv_Boroughs := Some "Lambeth"; csv_Year := 2023; csv_Month := 1;
       csv_MajorCrime := Some "Burglary"; csv_CrimeCount := 9;
       csv_CrimeRatePer1000 := 4.0%float; csv_Population := 320000 |} ].

(** One Burglary record of January, with the given borough cell, count
    and rate. *)
Definition burglary (borough : option string) (count : Z) (rate : float)
  : CsvRow :=
  {| csv_Boroughs := borough; csv_Year := 2023; csv_Month := 1;
     csv_MajorCrime := Some "Burglary"; csv_CrimeCount := count;
     csv_CrimeRatePer1000 := rate; csv_Population := 270000 |}.

(** A Camden record with count 5 and a record with count 10 whose borough
    cell is blank. *)
Definition blank_borough_csv : list CsvRow :=
  [ burglary (Some "Camden") 5 1.0%float; burglary None 10 4.0%float ].

(** A Robbery record of Camden and a Burglary record whose borough cell
    is blank. *)
Definition nameless_burglary_csv : list CsvRow :=
  [ {| csv_Boroughs := Some "Camden"; csv_Year := 2023; csv_Month := 1;
       csv_MajorCrime := Some "Robbery"; csv_CrimeCount := 7;
       csv_CrimeRatePer1000 := 1.0%float; csv_Population := 270000 |};
    burglary None 10 4.0%float ].

(** Three Camden records with the rates 0.1, 0.2 and 0.3. *)
#[warnings="-inexact-float"] Definition tenths_csv : list CsvRow :=
  [ burglary (Some "Camden") 1 0.1%float;
    burglary (Some "Camden") 2 0.2%float;
    burglary (Some "Camden") 3 0.3%float ].

(** Ten Camden records with the rate 0.1 each. *)
#[warnings="-inexact-float"] Definition ten_tenths_csv : list CsvRow :=
  repeat (burglary (Some "Camden") 1 0.1%float) 10.

(** ** Vocabulary of the further properties *)

(** A string that is empty or starts with a character that is not a blank. *)
Definition starts_clean (s : string) : Prop :=
  match s with
  | EmptyString => True
  | String c _ => PyStr.is_space c = false
  end.

(** A string that is empty or ends with a character that is not a blank. *)
Fixpoint ends_clean (s : string) : Prop :=
  match s with
  | EmptyString => True
  | String c EmptyString => PyStr.is_space c = false
  | String _ s' => ends_clean s'
  end.

(** The names of the boundary features drawn by a merged table. *)
Definition merged_names (rows : list (Boundary * GeoAggRow)) : list string :=
  map (fun x => name (fst x)) rows.

(** The initial value of a dropdown is offered by its options. *)
Definition value_offered
           (d : string * (list (option string) * DropdownValue)) : Prop :=
  match snd (snd d) with
  | Single v => In v (fst (snd d))
  | Multi vs => incl vs (fst (snd d))
  end.

(** The page served for the sample data. *)
Definition sample_state : AppState :=
  match serve sample_csv sample_geojson with
  | Ok st => st
  | Raise _ => {| globals := startup sample_csv sample_geojson;
                  page := Div None []; view := fun _ => None |}
  end.

(** The four season labels. *)
Definition season_labels : list string :=
  ["Winter"; "Spring"; "Summer"; "Autumn"].

(** What a callback returns in a state: its output values, or nothing
    when an input is missing or the body raises. *)
Definition outputs_of_run (cb : Callback) (st : AppState)
  : option (list PropValue) :=
  match gather (view st) (inputs cb) with
  | Some args =>
      match fst (handler cb args (globals st)) with
      | Ok outs => Some outs
      | Raise _ => None
      end
  | None => None
  end.

(** Two states that show the same page: same module-level state, same
    layout, and the same value for every property. *)
Definition same_page (a b : AppState) : Prop :=
  globals a = globals b /\ page a = page b /\ forall q, view a q = view b q.

(** * Properties *)

Unset Implicit Arguments.

(** ** int64 sums *)

Module Int64Facts.

Lemma wrap_add_l (a b : Z) : Int64.wrap (Int64.wrap a + b) = Int64.wrap (a + b).
Proof.
  unfold Int64.wrap. f_equal.
  replace ((a + 2 ^ 63) mod 2 ^ 64 - 2 ^ 63 + b + 2 ^ 63)
    with ((a + 2 ^ 63) mod 2 ^ 64 + b) by ring.
  replace (a + b + 2 ^ 63) with ((a + 2 ^ 63) + b) by ring.
  now rewrite Zplus_mod_idemp_l.
Qed.

Lemma wrap_add_r (a b : Z) : Int64.wrap (a + Int64.wrap b) = Int64.wrap (a + b).
Proof. rewrite Z.add_comm, wrap_add_l. f_equal. ring. Qed.

Lemma wrap_idem (a : Z) : Int64.wrap (Int64.wrap a) = Int64.wrap a.
Proof.
  replace (Int64.wrap a) with (Int64.wrap a + 0) at 1 by ring.
  rewrite wrap_add_l. f_equal. ring.
Qed.

Lemma wrap_small (a : Z) : - 2 ^ 63 <= a < 2 ^ 63 -> Int64.wrap a = a.
Proof. intros Ha. unfold Int64.wrap. rewrite Z.mod_small; lia. Qed.

Lemma fold_add (l : list Z) (a : Z) :
  fold_left Int64.add l (Int64.wrap a) = Int64.wrap (a + Zsum l).
Proof.
  revert a. induction l as [|x l IH]; intros a; simpl.
  - f_equal. ring.
  - unfold Int64.add at 2. rewrite wrap_add_l, IH. f_equal. ring.
Qed.

(** The int64 sum is the exact sum, wrapped once. *)
Lemma sum_wrap (l : list Z) : Int64.sum l = Int64.wrap (Zsum l).
Proof.
  unfold Int64.sum. change 0 with (Int64.wrap 0) at 1. now rewrite fold_add.
Qed.

Lemma Zsum_app (l1 l2 : list Z) : Zsum (l1 ++ l2) = Zsum l1 + Zsum l2.
Proof. induction l1; simpl; lia. Qed.

(** Without overflow the int64 sum is the exact sum. *)
Lemma sum_exact (l : list Z) :
  - 2 ^ 63 <= Zsum l < 2 ^ 63 -> Int64.sum l = Zsum l.
Proof. intros Hl. rewrite sum_wrap. now apply wrap_small. Qed.

(** Wrapping the summands first does not change the int64 sum. *)
Lemma sum_map_wrap (l : list Z) :
  Int64.wrap (Zsum (map Int64.wrap l)) = Int64.wrap (Zsum l).
Proof.
  induction l as [|x l IH]; simpl; [reflexivity|].
  rewrite wrap_add_l. rewrite <- wrap_add_r, IH, wrap_add_r. reflexivity.
Qed.

End Int64Facts.

(** ** Keys *)

#[export] Instance GroupKeyOk_string : GroupKeyOk string.
Proof.
  constructor. intros a b; simpl. split.
  - apply String.compare_eq_iff.
  - intros ->. induction b as [|c b IH]; simpl; [reflexivity|].
    unfold Ascii.compare. now rewrite N.compare_refl.
Qed.

#[export] Instance GroupKeyOk_Z : GroupKeyOk Z.
Proof. constructor. intros a b; simpl. apply Z.compare_eq_iff. Qed.

#[export] Instance GroupKeyOk_pair (A B : Type) `{GroupKeyOk A} `{GroupKeyOk B} :
  GroupKeyOk (A * B).
Proof.
  constructor. intros [a1 b1] [a2 b2]; simpl. split.
  - destruct (key_compare a1 a2) eqn:E; try discriminate.
    intros E2. apply key_compare_eq in E, E2. now subst.
  - intros [= -> ->].
    assert (E : key_compare a2 a2 = Eq) by now apply key_compare_eq.
    rewrite E. now apply key_compare_eq.
Qed.

#[export] Instance GroupKeyOk_option (A : Type) `{GroupKeyOk A} :
  GroupKeyOk (option A).
Proof.
  constructor. intros [a|] [b|]; simpl; split; try congruence.
  - intros E. apply key_compare_eq in E. now subst.
  - intros [= ->]. now apply key_compare_eq.
Qed.

(** ** Grouping *)

Section GroupByFacts.

Context {K : Type} `{GroupKeyOk K}.

Lemma key_eqb_eq (a b : K) : key_eqb a b = true <-> a = b.
Proof.
  unfold key_eqb. rewrite <- key_compare_eq.
  destruct (key_compare a b); split; congruence.
Qed.

Lemma key_eqb_refl (a : K) : key_eqb a a = true.
Proof. now apply key_eqb_eq. Qed.

Lemma key_eqb_neq (a b : K) : key_eqb a b = false <-> a <> b.
Proof.
  rewrite <- key_eqb_eq. destruct (key_eqb a b); split; congruence.
Qed.

Lemma key_eq_dec (a b : K) : {a = b} + {a <> b}.
Proof.
  destruct (key_eqb a b) eqn:E.
  - left. now apply key_eqb_eq.
  - right. now apply key_eqb_neq.
Qed.

Lemma existsb_key_eqb (x : K) (ks : list K) :
  existsb (key_eqb x) ks = true <-> In x ks.
Proof.
  rewrite existsb_exists. split.
  - intros (y & Hy & E). apply key_eqb_eq in E. now subst.
  - intros Hx. exists x. split; [assumption | apply key_eqb_refl].
Qed.

Lemma has_key_eq (k : K) (c : option K) : has_key k c = true <-> c = Some k.
Proof.
  destruct c as [k'|]; simpl.
  - rewrite key_eqb_eq. split; congruence.
  - split; discriminate.
Qed.

Lemma has_key_keyed (k : K) (c : option K) : has_key k c = true -> keyed c = true.
Proof. intros E. apply has_key_eq in E. now subst. Qed.

Lemma existsb_has_key (c : option K) (ks : list K) :
  existsb (fun k => has_key k c) ks = true <-> exists k, c = Some k /\ In k ks.
Proof.
  rewrite existsb_exists. split.
  - intros (k & Hk & E). apply has_key_eq in E. eauto.
  - intros (k & -> & Hk). exists k. split; [assumption|]. now apply has_key_eq.
Qed.

Lemma unique_In (l : list K) (x : K) : In x (unique l) <-> In x l.
Proof.
  induction l as [|k l IH]; simpl; [tauto|].
  rewrite filter_In, IH, negb_true_iff, key_eqb_neq.
  destruct (key_eq_dec k x); intuition congruence.
Qed.

Lemma unique_NoDup (l : list K) : NoDup (unique l).
Proof.
  induction l as [|k l IH]; simpl; constructor.
  - rewrite filter_In, negb_true_iff, key_eqb_neq. tauto.
  - now apply NoDup_filter.
Qed.

Lemma insert_sorted_perm (k : K) (l : list K) :
  Permutation (insert_sorted k l) (k :: l).
Proof.
  induction l as [|h t IH]; simpl; [reflexivity|].
  destruct (key_compare k h); try reflexivity.
  rewrite IH. apply perm_swap.
Qed.

Lemma sort_keys_perm (l : list K) : Permutation (sort_keys l) l.
Proof.
  induction l as [|k l IH]; simpl; [reflexivity|].
  rewrite insert_sorted_perm. now constructor.
Qed.

Lemma present_keys_In {R : Type} (key : R -> option K) (rows : list R) (k : K) :
  In k (present_keys key rows) <-> In (Some k) (map key rows).
Proof.
  unfold present_keys. rewrite in_flat_map, in_map_iff. split.
  - intros (r & Hr & Hk). exists r. split; [|assumption].
    destruct (key r) as [k'|]; [|destruct Hk].
    destruct Hk as [-> | []]. reflexivity.
  - intros (r & E & Hr). exists r. split; [assumption|].
    rewrite E. now left.
Qed.

Lemma groupby_keys {R : Type} (key : R -> option K) (rows : list R) :
  map fst (groupby key rows) = group_keys key rows.
Proof. unfold groupby. rewrite map_map. simpl. apply map_id. Qed.

Lemma group_keys_In {R : Type} (key : R -> option K) (rows : list R) (k : K) :
  In k (group_keys key rows) <-> In (Some k) (map key rows).
Proof.
  unfold group_keys. rewrite <- present_keys_In.
  rewrite <- (unique_In (present_keys key rows)).
  split; apply Permutation_in.
  - apply sort_keys_perm.
  - symmetry. apply sort_keys_perm.
Qed.

Lemma group_keys_NoDup {R : Type} (key : R -> option K) (rows : list R) :
  NoDup (group_keys key rows).
Proof.
  unfold group_keys. eapply Permutation_NoDup.
  - symmetry. apply sort_keys_perm.
  - apply unique_NoDup.
Qed.

Lemma group_keys_length {R : Type} (key : R -> option K) (rows : list R) :
  List.length (group_keys key rows)
  = List.length (unique (present_keys key rows)).
Proof. apply Permutation_length, sort_keys_perm. Qed.

(** There is no group exactly when no row has a key. *)
Lemma group_keys_nil {R : Type} (key : R -> option K) (rows : list R) :
  group_keys key rows = [] <-> forall r, In r rows -> key r = None.
Proof.
  split.
  - intros E r Hr. destruct (key r) as [k|] eqn:Ek; [|reflexivity].
    assert (Hin : In k (group_keys key rows)).
    { apply group_keys_In, in_map_iff. now exists r. }
    rewrite E in Hin. destruct Hin.
  - intros Hall. destruct (group_keys key rows) as [|k ks] eqn:E; [reflexivity|].
    assert (Hin : In k (group_keys key rows)) by (rewrite E; now left).
    apply group_keys_In, in_map_iff in Hin. destruct Hin as (r & Ek & Hr).
    rewrite (Hall r Hr) in Ek. discriminate.
Qed.

(** No group is empty. *)
Lemma group_rows_nonempty {R : Type} (key : R -> option K) (rows : list R)
      (k : K) :
  In k (group_keys key rows) -> group_rows key rows k <> [].
Proof.
  intros Hk E. apply group_keys_In, in_map_iff in Hk.
  destruct Hk as (r & Ek & Hr).
  assert (Hin : In r (group_rows key rows k)).
  { apply filter_In. split; [assumption | now apply has_key_eq]. }
  rewrite E in Hin. destruct Hin.
Qed.

(** Splitting a filtered sum along two exclusive tests. *)
Lemma Zsum_filter_orb {R : Type} (c : R -> Z) (p q : R -> bool) (rows : list R) :
  (forall r, p r = true -> q r = false) ->
  Zsum (map c (filter (fun r => p r || q r) rows))
  = Zsum (map c (filter p rows)) + Zsum (map c (filter q rows)).
Proof.
  intros Hpq. induction rows as [|r rows IH]; simpl; [reflexivity|].
  destruct (p r) eqn:Ep; simpl.
  - rewrite (Hpq r Ep). simpl. lia.
  - destruct (q r); simpl; lia.
Qed.

(** Summing group by group over distinct keys visits each row whose key
    is listed exactly once. *)
Lemma Zsum_groups {R : Type} (key : R -> option K) (c : R -> Z)
      (rows : list R) (ks : list K) :
  NoDup ks ->
  Zsum (map (fun k => Zsum (map c (group_rows key rows k))) ks)
  = Zsum (map c (filter (fun r => existsb (fun k => has_key k (key r)) ks)
                        rows)).
Proof.
  induction 1 as [|k ks Hk Hnd IH]; simpl.
  - induction rows; simpl; auto.
  - rewrite IH. unfold group_rows. symmetry. apply Zsum_filter_orb.
    intros r Er. apply has_key_eq in Er.
    destruct (existsb (fun k0 => has_key k0 (key r)) ks) eqn:E; [|reflexivity].
    apply existsb_has_key in E. destruct E as (k' & E & Hk').
    rewrite Er in E. injection E as <-. contradiction.
Qed.

Lemma filter_all {R : Type} (p : R -> bool) (rows : list R) :
  (forall r, In r rows -> p r = true) -> filter p rows = rows.
Proof.
  induction rows as [|r rows IH]; simpl; intros Hp; [reflexivity|].
  rewrite Hp by now left. f_equal. apply IH. intros; apply Hp; now right.
Qed.

(** The per-group int64 sums over listed keys add up, wrapped, to the
    exact sum over the rows whose key is listed. *)
Lemma sum_groups_filter {R : Type} (key : R -> option K) (c : R -> Z)
      (rows : list R) (ks : list K) :
  NoDup ks ->
  Int64.wrap
    (Zsum (map (fun k => Int64.sum (map c (group_rows key rows k))) ks))
  = Int64.wrap
      (Zsum (map c (filter (fun r => existsb (fun k => has_key k (key r)) ks)
                           rows))).
Proof.
  intros Hnd. rewrite <- (Zsum_groups key c rows ks Hnd).
  replace (map (fun k => Int64.sum (map c (group_rows key rows k))) ks)
    with (map Int64.wrap
              (map (fun k => Zsum (map c (group_rows key rows k))) ks)).
  - apply Int64Facts.sum_map_wrap.
  - rewrite map_map. apply map_ext. intros k.
    symmetry. apply Int64Facts.sum_wrap.
Qed.

(** The rows that belong to some group are the rows that have a key. *)
Lemma filter_group_keys {R : Type} (key : R -> option K) (rows : list R) :
  filter (fun r => existsb (fun k => has_key k (key r)) (group_keys key rows))
         rows
  = filter (fun r => keyed (key r)) rows.
Proof.
  apply filter_ext_in. intros r Hr. apply Bool.eq_iff_eq_true.
  rewrite existsb_has_key. split.
  - intros (k & -> & _). reflexivity.
  - destruct (key r) as [k|] eqn:Ek; [|discriminate]. intros _.
    exists k. split; [reflexivity|].
    apply group_keys_In, in_map_iff. now exists r.
Qed.

Lemma sum_groups {R : Type} (key : R -> option K) (c : R -> Z) (rows : list R) :
  Int64.wrap
    (Zsum (map (fun k => Int64.sum (map c (group_rows key rows k)))
               (group_keys key rows)))
  = Int64.wrap (Zsum (map c (filter (fun r => keyed (key r)) rows))).
Proof.
  rewrite sum_groups_filter by apply group_keys_NoDup.
  now rewrite filter_group_keys.
Qed.

(** [agg_sum_mean] row by row. *)
Lemma agg_sum_mean_rows {R : Type} (key : R -> option K) (c : R -> Z)
      (rate : R -> float) (rows : list R) :
  agg_sum_mean key c rate rows
  = map (fun k => {| agg_key := k;
                     agg_CrimeCount := Int64.sum (map c (group_rows key rows k));
                     agg_CrimeRatePer1000 :=
                       F64.group_mean (map rate (group_rows key rows k)) |})
        (group_keys key rows).
Proof. unfold agg_sum_mean, groupby. now rewrite map_map. Qed.

Lemma agg_sum_rows {R : Type} (key : R -> option K) (c : R -> Z)
      (rows : list R) :
  agg_sum key c rows
  = map (fun k => (k, Int64.sum (map c (group_rows key rows k))))
        (group_keys key rows).
Proof. unfold agg_sum, groupby. now rewrite map_map. Qed.

Lemma agg_mean_rows {R : Type} (key : R -> option K) (rate : R -> float)
      (rows : list R) :
  agg_mean key rate rows
  = map (fun k => (k, F64.group_mean (map rate (group_rows key rows k))))
        (group_keys key rows).
Proof. unfold agg_mean, groupby. now rewrite map_map. Qed.

(** What every aggregation of the script has in common: a table with one
    row per group key, each row holding the int64 sum of its group. *)
Lemma grouped_sums_aggregate {R O : Type} (key : R -> option K) (c : R -> Z)
      (out_key : O -> K) (out_count : O -> Z) (row : K -> O) (rows : list R) :
  (forall k, out_key (row k) = k) ->
  (forall k, out_count (row k) = Int64.sum (map c (group_rows key rows k))) ->
  aggregates key c out_key out_count rows (map row (group_keys key rows)).
Proof.
  intros Hkey Hcount.
  assert (Ekeys : map out_key (map row (group_keys key rows))
                  = group_keys key rows).
  { rewrite map_map. erewrite map_ext by apply Hkey. apply map_id. }
  split; [|split].
  - unfold one_row_per_key. rewrite Ekeys, length_map.
    split; [apply group_keys_NoDup|].
    split; [apply group_keys_In | apply group_keys_length].
  - intros o Ho. apply in_map_iff in Ho. destruct Ho as (k & <- & _).
    rewrite Hcount, Hkey, Int64Facts.sum_wrap. reflexivity.
  - unfold count_preserved. rewrite map_map.
    erewrite map_ext by apply Hcount. apply sum_groups.
Qed.

Lemma agg_sum_mean_ok {R : Type} (key : R -> option K) (c : R -> Z)
      (rate : R -> float) (rows : list R) :
  aggregates key c (@agg_key K) (@agg_CrimeCount K) rows
             (agg_sum_mean key c rate rows).
Proof.
  rewrite agg_sum_mean_rows. now apply grouped_sums_aggregate.
Qed.

Lemma agg_sum_ok {R : Type} (key : R -> option K) (c : R -> Z) (rows : list R) :
  aggregates key c (@fst K Z) (@snd K Z) rows (agg_sum key c rows).
Proof.
  rewrite agg_sum_rows. now apply grouped_sums_aggregate.
Qed.

(** An aggregate of a table derived row by row is an aggregate of the
    table it derives from. *)
Lemma aggregates_map {R R' O : Type} (f : R' -> R) (key : R -> option K)
      (c : R -> Z) (out_key : O -> K) (out_count : O -> Z)
      (rows : list R') (output : list O) :
  aggregates key c out_key out_count (map f rows) output ->
  aggregates (fun r => key (f r)) (fun r => c (f r)) out_key out_count
             rows output.
Proof.
  assert (Ef : forall p : R -> bool,
             map c (filter p (map f rows))
             = map (fun r => c (f r)) (filter (fun r => p (f r)) rows)).
  { intros p. induction rows as [|r rows IH]; simpl; [reflexivity|].
    destruct (p (f r)); simpl; now rewrite IH. }
  intros (Hone & Hby & Hsum). split; [|split].
  - destruct Hone as (Hnd & Hin & Hlen). split; [exact Hnd|]. split.
    + intros k. rewrite Hin, map_map. tauto.
    + rewrite Hlen. f_equal. f_equal.
      unfold present_keys. rewrite flat_map_concat_map, map_map.
      now rewrite <- flat_map_concat_map.
  - intros o Ho. rewrite (Hby o Ho). now rewrite Ef.
  - unfold count_preserved in *. rewrite Hsum. now rewrite Ef.
Qed.

End GroupByFacts.

(** ** Group order *)

Lemma ascii_compare_trans (a b c : ascii) :
  Ascii.compare a b = Lt -> Ascii.compare b c = Lt -> Ascii.compare a c = Lt.
Proof.
  unfold Ascii.compare. rewrite !N.compare_lt_iff. lia.
Qed.

Lemma string_compare_trans (a b c : string) :
  String.compare a b = Lt -> String.compare b c = Lt -> String.compare a c = Lt.
Proof.
  revert b c. induction a as [|x a IH]; intros [|y b] [|z c]; simpl;
    try congruence.
  destruct (Ascii.compare x y) eqn:Exy; try discriminate;
    destruct (Ascii.compare y z) eqn:Eyz; try discriminate; intros Hab Hbc.
  - apply Ascii.compare_eq_iff in Exy, Eyz. subst.
    unfold Ascii.compare. rewrite N.compare_refl. eauto.
  - apply Ascii.compare_eq_iff in Exy. subst. now rewrite Eyz.
  - apply Ascii.compare_eq_iff in Eyz. subst. now rewrite Exy.
  - now rewrite (ascii_compare_trans x y z).
Qed.

#[export] Instance GroupKeyOrder_string : GroupKeyOrder string.
Proof.
  constructor; simpl.
  - intros a b. apply String.compare_antisym.
  - apply string_compare_trans.
Qed.

#[export] Instance GroupKeyOrder_Z : GroupKeyOrder Z.
Proof.
  constructor; simpl.
  - intros a b. apply Z.compare_antisym.
  - intros a b c. rewrite !Z.compare_lt_iff. lia.
Qed.

#[export] Instance GroupKeyOrder_pair (A B : Type)
  `{GroupKeyOk A} `{GroupKeyOk B} `{!GroupKeyOrder A} `{!GroupKeyOrder B} :
  GroupKeyOrder (A * B).
Proof.
  constructor.
  - intros [a1 b1] [a2 b2]. simpl.
    rewrite (key_compare_antisym a1 a2), (key_compare_antisym b1 b2).
    now destruct (key_compare a1 a2).
  - intros [a1 b1] [a2 b2] [a3 b3]. simpl.
    destruct (key_compare a1 a2) eqn:E12; try discriminate;
      destruct (key_compare a2 a3) eqn:E23; try discriminate;
      intros H12 H23.
    + apply key_compare_eq in E12, E23. subst.
      assert (E : key_compare a3 a3 = Eq) by now apply key_compare_eq.
      rewrite E. eapply key_compare_trans; eassumption.
    + apply key_compare_eq in E12. subst. now rewrite E23.
    + apply key_compare_eq in E23. subst. now rewrite E12.
    + now rewrite (key_compare_trans a1 a2 a3).
Qed.

Section GroupOrderFacts.

Context {K : Type} `{GroupKeyOk K} `{!GroupKeyOrder K}.

Lemma insert_sorted_sorted (k : K) (l : list K) :
  ~ In k l -> StronglySorted key_lt l -> StronglySorted key_lt (insert_sorted k l).
Proof.
  intros Hk Hs. induction Hs as [|h t Ht IH Hall]; simpl.
  - repeat constructor.
  - destruct (key_compare k h) eqn:E.
    + apply key_compare_eq in E. subst. exfalso. apply Hk. now left.
    + constructor; [now constructor|].
      constructor; [exact E|].
      eapply Forall_impl; [|exact Hall].
      intros x Hx. eapply key_compare_trans; eassumption.
    + constructor.
      * apply IH. intros Hin. apply Hk. now right.
      * assert (Hhk : key_lt h k).
        { unfold key_lt. rewrite (key_compare_antisym k h), E. reflexivity. }
        apply Forall_forall. intros x Hx.
        apply (Permutation_in _ (insert_sorted_perm k t)) in Hx.
        destruct Hx as [<- | Hx]; [exact Hhk|].
        rewrite Forall_forall in Hall. now apply Hall.
Qed.

Lemma sort_keys_sorted (l : list K) :
  NoDup l -> StronglySorted key_lt (sort_keys l).
Proof.
  induction 1 as [|k l Hk Hnd IH]; simpl; [constructor|].
  apply insert_sorted_sorted; [|exact IH].
  intros Hin. apply Hk. eapply Permutation_in; [apply sort_keys_perm | exact Hin].
Qed.

(** The groups come in strictly increasing key order. *)
Lemma group_keys_sorted {R : Type} (key : R -> option K) (rows : list R) :
  StronglySorted key_lt (group_keys key rows).
Proof. apply sort_keys_sorted, unique_NoDup. Qed.

Lemma sorted_nth_error (l : list K) (i j : nat) (a b : K) :
  StronglySorted key_lt l -> (i < j)%nat ->
  nth_error l i = Some a -> nth_error l j = Some b -> key_lt a b.
Proof.
  intros Hs. revert i j. induction Hs as [|h t Ht IH Hall]; intros i j Hij Hi Hj.
  - destruct i; discriminate.
  - destruct j as [|j]; [lia|]. simpl in Hj. destruct i as [|i]; simpl in Hi.
    + injection Hi as <-. rewrite Forall_forall in Hall.
      apply Hall. eapply nth_error_In; eassumption.
    + apply (IH i j); [lia | assumption | assumption].
Qed.

End GroupOrderFacts.

(** ** The aggregates of the script *)

Lemma group_borough_level_ok (rows : list CrimeRecord) :
  aggregates Boroughs CrimeCount geo_Boroughs geo_CrimeCount rows
             (group_borough_level rows).
Proof.
  unfold group_borough_level, groupby. rewrite map_map. simpl.
  now apply (grouped_sums_aggregate Boroughs CrimeCount geo_Boroughs
               geo_CrimeCount
               (fun k => {| geo_Boroughs := k;
                            geo_Population :=
                              F64.mean_int
                                (map Population (group_rows Boroughs rows k));
                            geo_CrimeCount :=
                              Int64.sum
                                (map CrimeCount (group_rows Boroughs rows k));
                            geo_CrimeRatePer1000 :=
                              F64.group_mean
                                (map CrimeRatePer1000
                                     (group_rows Boroughs rows k)) |})).
Qed.

(** C1: [get_season] is defined on every integer month; it returns
    "Winter" for 12, 1, 2, "Spring" for 3, 4, 5, "Summer" for 6, 7, 8,
    "Autumn" for 9, 10, 11, and "Autumn" for every month outside 1..12. *)
Theorem get_season_total_mapping :
  forall month : Z,
    In (get_season month) ["Winter"; "Spring"; "Summer"; "Autumn"]
    /\ (In month [12; 1; 2] -> get_season month = "Winter")
    /\ (In month [3; 4; 5] -> get_season month = "Spring")
    /\ (In month [6; 7; 8] -> get_season month = "Summer")
    /\ (In month [9; 10; 11] -> get_season month = "Autumn")
    /\ (month < 1 \/ 12 < month -> get_season month = "Autumn").
Proof.
  intros month. split; [|repeat split; intros Hm].
  - unfold get_season.
    repeat match goal with
           | |- context [if ?b then _ else _] => destruct b
           end; simpl; auto.
  - simpl in Hm. repeat (destruct Hm as [<- | Hm]; [reflexivity|]). contradiction.
  - simpl in Hm. repeat (destruct Hm as [<- | Hm]; [reflexivity|]). contradiction.
  - simpl in Hm. repeat (destruct Hm as [<- | Hm]; [reflexivity|]). contradiction.
  - simpl in Hm. repeat (destruct Hm as [<- | Hm]; [reflexivity|]). contradiction.
  - unfold get_season, in_list; simpl.
    repeat match goal with
           | |- context [Z.eqb ?a ?b] => destruct (Z.eqb_spec a b); try lia
           end.
    reflexivity.
Qed.

Lemma get_season_total_mapping_witness :
  get_season 12 = "Winter" /\ get_season 4 = "Spring"
  /\ get_season 8 = "Summer" /\ get_season 9 = "Autumn"
  /\ get_season 0 = "Autumn" /\ get_season 13 = "Autumn".
Proof.
  refine (conj _ (conj _ (conj _ (conj _ (conj _ _))))).
  - destruct (get_season_total_mapping 12) as (_ & H & _).
    apply H. simpl; auto.
  - destruct (get_season_total_mapping 4) as (_ & _ & H & _).
    apply H. simpl; auto.
  - destruct (get_season_total_mapping 8) as (_ & _ & _ & H & _).
    apply H. simpl; auto.
  - destruct (get_season_total_mapping 9) as (_ & _ & _ & _ & H & _).
    apply H. simpl; auto.
  - destruct (get_season_total_mapping 0) as (_ & _ & _ & _ & _ & H).
    apply H. lia.
  - destruct (get_season_total_mapping 13) as (_ & _ & _ & _ & _ & H).
    apply H. lia.
Defined.

(** C2 (as stated, it fails): of a Camden record with count 5 and a
    record with count 10 whose borough cell is blank, the per-borough
    aggregate keeps the single row (Camden, 5): its counts add up to 5,
    the counts of the table to 15. *)
Lemma rows_without_borough_leave_the_aggregate :
  let g := startup blank_borough_csv sample_geojson in
  borough_data g
  = [ {| agg_key := "Camden"; agg_CrimeCount := 5;
         agg_CrimeRatePer1000 := 1.0%float |} ]
  /\ Int64.sum (map (@agg_CrimeCount _) (borough_data g)) = 5
  /\ Int64.sum (map CrimeCount (crime_data g)) = 15
  /\ Zsum (map csv_CrimeCount blank_borough_csv) = 15.
Proof. vm_compute. repeat split. Qed.

(** C2 (amended): each aggregation of the script (per borough, per
    borough and season, per year and crime type, per borough with
    population, and the per-borough counts of the comparison callback) has
    exactly one row per distinct key among the rows of the CSV of which no
    key cell is blank; the CrimeCount of a row is the sum, wrapped to
    int64, of the CrimeCount cells of the CSV rows with that key; and the
    CrimeCount column of the aggregate adds up, as an int64 sum, to the
    CrimeCount cells of the CSV rows that have a key.  Rows with a blank
    key cell are left out. *)
Theorem aggregate_one_row_per_present_key_and_total :
  forall (csv : list CsvRow) (geojson : list Boundary)
         (selected_crime_type : string)
         (selected_boroughs : list (option string)),
    let g := startup csv geojson in
    let selected :=
      filter (fun r => cell_is selected_crime_type (csv_MajorCrime r)
                       && isin (csv_Boroughs r) selected_boroughs) csv in
    aggregates csv_Boroughs csv_CrimeCount
               (@agg_key _) (@agg_CrimeCount _) csv (borough_data g)
    /\ aggregates csv_borough_season_key csv_CrimeCount
                  (@agg_key _) (@agg_CrimeCount _) csv (seasonal_data g)
    /\ aggregates csv_year_crime_key csv_CrimeCount
                  (@agg_key _) (@agg_CrimeCount _) csv (yearly_data g)
    /\ (aggregates csv_Boroughs csv_CrimeCount geo_Boroughs geo_CrimeCount
                   csv (group_borough_level (map add_season csv))
        /\ borough_level_data g
           = normalize_boroughs (group_borough_level (map add_season csv)))
    /\ exists rows,
        update_borough_comparison selected_crime_type selected_boroughs g
        = (Ok {| chart := Bar; data := CountByBorough rows;
                 title := ("Crime Count for '" ++ selected_crime_type
                           ++ "' Across Selected Boroughs")%string |}, g)
        /\ aggregates csv_Boroughs csv_CrimeCount (@fst _ _) (@snd _ _)
                      selected rows.
Proof.
  intros csv geojson sel bs g selected.
  split; [apply (aggregates_map add_season Boroughs CrimeCount),
                agg_sum_mean_ok|].
  split; [apply (aggregates_map add_season borough_season_key CrimeCount),
                agg_sum_mean_ok|].
  split; [apply (aggregates_map add_season year_crime_key CrimeCount),
                agg_sum_mean_ok|].
  split.
  { split; [|reflexivity].
    apply (aggregates_map add_season Boroughs CrimeCount),
          group_borough_level_ok. }
  eexists. split; [reflexivity|].
  apply (aggregates_map add_season Boroughs CrimeCount).
  replace (map add_season selected)
    with (filter (fun r => cell_is sel (MajorCrime r)
                           && isin (Boroughs r) bs) (map add_season csv)).
  - apply agg_sum_ok.
  - unfold selected. induction csv as [|r csv IH]; simpl; [reflexivity|].
    destruct (cell_is sel (csv_MajorCrime r) && isin (csv_Boroughs r) bs);
      simpl; now rewrite IH.
Qed.

(** C3: filtering by a crime type that occurs in the table gives a
    non-empty table whose rows all carry that crime type; filtering by a
    crime type that does not occur gives no row. *)
Theorem filter_crime_type_present_absent :
  forall (rows : list CrimeRecord) (crime_type : string),
    (forall r, In r (filter_crime_type crime_type rows) ->
               MajorCrime r = Some crime_type)
    /\ (In (Some crime_type) (map MajorCrime rows) ->
        filter_crime_type crime_type rows <> [])
    /\ (~ In (Some crime_type) (map MajorCrime rows) ->
        filter_crime_type crime_type rows = []).
Proof.
  intros rows crime_type. unfold filter_crime_type.
  assert (Hcell : forall c, cell_is crime_type c = true <-> c = Some crime_type).
  { intros [v|]; simpl; [rewrite String.eqb_eq|]; split; congruence. }
  repeat split.
  - intros r Hr. apply filter_In in Hr. now apply Hcell.
  - intros Hin E. apply in_map_iff in Hin. destruct Hin as (r & Er & Hr).
    assert (H : In r (filter (fun r0 => cell_is crime_type (MajorCrime r0)) rows)).
    { apply filter_In. split; [assumption | now apply Hcell]. }
    rewrite E in H. destruct H.
  - intros Hnot.
    destruct (filter (fun r => cell_is crime_type (MajorCrime r)) rows)
      as [|r l] eqn:E; [reflexivity|].
    exfalso. apply Hnot.
    assert (H : In r (filter (fun r => cell_is crime_type (MajorCrime r)) rows))
      by (rewrite E; now left).
    apply filter_In in H. destruct H as [Hr Heq].
    apply Hcell in Heq. rewrite <- Heq. now apply in_map.
Qed.

Lemma filter_crime_type_present_absent_witness :
  filter_crime_type "Burglary" (map add_season sample_csv) <> []
  /\ filter_crime_type "Robbery" (map add_season sample_csv) = [].
Proof.
  split.
  - apply (filter_crime_type_present_absent
             (map add_season sample_csv) "Burglary").
    simpl. auto.
  - apply (filter_crime_type_present_absent
             (map add_season sample_csv) "Robbery").
    simpl. intros [H | [H | []]]; discriminate.
Defined.

(** C7: on the two Camden records (month 1 with count 10 and rate 2.0,
    month 7 with count 20 and rate 4.0) the per-borough aggregate is the
    single row (Camden, 30, 3.0) and the seasonal aggregate consists of
    exactly the rows (Camden, Winter, 10, 2.0) and (Camden, Summer, 20,
    4.0). *)
Theorem camden_end_to_end :
  forall (y1 p1 y2 p2 : Z) (geojson : list Boundary),
    let g := startup (camden_csv y1 p1 y2 p2) geojson in
    borough_data g
    = [ {| agg_key := "Camden"; agg_CrimeCount := 30;
           agg_CrimeRatePer1000 := 3.0%float |} ]
    /\ Permutation
         (seasonal_data g)
         [ {| agg_key := ("Camden", "Winter"); agg_CrimeCount := 10;
              agg_CrimeRatePer1000 := 2.0%float |};
           {| agg_key := ("Camden", "Summer"); agg_CrimeCount := 20;
              agg_CrimeRatePer1000 := 4.0%float |} ].
Proof.
  intros y1 p1 y2 p2 geojson g. split.
  - reflexivity.
  - change (seasonal_data g)
      with [ {| agg_key := ("Camden", "Summer"); agg_CrimeCount := 20;
                agg_CrimeRatePer1000 := 4.0%float |};
             {| agg_key := ("Camden", "Winter"); agg_CrimeCount := 10;
                agg_CrimeRatePer1000 := 2.0%float |} ].
    apply perm_swap.
Qed.

(** ** The seasonal callback *)

Lemma key_eqb_string (a b : string) : key_eqb a b = String.eqb a b.
Proof.
  apply Bool.eq_iff_eq_true. rewrite key_eqb_eq, String.eqb_eq. tauto.
Qed.

Lemma key_eqb_string_pair (a b : string * string) :
  key_eqb a b = String.eqb (fst a) (fst b) && String.eqb (snd a) (snd b).
Proof.
  apply Bool.eq_iff_eq_true.
  rewrite key_eqb_eq, andb_true_iff, !String.eqb_eq.
  destruct a, b; simpl. split; [intros [= -> ->]; auto | intros [-> ->]; auto].
Qed.

Lemma has_key_string (b : string) (c : option string) :
  has_key b c = cell_is b c.
Proof. destruct c as [v|]; simpl; [apply key_eqb_string | reflexivity]. Qed.

Lemma cell_is_eq (s : string) (c : option string) :
  cell_is s c = true <-> c = Some s.
Proof.
  destruct c as [v|]; simpl; [rewrite String.eqb_eq|]; split; congruence.
Qed.

Lemma group_rows_borough_season (rows : list CrimeRecord) (k : string * string) :
  group_rows borough_season_key rows k = rows_of_borough_season k rows.
Proof.
  unfold group_rows, rows_of_borough_season. apply filter_ext. intros r.
  unfold borough_season_key. destruct (Boroughs r) as [b|]; simpl; [|reflexivity].
  apply key_eqb_string_pair.
Qed.

Lemma filter_map_comm {A B : Type} (f : A -> B) (p : B -> bool) (l : list A) :
  filter p (map f l) = map f (filter (fun a => p (f a)) l).
Proof.
  induction l as [|a l IH]; simpl; [reflexivity|].
  destruct (p (f a)); simpl; now rewrite IH.
Qed.

(** The rows of the seasonal aggregate that belong to one season. *)
Lemma seasonal_rows_of_season (rows : list CrimeRecord) (s : string) :
  group_rows (fun a : AggRow (string * string) => Some (snd (agg_key a)))
             (group_borough_season rows) s
  = map (fun k => {| agg_key := k;
                     agg_CrimeCount :=
                       Int64.sum (map CrimeCount (rows_of_borough_season k rows));
                     agg_CrimeRatePer1000 :=
                       F64.group_mean
                         (map CrimeRatePer1000
                              (rows_of_borough_season k rows)) |})
        (pairs_of_season s rows).
Proof.
  unfold group_rows, group_borough_season, pairs_of_season.
  rewrite agg_sum_mean_rows, filter_map_comm. simpl.
  erewrite filter_ext by (intros k; apply key_eqb_string).
  apply map_ext. intros k. now rewrite group_rows_borough_season.
Qed.

Lemma pairs_of_season_NoDup (s : string) (rows : list CrimeRecord) :
  NoDup (pairs_of_season s rows).
Proof. apply NoDup_filter, group_keys_NoDup. Qed.

Lemma rows_of_season_pairs (rows : list CrimeRecord) (s : string) :
  filter (fun r => existsb (fun k => has_key k (borough_season_key r))
                           (pairs_of_season s rows)) rows
  = named_rows_of_season s rows.
Proof.
  unfold named_rows_of_season. apply filter_ext_in. intros r Hr.
  apply Bool.eq_iff_eq_true.
  rewrite existsb_has_key, andb_true_iff, String.eqb_eq.
  unfold pairs_of_season, borough_season_key. split.
  - intros (k & Ek & Hk). apply filter_In in Hk. destruct Hk as [_ Es].
    apply String.eqb_eq in Es.
    destruct (Boroughs r) as [b|]; [|discriminate].
    injection Ek as <-. simpl in Es. auto.
  - intros [Es Hb]. destruct (Boroughs r) as [b|] eqn:Eb; [|discriminate].
    exists (b, Season r). split; [reflexivity|].
    apply filter_In. split; [|now apply String.eqb_eq].
    apply group_keys_In, in_map_iff. exists r. split; [|assumption].
    unfold borough_season_key. now rewrite Eb.
Qed.

(** The count that the "All" branch shows for one season. *)
Lemma seasonal_all_count (rows : list CrimeRecord) (s : string) :
  Int64.sum (map (@agg_CrimeCount _)
                 (group_rows (fun a : AggRow (string * string) =>
                                Some (snd (agg_key a)))
                             (group_borough_season rows) s))
  = Int64.wrap (Zsum (map CrimeCount (named_rows_of_season s rows))).
Proof.
  rewrite seasonal_rows_of_season, map_map. simpl.
  rewrite <- rows_of_season_pairs, Int64Facts.sum_wrap.
  rewrite <- (sum_groups_filter borough_season_key CrimeCount rows
                               _ (pairs_of_season_NoDup s rows)).
  f_equal. f_equal. apply map_ext. intros k.
  now rewrite group_rows_borough_season.
Qed.

Lemma seasonal_seasons (rows : list CrimeRecord) (s : string) :
  In (Some s)
     (map (fun a : AggRow (string * string) => Some (snd (agg_key a)))
          (group_borough_season rows))
  <-> exists r, In r rows /\ Boroughs r <> None /\ Season r = s.
Proof.
  unfold group_borough_season. rewrite agg_sum_mean_rows, map_map. simpl.
  rewrite in_map_iff. split.
  - intros (k & [= <-] & Hk). apply group_keys_In, in_map_iff in Hk.
    destruct Hk as (r & Ek & Hr). exists r. split; [assumption|].
    unfold borough_season_key in Ek.
    destruct (Boroughs r) as [b|]; [|discriminate].
    injection Ek as <-. split; [discriminate | reflexivity].
  - intros (r & Hr & Hb & <-). destruct (Boroughs r) as [b|] eqn:Eb; [|congruence].
    exists (b, Season r). split; [reflexivity|].
    apply group_keys_In, in_map_iff. exists r. split; [|assumption].
    unfold borough_season_key. now rewrite Eb.
Qed.

(** C10 (as stated, it fails): of two January records, one of Camden
    with count 5 and one with count 10 whose borough cell is blank, the
    "All" branch shows Winter with the count 5, while the CrimeCount of
    the January rows of the table adds up to 15. *)
Lemma seasonal_all_leaves_out_rows_without_borough :
  let g := startup blank_borough_csv sample_geojson in
  fst (update_seasonal_graph "All" g)
  = Ok {| chart := Bar;
          data := BySeason [ {| agg_key := "Winter"; agg_CrimeCount := 5;
                                agg_CrimeRatePer1000 := 1.0%float |} ];
          title := "Seasonal Crime Patterns Across All Boroughs" |}
  /\ Int64.sum (map CrimeCount (rows_of_season "Winter" (crime_data g))) = 15
  /\ Zsum (map csv_CrimeCount
               (filter (fun r => String.eqb (get_season (csv_Month r)) "Winter")
                       blank_borough_csv)) = 15.
Proof. vm_compute. repeat split. Qed.

(** C10 (amended): the "All" branch of the seasonal callback
    re-aggregates the per-(borough, season) table.  It shows one row per
    season in which some row of the CSV names a borough; the CrimeCount of
    a row is the sum, wrapped to int64, of the CrimeCount cells of the CSV
    rows of that season that name a borough (rows with a blank borough
    cell are left out); its CrimeRatePer1000 is the grouped mean of the
    per-(borough, season) grouped means of that season.  On the three
    January records with rates 1.0 and 1.0 in Camden and 4.0 in Lambeth
    the branch shows (Winter, 21, 2.5), and the mean of CrimeRatePer1000
    over these rows is 2.0. *)
Theorem seasonal_all_sum_of_sums_mean_of_means :
  (forall (csv : list CsvRow) (geojson : list Boundary),
      let g := startup csv geojson in
      exists rows,
        update_seasonal_graph "All" g
        = (Ok {| chart := Bar; data := BySeason rows;
                 title := "Seasonal Crime Patterns Across All Boroughs" |}, g)
        /\ NoDup (map (@agg_key _) rows)
        /\ (forall s, In s (map (@agg_key _) rows)
                      <-> exists r, In r csv /\ csv_Boroughs r <> None
                                    /\ get_season (csv_Month r) = s)
        /\ forall row, In row rows ->
             agg_CrimeCount row
             = Int64.wrap
                 (Zsum (map csv_CrimeCount
                            (filter (fun r =>
                                       String.eqb (get_season (csv_Month r))
                                                  (agg_key row)
                                       && keyed (csv_Boroughs r)) csv)))
             /\ agg_CrimeRatePer1000 row
                = F64.group_mean
                    (map (fun k =>
                            F64.group_mean
                              (map CrimeRatePer1000
                                   (rows_of_borough_season
                                      k (map add_season csv))))
                         (pairs_of_season (agg_key row) (map add_season csv))))
  /\ fst (update_seasonal_graph "All" (startup uneven_csv sample_geojson))
     = Ok {| chart := Bar;
             data := BySeason [ {| agg_key := "Winter"; agg_CrimeCount := 21;
                                   agg_CrimeRatePer1000 := 2.5%float |} ];
             title := "Seasonal Crime Patterns Across All Boroughs" |}
  /\ F64.group_mean (map csv_CrimeRatePer1000 uneven_csv) = 2.0%float
  /\ F64.mean (map csv_CrimeRatePer1000 uneven_csv) = 2.0%float.
Proof.
  split; [|vm_compute; repeat split].
  intros csv geojson g. eexists. split; [reflexivity|].
  change (seasonal_data g) with (group_borough_season (map add_season csv)).
  set (rows := map add_season csv).
  rewrite agg_sum_mean_rows. rewrite !map_map. simpl. rewrite map_id.
  split; [apply group_keys_NoDup|].
  split.
  - intros s. rewrite group_keys_In, seasonal_seasons. unfold rows. split.
    + intros (r & Hr & Hb & Hs). apply in_map_iff in Hr.
      destruct Hr as (r0 & <- & Hr0). exists r0. auto.
    + intros (r0 & Hr0 & Hb & Hs). exists (add_season r0).
      split; [now apply in_map | auto].
  - intros row Hrow. apply in_map_iff in Hrow.
    destruct Hrow as (s & <- & Hs). simpl. split.
    + rewrite seasonal_all_count. unfold named_rows_of_season, rows.
      now rewrite filter_map_comm, map_map.
    + rewrite seasonal_rows_of_season, map_map. reflexivity.
Qed.

(** ** Geo merge *)

(** What the inner join keeps: the pairs of a left and a right row with
    the same name. *)
Lemma merge_In (left : list Boundary) (right : list GeoAggRow)
      (b : Boundary) (r : GeoAggRow) :
  In (b, r) (merge left right)
  <-> In b left /\ In r right /\ name b = geo_Boroughs r.
Proof.
  unfold merge. rewrite in_flat_map. split.
  - intros (l & Hl & Hin). apply in_map_iff in Hin.
    destruct Hin as (r' & [= -> ->] & Hr). apply filter_In in Hr.
    destruct Hr as [Hr E]. apply String.eqb_eq in E. auto.
  - intros (Hb & Hr & E). exists b. split; [assumption|].
    apply in_map. apply filter_In. split; [assumption|].
    now apply String.eqb_eq.
Qed.

(** The start-up merge matches names up to surrounding blanks and case,
    and keeps nothing else. *)
Lemma startup_merge_normalized (csv : list CsvRow) (geojson : list Boundary)
      (b : Boundary) (r : GeoAggRow) :
  In (b, r) (merged_geo_df (startup csv geojson))
  <-> exists b0 r0,
      In b0 geojson /\ In r0 (group_borough_level (map add_season csv))
      /\ PyStr.normalize (name b0) = PyStr.normalize (geo_Boroughs r0)
      /\ b = {| name := PyStr.normalize (name b0); geometry := geometry b0 |}
      /\ r = {| geo_Boroughs := PyStr.normalize (geo_Boroughs r0);
                geo_Population := geo_Population r0;
                geo_CrimeCount := geo_CrimeCount r0;
                geo_CrimeRatePer1000 := geo_CrimeRatePer1000 r0 |}.
Proof.
  simpl. rewrite merge_In. unfold normalize_names, normalize_boroughs.
  rewrite !in_map_iff. split.
  - intros ((b0 & <- & Hb0) & (r0 & <- & Hr0) & E). simpl in E.
    exists b0, r0. auto.
  - intros (b0 & r0 & Hb0 & Hr0 & E & -> & ->). simpl.
    split; [now exists b0|]. split; [now exists r0 | assumption].
Qed.

(** The merge of the map callback compares the normalized boundary names
    with the CSV spelling of the borough names. *)
Lemma map_callback_merge (g : Globals) (selected_crime_type : string)
      (b : Boundary) (r : GeoAggRow) :
  In (b, r) (merge (geo_df g)
                   (group_borough_level
                      (filter_crime_type selected_crime_type (crime_data g))))
  <-> In b (geo_df g)
      /\ In r (group_borough_level
                 (filter_crime_type selected_crime_type (crime_data g)))
      /\ name b = geo_Boroughs r.
Proof. apply merge_In. Qed.

(** C4 (evaluation at the failing input): with the borough spelled
    "Camden" in both files, the start-up merge keeps the Camden row (as it
    does when the boundary file spells it " camden "), and the map
    callback, which does not normalize the borough names of its
    aggregate, merges to no row at all. *)
Theorem geo_merge_callback_skips_normalization :
  let g := startup sample_csv sample_geojson in
  List.length (merged_geo_df g) = 1%nat
  /\ List.length
       (merged_geo_df
          (startup sample_csv [ {| name := " camden "; geometry := [] |} ]))
     = 1%nat
  /\ map (fun x => geo_Boroughs (snd x)) (merged_geo_df g) = ["camden"]
  /\ map geo_Boroughs
         (group_borough_level (filter_crime_type "Burglary" (crime_data g)))
     = ["Camden"]
  /\ map name (geo_df g) = ["camden"]
  /\ update_geospatial_map "Burglary" g
     = (Ok {| chart := ChoroplethMapbox; data := GeoRows [];
              title := "Crime Rates Across London Boroughs: Burglary" |}, g).
Proof. vm_compute. repeat split. Qed.

(** ** Page layout *)

Lemma layout_ids (g : Globals) (p : Component) :
  layout g = Ok p ->
  component_ids p
  = ["borough-crime-bar-chart"; "borough-pie-chart"; "borough-dropdown";
     "seasonal-crime-pattern-graph"; "yearly-trends-graph";
     "crime-type-dropdown"; "borough-comparison-dropdown";
     "borough-comparison-bar-chart"; "crime-type-dropdown-stats";
     "statistics-content"; "crime-data-table"; "crime-choropleth-map"].
Proof.
  unfold layout. destruct (unique (map MajorCrime (crime_data g))); [discriminate|].
  intros [= <-]. reflexivity.
Qed.

Lemma layout_dropdown_ids (g : Globals) (p : Component) :
  layout g = Ok p ->
  map fst (dropdowns p)
  = ["borough-dropdown"; "crime-type-dropdown";
     "borough-comparison-dropdown"; "crime-type-dropdown-stats"].
Proof.
  unfold layout. destruct (unique (map MajorCrime (crime_data g))); [discriminate|].
  intros [= <-]. reflexivity.
Qed.

Lemma layout_map_tab (g : Globals) (p : Component) :
  layout g = Ok p ->
  tab_children "Geospatial Map" p
  = [Div None [H3 "Geospatial Map of Borough Crime Data";
               Graph "crime-choropleth-map" (Some (fig g))]].
Proof.
  unfold layout. destruct (unique (map MajorCrime (crime_data g))); [discriminate|].
  intros [= <-]. reflexivity.
Qed.

(** C5 (evaluation at the failing input): on the page served for the
    sample data the map tab holds a heading and the graph only; no
    component has the id [crime-type-dropdown-map] that the map callback
    takes its input from, so a change of that control is not an event of
    the page and the map keeps the start-up figure. *)
Theorem map_tab_has_no_crime_type_selector :
  exists st,
    serve sample_csv sample_geojson = Ok st
    /\ inputs map_callback = [("crime-type-dropdown-map", "value")]
    /\ outputs map_callback = [("crime-choropleth-map", "figure")]
    /\ ~ In "crime-type-dropdown-map" (component_ids (page st))
    /\ flat_map dropdowns (tab_children "Geospatial Map" (page st)) = []
    /\ view st ("crime-type-dropdown-map", "value") = None
    /\ view st ("crime-choropleth-map", "figure") = Some (VFigure (fig (globals st)))
    /\ forall v, on_change "crime-type-dropdown-map" v st = st.
Proof.
  eexists. split; [reflexivity|].
  split; [reflexivity|]. split; [reflexivity|].
  split.
  { vm_compute. intuition discriminate. }
  split; [reflexivity|]. split; [reflexivity|]. split; [reflexivity|].
  intros v. reflexivity.
Qed.

(** ** Interaction layer *)

Lemma prop_eqb_eq (a b : Prop_id) : prop_eqb a b = true <-> a = b.
Proof.
  unfold prop_eqb. rewrite andb_true_iff, !String.eqb_eq.
  destruct a, b; simpl. split; [intros [-> ->]; reflexivity | intros [= -> ->]; auto].
Qed.

(** No callback body assigns a module-level name or updates a table in
    place: whatever the arguments, the state it leaves is the state it
    found. *)
Lemma handler_keeps_globals (cb : Callback) (args : list PropValue) (g : Globals) :
  In cb callbacks -> snd (handler cb args g) = g.
Proof.
  intros Hcb. simpl in Hcb.
  destruct Hcb as [<- | [<- | [<- | [<- | []]]]]; simpl.
  - destruct args as [|[s| |l|f|s|r] [|a args]]; try reflexivity.
    unfold bind, update_seasonal_graph, bind, global, ret. simpl.
    destruct (String.eqb s "All"); reflexivity.
  - destruct args as [|[s| |l|f|s|r] [|[s'| |l'|f'|s'|r'] [|a args]]]; reflexivity.
  - destruct args as [|[s| |l|f|s|r] [|a args]]; try reflexivity.
    unfold bind, update_statistics_and_table, bind, global, call. simpl.
    destruct (idxmax _); reflexivity.
  - destruct args as [|[s| |l|f|s|r] [|a args]]; reflexivity.
Qed.

Lemma set_prop_frame (p q : Prop_id) (v : PropValue) (w : View) :
  q <> p -> set_prop p v w q = w q.
Proof.
  intros Hne. unfold set_prop. destruct (prop_eqb q p) eqn:E; [|reflexivity].
  apply prop_eqb_eq in E. contradiction.
Qed.

Lemma set_props_frame (ps : list Prop_id) (vs : list PropValue) (w : View)
      (q : Prop_id) :
  ~ In q ps -> set_props ps vs w q = w q.
Proof.
  revert vs w. induction ps as [|p ps IH]; intros vs w Hq; simpl in *.
  - reflexivity.
  - destruct vs as [|v vs]; [reflexivity|].
    rewrite IH by tauto. apply set_prop_frame. intros ->. tauto.
Qed.

(** Running a registered callback keeps the module-level state and the
    page, and leaves every property that is not one of its outputs as it
    was. *)
Lemma fire_frame (cb : Callback) (st : AppState) :
  In cb callbacks ->
  globals (fire cb st) = globals st
  /\ page (fire cb st) = page st
  /\ forall q, ~ In q (outputs cb) -> view (fire cb st) q = view st q.
Proof.
  intros Hcb. unfold fire.
  destruct (gather (view st) (inputs cb)) as [args|].
  - pose proof (handler_keeps_globals cb args (globals st) Hcb) as Hg.
    destruct (handler cb args (globals st)) as [[outs|e] g']; simpl in *.
    + repeat split; auto. intros q. apply set_props_frame.
    + repeat split; auto.
  - repeat split.
Qed.

Lemma fire_all_frame (cbs : list Callback) (st : AppState) :
  (forall cb, In cb cbs -> In cb callbacks) ->
  globals (fold_left (fun s cb => fire cb s) cbs st) = globals st
  /\ page (fold_left (fun s cb => fire cb s) cbs st) = page st
  /\ forall q, (forall cb, In cb cbs -> ~ In q (outputs cb)) ->
               view (fold_left (fun s cb => fire cb s) cbs st) q = view st q.
Proof.
  revert st. induction cbs as [|cb cbs IH]; intros st Hcbs; simpl.
  - repeat split.
  - destruct (fire_frame cb st) as (Hg & Hp & Hv); [apply Hcbs; now left|].
    destruct (IH (fire cb st)) as (Hg' & Hp' & Hv');
      [intros; apply Hcbs; now right|].
    repeat split; try congruence.
    intros q Hq. rewrite Hv' by (intros; apply Hq; now right).
    apply Hv, Hq. now left.
Qed.

(** A selection change keeps the module-level state and the page; apart
    from the changed value itself, only outputs of callbacks that take
    the control as input can change. *)
Lemma on_change_frame (ctl : string) (v : DropdownValue) (st : AppState) :
  globals (on_change ctl v st) = globals st
  /\ page (on_change ctl v st) = page st
  /\ forall q, q <> (ctl, "value") ->
               (forall cb, In cb callbacks -> depends_on ctl cb = true ->
                           ~ In q (outputs cb)) ->
               view (on_change ctl v st) q = view st q.
Proof.
  unfold on_change.
  destruct (existsb (String.eqb ctl) (map fst (dropdowns (page st))));
    [|repeat split].
  set (cbs := filter (depends_on ctl) callbacks).
  set (s0 := {| globals := globals st; page := page st;
                view := set_prop (ctl, "value") (dropdown_value v) (view st) |}).
  destruct (fire_all_frame cbs s0) as (Hg & Hp & Hv).
  { intros cb Hcb. apply filter_In in Hcb. tauto. }
  split; [exact Hg|]. split; [exact Hp|].
  intros q Hq Hout. rewrite Hv.
  - now apply set_prop_frame.
  - intros cb Hcb. apply filter_In in Hcb. destruct Hcb. now apply Hout.
Qed.

(** When the module body runs to its end, the module-level names are
    those of [startup], the boundary file has a feature, and the CSV has
    no row or a row that names a borough. *)
Lemma module_body_ok (csv : list CsvRow) (geojson : list Boundary) (g : Globals) :
  module_body csv geojson = Ok g ->
  g = startup csv geojson
  /\ geojson <> []
  /\ (csv = [] \/ exists r, In r csv /\ csv_Boroughs r <> None).
Proof.
  unfold module_body. destruct geojson as [|b geojson]; [discriminate|].
  destruct csv as [|r csv].
  - intros [= <-]. split; [reflexivity|]. split; [discriminate | now left].
  - destruct (existsb _ _) eqn:E; [|discriminate].
    intros [= <-]. split; [reflexivity|]. split; [discriminate|]. right.
    apply existsb_exists in E. destruct E as (x & Hx & Ex).
    exists x. split; [assumption|]. now destruct (csv_Boroughs x).
Qed.


Lemma serve_globals (csv : list CsvRow) (geojson : list Boundary) (st : AppState) :
  serve csv geojson = Ok st -> globals st = startup csv geojson.
Proof.
  unfold serve. destruct (module_body csv geojson) as [g|e] eqn:Eg;
    [|discriminate].
  destruct (module_body_ok _ _ _ Eg) as (-> & _).
  destruct (layout (startup csv geojson)) as [p|e]; [|discriminate].
  intros [= <-].
  now destruct (fire_all_frame callbacks
                  {| globals := startup csv geojson; page := p;
                     view := fold_left (fun w pv => set_prop (fst pv) (snd pv) w)
                                       (initial_props p) (fun _ => None) |})
    as (Hg & _).
Qed.

Lemma reachable_globals (csv : list CsvRow) (geojson : list Boundary)
      (st : AppState) :
  reachable csv geojson st -> globals st = startup csv geojson.
Proof.
  induction 1 as [st Hst | st ctl v _ IH].
  - now apply serve_globals.
  - destruct (on_change_frame ctl v st) as (Hg & _). congruence.
Qed.

(** C8: a selection change on a control leaves the crime table and the
    boundary table, and all module-level state, as they were when the
    script finished loading; on the page it replaces, besides the
    control's own value, only outputs declared by callbacks that take the
    control as input; and no callback body changes the module-level
    state. *)
Theorem selection_change_frame :
  forall (csv : list CsvRow) (geojson : list Boundary) (st : AppState)
         (ctl : string) (v : DropdownValue),
    reachable csv geojson st ->
    globals (on_change ctl v st) = startup csv geojson
    /\ crime_data (globals (on_change ctl v st)) = map add_season csv
    /\ geo_df (globals (on_change ctl v st)) = normalize_names geojson
    /\ (forall q, q <> (ctl, "value") ->
                  (forall cb, In cb callbacks -> depends_on ctl cb = true ->
                              ~ In q (outputs cb)) ->
                  view (on_change ctl v st) q = view st q)
    /\ (forall cb args g, In cb callbacks -> snd (handler cb args g) = g).
Proof.
  intros csv geojson st ctl v Hst.
  assert (Hg : globals (on_change ctl v st) = startup csv geojson).
  { apply reachable_globals. now constructor. }
  split; [assumption|]. rewrite Hg.
  split; [reflexivity|]. split; [reflexivity|].
  split.
  - apply on_change_frame.
  - intros cb args g Hcb. now apply handler_keeps_globals.
Qed.

Lemma selection_change_frame_witness :
  exists st,
    serve sample_csv sample_geojson = Ok st
    /\ crime_data (globals (on_change "borough-dropdown" (Single (Some "Camden")) st))
       = map add_season sample_csv
    /\ view (on_change "borough-dropdown" (Single (Some "Camden")) st)
            ("crime-choropleth-map", "figure")
       = view st ("crime-choropleth-map", "figure").
Proof.
  eexists. split; [reflexivity|].
  destruct (selection_change_frame
              sample_csv sample_geojson _ "borough-dropdown" (Single (Some "Camden"))
              (@reachable_serve sample_csv sample_geojson _ eq_refl))
    as (_ & Hcrime & _ & Hview & _).
  split; [exact Hcrime|].
  apply Hview.
  - discriminate.
  - intros cb Hcb Hdep. simpl in Hcb.
    destruct Hcb as [<- | [<- | [<- | [<- | []]]]];
      try discriminate Hdep.
    simpl. intros [H | []]. discriminate H.
Defined.

(** ** float64 facts *)

Module F64Facts.

Lemma SFcompare_refl (x : spec_float) :
  x <> S754_nan -> SFcompare x x = Some Eq.
Proof.
  destruct x as [s|s| |s m e]; simpl; intros Hx; try congruence.
  - now destruct s.
  - rewrite Z.compare_refl, Pos.compare_cont_refl. now destruct s.
Qed.

Lemma is_nan_Prim2SF (x : float) :
  PrimFloat.is_nan x = true <-> Prim2SF x = S754_nan.
Proof.
  unfold PrimFloat.is_nan. rewrite eqb_spec. unfold SFeqb. split.
  - intros E. destruct (Prim2SF x) eqn:Ex; try reflexivity;
      rewrite SFcompare_refl in E by congruence; discriminate.
  - intros ->. reflexivity.
Qed.

Lemma not_nan_Prim2SF (x : float) :
  PrimFloat.is_nan x = false <-> Prim2SF x <> S754_nan.
Proof.
  rewrite <- is_nan_Prim2SF. destruct (PrimFloat.is_nan x); split; congruence.
Qed.

(** The order of the specification floats, read as a relation. *)
Lemma SFleb_refl (x : spec_float) : x <> S754_nan -> SFleb x x = true.
Proof. intros Hx. unfold SFleb. now rewrite SFcompare_refl. Qed.

Lemma SFleb_total (x y : spec_float) :
  x <> S754_nan -> y <> S754_nan -> SFltb x y = false -> SFleb y x = true.
Proof.
  unfold SFltb, SFleb.
  destruct x as [sx|sx| |sx mx ex], y as [sy|sy| |sy my ey]; simpl;
    intros Hx Hy; try congruence;
    try (destruct sx; simpl; congruence);
    try (destruct sy; simpl; congruence);
    try (destruct sx, sy; simpl; congruence).
  destruct sx, sy; simpl; try congruence;
    destruct (Z.compare_spec ex ey), (Z.compare_spec ey ex);
    subst; try lia; try congruence;
    rewrite ?Pos.compare_cont_spec; simpl;
    destruct (Pos.compare_spec mx my), (Pos.compare_spec my mx);
    subst; simpl; try lia; congruence.
Qed.

Lemma SFltb_leb (x y : spec_float) : SFltb x y = true -> SFleb x y = true.
Proof. unfold SFltb, SFleb. destruct (SFcompare x y) as [[]|]; congruence. Qed.

Lemma SFleb_trans (x y z : spec_float) :
  SFleb x y = true -> SFleb y z = true -> SFleb x z = true.
Proof.
  unfold SFleb.
  destruct x as [sx|sx| |sx mx ex], y as [sy|sy| |sy my ey],
           z as [sz|sz| |sz mz ez]; simpl; try congruence;
    try (destruct sx; simpl; congruence);
    try (destruct sy; simpl; congruence);
    try (destruct sz; simpl; congruence);
    try (destruct sx, sy; simpl; congruence);
    try (destruct sx, sz; simpl; congruence);
    try (destruct sy, sz; simpl; congruence);
    try (destruct sx, sy, sz; simpl; congruence).
  destruct sx, sy, sz; simpl; try congruence;
    destruct (Z.compare_spec ex ey), (Z.compare_spec ey ez),
             (Z.compare_spec ex ez); subst; try lia; try congruence;
    rewrite ?Pos.compare_cont_spec; simpl;
    destruct (Pos.compare_spec mx my), (Pos.compare_spec my mz),
             (Pos.compare_spec mx mz); subst; simpl; try lia; congruence.
Qed.

(** Dividing a finite binary64 value by [1.0] is exact. *)
Lemma div_eucl_exact (a b q : Z) : 0 < b -> a = q * b -> Z.div_eucl a b = (q, 0).
Proof.
  intros Hb ->. 
  pose proof (Z.div_mul q b) as Hd. pose proof (Z.mod_mul q b) as Hm.
  unfold Z.div, Z.modulo in Hd, Hm.
  destruct (Z.div_eucl (q * b) b) as [q' r']. simpl in *.
  rewrite Hd, Hm by lia. reflexivity.
Qed.

Lemma shr_fexp_canonical (m : positive) (e : Z) :
  canonical_mantissa prec emax m e = true ->
  shr_fexp prec emax (Zpos m) e loc_Exact
  = ({| shr_m := Zpos m; shr_r := false; shr_s := false |}, e).
Proof.
  unfold canonical_mantissa. intros H. apply Z.eqb_eq in H.
  unfold shr_fexp. simpl Zdigits2. rewrite H, Z.sub_diag. reflexivity.
Qed.

Lemma round_canonical (s : bool) (m : positive) (e : Z) :
  bounded prec emax m e = true ->
  binary_round_aux prec emax s (Zpos m) e loc_Exact = S754_finite s m e.
Proof.
  unfold bounded. intros H. apply andb_true_iff in H. destruct H as [Hc He].
  unfold binary_round_aux. rewrite (shr_fexp_canonical m e Hc). simpl.
  rewrite (shr_fexp_canonical m e Hc). simpl.
  change (emax - prec) with 971 in He. now rewrite He.
Qed.

Lemma round_double (s : bool) (m : positive) (e : Z) :
  bounded prec emax m e = true ->
  Zpos (digits2_pos m) = 53 -> -1074 < e ->
  binary_round_aux prec emax s (Zpos m~0) (e - 1) loc_Exact = S754_finite s m e.
Proof.
  intros Hb Hd He. pose proof Hb as Hb'.
  unfold bounded in Hb. apply andb_true_iff in Hb. destruct Hb as [Hc Hle].
  unfold binary_round_aux.
  assert (E : shr_fexp prec emax (Zpos m~0) (e - 1) loc_Exact
              = ({| shr_m := Zpos m; shr_r := false; shr_s := false |}, e)).
  { unfold shr_fexp. simpl Zdigits2.
    replace (fexp prec emax (Zpos (Pos.succ (digits2_pos m)) + (e - 1)) - (e - 1))
      with 1.
    - simpl. f_equal. lia.
    - rewrite Pos2Z.inj_succ, Hd. unfold fexp, emin, prec, emax. lia. }
  rewrite E. simpl. rewrite (shr_fexp_canonical m e Hc). simpl.
  change (emax - prec) with 971 in Hle. now rewrite Hle.
Qed.

Lemma SFdiv_one (s : bool) (m : positive) (e : Z) :
  bounded prec emax m e = true ->
  SFdiv prec emax (S754_finite s m e) (S754_finite false 4503599627370496 (-52)) = S754_finite s m e.
Proof.
  intros Hb. pose proof Hb as Hb'.
  unfold bounded in Hb'. apply andb_true_iff in Hb'. destruct Hb' as [Hc Hle].
  unfold canonical_mantissa in Hc. apply Z.eqb_eq in Hc.
  unfold fexp, emin, prec, emax in Hc.
  assert (Hd1 : 1 <= Zpos (digits2_pos m)) by lia.
  unfold SFdiv, SFdiv_core_binary. cbv zeta. simpl Zdigits2.
  rewrite xorb_false_r.
  destruct (Z.eq_dec (Zpos (digits2_pos m)) 53) as [Hd | Hd];
    [destruct (Z.eq_dec e (-1074)) as [He | He]|].
  - (* the smallest normal exponent *)
    replace (Z.min _ _) with e by (unfold fexp, emin, prec, emax; lia).
    replace (e - -52 - e) with 52 by lia.
    rewrite (div_eucl_exact _ _ (Zpos m)) by (rewrite ?Z.shiftl_mul_pow2; lia).
    simpl new_location. now apply round_canonical.
  - replace (Z.min _ _) with (e - 1) by (unfold fexp, emin, prec, emax; lia).
    replace (e - -52 - (e - 1)) with 53 by lia.
    rewrite (div_eucl_exact _ _ (Zpos m~0)) by (rewrite ?Z.shiftl_mul_pow2; lia).
    simpl new_location. apply round_double; auto. lia.
  - replace (Z.min _ _) with e by (unfold fexp, emin, prec, emax; lia).
    replace (e - -52 - e) with 52 by lia.
    rewrite (div_eucl_exact _ _ (Zpos m)) by (rewrite ?Z.shiftl_mul_pow2; lia).
    simpl new_location. now apply round_canonical.
Qed.

(** The float comparisons, on values that are not NaN. *)
Lemma leb_refl (x : float) :
  PrimFloat.is_nan x = false -> PrimFloat.leb x x = true.
Proof.
  intros Hx. rewrite leb_spec. apply SFleb_refl. now apply not_nan_Prim2SF.
Qed.

Lemma leb_trans (x y z : float) :
  PrimFloat.leb x y = true -> PrimFloat.leb y z = true ->
  PrimFloat.leb x z = true.
Proof. rewrite !leb_spec. apply SFleb_trans. Qed.

Lemma ltb_leb (x y : float) :
  PrimFloat.ltb x y = true -> PrimFloat.leb x y = true.
Proof. rewrite ltb_spec, leb_spec. apply SFltb_leb. Qed.

Lemma not_ltb_leb (x y : float) :
  PrimFloat.is_nan x = false -> PrimFloat.is_nan y = false ->
  PrimFloat.ltb x y = false -> PrimFloat.leb y x = true.
Proof.
  rewrite ltb_spec, leb_spec, !not_nan_Prim2SF. apply SFleb_total.
Qed.

Lemma dropna_In (xs : list float) (x : float) :
  In x (F64.dropna xs) <-> In x xs /\ PrimFloat.is_nan x = false.
Proof. unfold F64.dropna. now rewrite filter_In, negb_true_iff. Qed.

(** Folding [fmax] over values that are not NaN picks a largest one. *)
Lemma fold_fmax (t : list float) (x : float) :
  PrimFloat.is_nan x = false ->
  (forall y, In y t -> PrimFloat.is_nan y = false) ->
  In (fold_left F64.fmax t x) (x :: t)
  /\ forall y, In y (x :: t) -> PrimFloat.leb y (fold_left F64.fmax t x) = true.
Proof.
  revert x. induction t as [|h t IH]; intros x Hx Ht; simpl.
  - split; [now left|]. intros y [<- | []]. now apply leb_refl.
  - assert (Hh : PrimFloat.is_nan h = false) by (apply Ht; now left).
    assert (Hm : PrimFloat.is_nan (F64.fmax x h) = false
                 /\ (F64.fmax x h = x \/ F64.fmax x h = h)
                 /\ PrimFloat.leb x (F64.fmax x h) = true
                 /\ PrimFloat.leb h (F64.fmax x h) = true).
    { unfold F64.fmax. destruct (PrimFloat.ltb x h) eqn:E.
      - repeat split; auto using ltb_leb, leb_refl.
      - repeat split; auto using not_ltb_leb, leb_refl. }
    destruct Hm as (Hn & Hor & Hxm & Hhm).
    destruct (IH (F64.fmax x h) Hn) as (Hin & Hle).
    { intros y Hy. apply Ht. now right. }
    split.
    + destruct Hin as [E | Hin]; [|right; right; exact Hin].
      rewrite <- E. destruct Hor as [-> | ->]; [left | right; left]; reflexivity.
    + intros y [<- | [<- | Hy]].
      * eapply leb_trans; [exact Hxm | apply Hle; now left].
      * eapply leb_trans; [exact Hhm | apply Hle; now left].
      * apply Hle. now right.
Qed.

(** [Series.max()]: the largest value that is not NaN, and NaN when there
    is no such value. *)
Lemma series_max_spec (xs : list float) :
  ((exists x, In x xs /\ PrimFloat.is_nan x = false) ->
   is_max_of xs (F64.series_max xs))
  /\ ((forall x, In x xs -> PrimFloat.is_nan x = true) ->
      PrimFloat.is_nan (F64.series_max xs) = true).
Proof.
  unfold F64.series_max, is_max_of. split.
  - intros (x0 & Hx0 & Hn0).
    assert (Hin0 : In x0 (F64.dropna xs)) by now apply dropna_In.
    destruct (F64.dropna xs) as [|x t] eqn:E; [destruct Hin0|].
    assert (Hall : forall y, In y (x :: t) ->
                             In y xs /\ PrimFloat.is_nan y = false).
    { intros y Hy. apply dropna_In. now rewrite E. }
    destruct (fold_fmax t x) as (Hin & Hle).
    { apply Hall. now left. }
    { intros y Hy. apply Hall. now right. }
    split; [apply Hall, Hin|]. split; [apply Hall, Hin|].
    intros y Hy Hny. apply Hle. rewrite <- E. now apply dropna_In.
  - intros Hall. destruct (F64.dropna xs) as [|x t] eqn:E; [reflexivity|].
    assert (Hx : In x (F64.dropna xs)) by (rewrite E; now left).
    apply dropna_In in Hx. destruct Hx as [Hx Hn].
    rewrite (Hall x Hx) in Hn. discriminate.
Qed.

Lemma of_Z_1 : F64.of_Z 1 = 1%float.
Proof. reflexivity. Qed.

(** Four exact operations on a value that is not NaN: subtracting
    [0.0], adding it to [-0.0], adding it to [0.0] (which turns a negative
    zero into [0.0] and changes nothing else) and dividing by [1.0]. *)
Lemma sub_zero_r (x : float) :
  PrimFloat.is_nan x = false -> (x - 0)%float = x.
Proof.
  intros Hx. apply Prim2SF_inj. rewrite sub_spec.
  apply not_nan_Prim2SF in Hx.
  change (Prim2SF 0) with (S754_zero false). unfold SF64sub.
  destruct (Prim2SF x) as [s|s| |s m e]; try congruence; try reflexivity.
  now destruct s.
Qed.

Lemma add_negzero_l (x : float) :
  PrimFloat.is_nan x = false -> (-0 + x)%float = x.
Proof.
  intros Hx. apply Prim2SF_inj. rewrite add_spec.
  apply not_nan_Prim2SF in Hx.
  change (Prim2SF (-0)) with (S754_zero true). unfold SF64add.
  destruct (Prim2SF x) as [s|s| |s m e]; try congruence; try reflexivity.
  now destruct s.
Qed.

Lemma add_zero_l (x : float) :
  PrimFloat.is_nan x = false ->
  Prim2SF (0 + x)
  = match Prim2SF x with S754_zero _ => S754_zero false | y => y end.
Proof.
  intros Hx. rewrite add_spec. apply not_nan_Prim2SF in Hx.
  change (Prim2SF 0) with (S754_zero false). unfold SF64add.
  destruct (Prim2SF x) as [s|s| |s m e]; try congruence; try reflexivity.
  now destruct s.
Qed.

Lemma div_one (x : float) :
  PrimFloat.is_nan x = false -> (x / 1)%float = x.
Proof.
  intros Hx. apply Prim2SF_inj. rewrite div_spec.
  pose proof (Prim2SF_valid x) as Hv. apply not_nan_Prim2SF in Hx.
  change (Prim2SF 1) with (S754_finite false 4503599627370496 (-52)).
  unfold SF64div.
  destruct (Prim2SF x) as [s|s| |s m e]; try congruence.
  - now destruct s.
  - now destruct s.
  - now apply SFdiv_one.
Qed.

Lemma eqb_not_nan (x y : float) :
  PrimFloat.eqb x y = true -> PrimFloat.is_nan x = false.
Proof.
  intros E. apply not_nan_Prim2SF. rewrite eqb_spec in E. intros Hn.
  rewrite Hn in E. discriminate.
Qed.

(** [Series.mean] of a single value that is not NaN is that value. *)
Lemma mean_singleton (r : float) :
  PrimFloat.is_nan r = false -> F64.mean [r] = r.
Proof.
  intros Hr. unfold F64.mean, F64.dropna. simpl. rewrite Hr. simpl.
  change ((- 0 + (- 0 + r)) / 1 = r)%float.
  rewrite (add_negzero_l r Hr), (add_negzero_l r Hr). now apply div_one.
Qed.

(** The grouped mean of a single value that is not NaN is that value,
    up to the sign of a zero: the sum starts from [0.0], so a negative
    zero comes back as [0.0], which is equal to it as a float. *)
Lemma group_mean_singleton (r : float) :
  PrimFloat.is_nan r = false ->
  PrimFloat.is_nan (F64.group_mean [r]) = false
  /\ PrimFloat.eqb (F64.group_mean [r]) r = true.
Proof.
  intros Hr.
  assert (E : F64.group_mean [r] = ((0 + r) / 1)%float).
  { unfold F64.group_mean, F64.dropna. simpl. rewrite Hr. simpl.
    rewrite of_Z_1. unfold F64.kahan_sum. simpl.
    now rewrite sub_zero_r. }
  assert (Hs : PrimFloat.eqb (0 + r) r = true).
  { rewrite eqb_spec, add_zero_l by assumption.
    apply not_nan_Prim2SF in Hr. unfold SFeqb.
    destruct (Prim2SF r) as [s|s| |s m e] eqn:Er; try congruence.
    - now destruct s.
    - now destruct s.
    - rewrite SFcompare_refl by congruence. reflexivity. }
  assert (Heq : PrimFloat.eqb (F64.group_mean [r]) r = true).
  { rewrite E, div_one; [exact Hs | now apply (eqb_not_nan _ r)]. }
  split; [now apply (eqb_not_nan _ r) | exact Heq].
Qed.

(** numpy's pairwise sum, by the length of the array: up to 128 values
    are summed as one block, and a longer array is cut in two parts that
    are summed on their own. *)
Lemma cut_bounds (n : nat) :
  (128 < n)%nat -> (0 < n / 2 - (n / 2) mod 8 < n)%nat.
Proof.
  intros Hn.
  pose proof (Nat.div_mod_eq n 2) as H2.
  pose proof (Nat.mod_upper_bound n 2 ltac:(lia)) as H2'.
  pose proof (Nat.mod_upper_bound (n / 2) 8 ltac:(lia)) as H8.
  lia.
Qed.

Lemma pairwise_sum_upto_S (d : nat) (a : list float) :
  F64.pairwise_sum_upto (S d) a
  = if (List.length a <? 8)%nat then F64.add_seq (- 0)%float a
    else if (List.length a <=? 128)%nat then F64.block_sum a
    else (F64.pairwise_sum_upto d
            (firstn (List.length a / 2 - (List.length a / 2) mod 8) a)
          + F64.pairwise_sum_upto d
              (skipn (List.length a / 2 - (List.length a / 2) mod 8) a))%float.
Proof. reflexivity. Qed.

Lemma pairwise_sum_upto_small (d : nat) (a : list float) :
  (List.length a <= 128)%nat ->
  F64.pairwise_sum_upto d a
  = if (List.length a <? 8)%nat then F64.add_seq (- 0)%float a
    else F64.block_sum a.
Proof.
  intros Hn. destruct d; cbn beta iota zeta delta [F64.pairwise_sum_upto];
    destruct (List.length a <? 8)%nat; try reflexivity;
    destruct (Nat.leb_spec (List.length a) 128); try reflexivity; lia.
Qed.

Lemma pairwise_sum_upto_depth (d1 d2 : nat) (a : list float) :
  (List.length a <= d1)%nat -> (List.length a <= d2)%nat ->
  F64.pairwise_sum_upto d1 a = F64.pairwise_sum_upto d2 a.
Proof.
  revert d2 a. induction d1 as [|d1 IH]; intros d2 a H1 H2.
  - rewrite !pairwise_sum_upto_small by lia. reflexivity.
  - destruct d2 as [|d2]; [rewrite !pairwise_sum_upto_small by lia; reflexivity|].
    rewrite !pairwise_sum_upto_S.
    destruct (List.length a <? 8)%nat; [reflexivity|].
    destruct (Nat.leb_spec (List.length a) 128) as [Hle | Hgt]; [reflexivity|].
    pose proof (cut_bounds _ Hgt) as Hcut.
    f_equal; apply IH; rewrite ?length_firstn, ?length_skipn; lia.
Qed.

Lemma pairwise_sum_cut (a : list float) :
  (128 < List.length a)%nat ->
  F64.pairwise_sum a
  = (F64.pairwise_sum
       (firstn (List.length a / 2 - (List.length a / 2) mod 8) a)
     + F64.pairwise_sum
         (skipn (List.length a / 2 - (List.length a / 2) mod 8) a))%float.
Proof.
  intros Hn. pose proof (cut_bounds _ Hn) as Hcut.
  unfold F64.pairwise_sum at 1.
  destruct (List.length a) as [|n] eqn:En; [lia|].
  rewrite pairwise_sum_upto_S, En.
  destruct (Nat.ltb_spec (S n) 8); [lia|].
  destruct (Nat.leb_spec (S n) 128); [lia|].
  unfold F64.pairwise_sum.
  f_equal; apply pairwise_sum_upto_depth;
    rewrite ?length_firstn, ?length_skipn; lia.
Qed.

Lemma pairwise_sum_block (a : list float) :
  (List.length a <= 128)%nat -> F64.pairwise_sum a = F64.block_sum a.
Proof.
  intros Hn. unfold F64.pairwise_sum. rewrite pairwise_sum_upto_small by exact Hn.
  destruct (Nat.ltb_spec (List.length a) 8) as [Hlt | Hge]; [|reflexivity].
  destruct a as [|a0 [|a1 [|a2 [|a3 [|a4 [|a5 [|a6 [|a7 rest]]]]]]]];
    try reflexivity.
  simpl in Hlt. lia.
Qed.

End F64Facts.

(** ** The statistics callback *)

(** [idxmax] scans from the front and moves on only to a strictly larger
    value: with [pre] the rows already seen and [best] the best of them,
    the label returned sits at the first position of the largest value. *)
Lemma idxmax_from_first_max {K : Type} (l pre : list (K * Z)) (best : K * Z)
      (i0 : nat) :
  nth_error pre i0 = Some best ->
  (forall kv, In kv pre -> snd kv <= snd best) ->
  (forall j kv, (j < i0)%nat -> nth_error pre j = Some kv -> snd kv < snd best) ->
  exists i v,
    nth_error (pre ++ l) i = Some (idxmax_from best l, v)
    /\ (forall kv, In kv (pre ++ l) -> snd kv <= v)
    /\ (forall j kv, (j < i)%nat -> nth_error (pre ++ l) j = Some kv ->
                     snd kv < v).
Proof.
  revert pre best i0. induction l as [|kv l IH]; intros pre best i0 Hi0 Hle Hlt.
  - exists i0, (snd best). rewrite app_nil_r. simpl.
    rewrite <- surjective_pairing. auto.
  - assert (Hlen : (i0 < List.length pre)%nat).
    { apply nth_error_Some. congruence. }
    replace (pre ++ kv :: l) with ((pre ++ [kv]) ++ l)
      by (rewrite <- app_assoc; reflexivity).
    simpl. destruct (Z.ltb_spec (snd best) (snd kv)) as [Hlt' | Hge].
    + apply (IH (pre ++ [kv]) kv (List.length pre)).
      * rewrite nth_error_app2, Nat.sub_diag by lia. reflexivity.
      * intros kv' Hin. apply in_app_or in Hin.
        destruct Hin as [Hin | [<- | []]]; [|lia].
        specialize (Hle kv' Hin). lia.
      * intros j kv' Hj Hnth. rewrite nth_error_app1 in Hnth by assumption.
        apply nth_error_In in Hnth. specialize (Hle kv' Hnth). lia.
    + apply (IH (pre ++ [kv]) best i0).
      * rewrite nth_error_app1 by assumption. assumption.
      * intros kv' Hin. apply in_app_or in Hin.
        destruct Hin as [Hin | [<- | []]]; [auto | lia].
      * intros j kv' Hj Hnth. rewrite nth_error_app1 in Hnth by lia.
        eauto.
Qed.

Lemma idxmax_first_max {K : Type} (s : list (K * Z)) :
  s <> [] ->
  exists k i v,
    idxmax s = Ok k
    /\ nth_error s i = Some (k, v)
    /\ (forall kv, In kv s -> snd kv <= v)
    /\ (forall j kv, (j < i)%nat -> nth_error s j = Some kv -> snd kv < v).
Proof.
  destruct s as [|kv t]; [congruence|]. intros _.
  destruct (idxmax_from_first_max t [kv] kv 0) as (i & v & H1 & H2 & H3).
  - reflexivity.
  - intros kv' [<- | []]. lia.
  - intros j kv' Hj. lia.
  - exists (idxmax_from kv t), i, v. simpl in *. auto.
Qed.

Lemma idxmax_nil {K : Type} : @idxmax K [] = Raise ValueError.
Proof. reflexivity. Qed.
Lemma group_rows_borough (rows : list CrimeRecord) (b : string) :
  group_rows Boroughs rows b = rows_of_borough b rows.
Proof.
  unfold group_rows, rows_of_borough. apply filter_ext. intros r.
  apply has_key_string.
Qed.

(** The per-borough sums and means of the callback are the sums and means
    read off the filtered table borough by borough. *)
Lemma agg_sum_boroughs (rows : list CrimeRecord) :
  agg_sum Boroughs CrimeCount rows
  = map (fun b => (b, borough_count rows b)) (group_keys Boroughs rows).
Proof.
  rewrite agg_sum_rows. apply map_ext. intros b.
  unfold borough_count. now rewrite group_rows_borough, Int64Facts.sum_wrap.
Qed.

Lemma agg_mean_boroughs (rows : list CrimeRecord) :
  map snd (agg_mean Boroughs CrimeRatePer1000 rows)
  = map (borough_rate rows) (group_keys Boroughs rows).
Proof.
  rewrite agg_mean_rows, map_map. apply map_ext. intros b. simpl.
  unfold borough_rate. now rewrite group_rows_borough.
Qed.

(** The callback on a selection of which no row names a borough. *)
Lemma statistics_no_borough (g : Globals) (selected_crime_type : string) :
  (forall r, In r (filter_crime_type selected_crime_type (crime_data g)) ->
             Boroughs r = None) ->
  update_statistics_and_table selected_crime_type g = (Raise ValueError, g).
Proof.
  intros Hall. unfold update_statistics_and_table, bind, global, call, ret.
  rewrite agg_sum_rows.
  now rewrite (proj2 (group_keys_nil Boroughs _) Hall).
Qed.

(** The callback on a selection with no row. *)
Lemma statistics_empty (g : Globals) (selected_crime_type : string) :
  filter_crime_type selected_crime_type (crime_data g) = [] ->
  update_statistics_and_table selected_crime_type g = (Raise ValueError, g).
Proof.
  intros E. apply statistics_no_borough. rewrite E. intros r [].
Qed.

Lemma is_max_of_same_values (xs ys : list float) (m : float) :
  (forall x, In x xs <-> In x ys) -> is_max_of xs m -> is_max_of ys m.
Proof.
  intros Hxy (Hin & Hn & Hle). repeat split.
  - now apply Hxy.
  - assumption.
  - intros x Hx. apply Hle. now apply Hxy.
Qed.

Lemma borough_rates_same_values (rows : list CrimeRecord) (x : float) :
  In x (map (borough_rate rows) (group_keys Boroughs rows))
  <-> In x (map (borough_rate rows) (present_keys Boroughs rows)).
Proof.
  rewrite !in_map_iff. split; intros (b & <- & Hb); exists b;
    (split; [reflexivity|]).
  - now apply present_keys_In, (group_keys_In Boroughs rows b).
  - now apply (group_keys_In Boroughs rows b), present_keys_In.
Qed.

(** The statistics of a table that holds a single record. *)
Lemma single_record_rate (r : CrimeRecord) (b : string) :
  Boroughs r = Some b ->
  PrimFloat.is_nan (CrimeRatePer1000 r) = false ->
  PrimFloat.eqb
    (F64.series_max (map (borough_rate [r]) (group_keys Boroughs [r])))
    (CrimeRatePer1000 r) = true.
Proof.
  intros Eb Hr. unfold group_keys, present_keys. simpl. rewrite Eb. simpl.
  unfold borough_rate, rows_of_borough. simpl. rewrite Eb. simpl.
  rewrite String.eqb_refl. simpl.
  destruct (F64Facts.group_mean_singleton (CrimeRatePer1000 r) Hr) as (Hn & Heq).
  unfold F64.series_max, F64.dropna. simpl. rewrite Hn. simpl. exact Heq.
Qed.

(** C6 (as stated, it fails): a selection can hold a record and still
    have no summary.  With a Robbery record of Camden and a Burglary
    record whose borough cell is blank the page is served; the selection
    of Burglary holds one record, no borough has a summed count, and the
    callback raises. *)
Lemma selection_without_borough_has_no_summary :
  let g := startup nameless_burglary_csv sample_geojson in
  (exists st, serve nameless_burglary_csv sample_geojson = Ok st
              /\ globals st = g)
  /\ filter_crime_type "Burglary" (crime_data g) <> []
  /\ update_statistics_and_table "Burglary" g = (Raise ValueError, g).
Proof.
  split; [eexists; split; reflexivity|].
  split; [discriminate | reflexivity].
Qed.

(** C6 (amended): on a selection with at least one row that names a
    borough the statistics callback returns: the sum of CrimeCount over
    all selected rows, wrapped to int64; the [Series.mean] of
    CrimeRatePer1000 over all selected rows; the borough whose summed
    CrimeCount is largest, the first such borough in the order of the
    grouped table, which is the least in string order among the boroughs
    that tie; and the largest per-borough grouped mean of CrimeRatePer1000
    (NaN means left aside, NaN when every mean is NaN).  When the selection
    is a single record, the most affected borough is the borough of that
    record and the highest rate equals its rate.  When no selected row
    names a borough the callback raises ValueError.  On three Camden
    records with the rates 0.1, 0.2, 0.3 and the counts 1, 2, 3 the
    summary is (6, 0.20000000000000004, Camden, 0.19999999999999998); on
    ten Camden records with rate 0.1 and count 1 it is (10, 0.1, Camden,
    0.1); on the Camden record (5, 1.0) and the record (10, 4.0) without
    borough it is (15, 2.5, Camden, 1.0). *)
#[warnings="-inexact-float"] Theorem statistics_summary_values :
  (forall (g : Globals) (selected_crime_type : string),
      let rows := filter_crime_type selected_crime_type (crime_data g) in
      ((exists r, In r rows /\ Boroughs r <> None) ->
       exists stats,
         update_statistics_and_table selected_crime_type g
         = (Ok (stats, group_borough rows), g)
         /\ total_crimes stats = Int64.wrap (Zsum (map CrimeCount rows))
         /\ average_crime_rate stats = F64.mean (map CrimeRatePer1000 rows)
         /\ (exists i,
                nth_error (group_keys Boroughs rows) i
                = Some (most_affected_borough stats)
                /\ (forall b, In (Some b) (map Boroughs rows) ->
                              borough_count rows b
                              <= borough_count rows (most_affected_borough stats))
                /\ (forall j b, (j < i)%nat ->
                                nth_error (group_keys Boroughs rows) j = Some b ->
                                borough_count rows b
                                < borough_count rows (most_affected_borough stats)))
         /\ (forall b, In (Some b) (map Boroughs rows) ->
                       borough_count rows b
                       = borough_count rows (most_affected_borough stats) ->
                       b = most_affected_borough stats
                       \/ String.compare (most_affected_borough stats) b = Lt)
         /\ ((exists b, In (Some b) (map Boroughs rows)
                        /\ PrimFloat.is_nan (borough_rate rows b) = false) ->
             is_max_of (map (borough_rate rows) (present_keys Boroughs rows))
                       (highest_crime_rate stats))
         /\ ((forall b, In (Some b) (map Boroughs rows) ->
                        PrimFloat.is_nan (borough_rate rows b) = true) ->
             PrimFloat.is_nan (highest_crime_rate stats) = true)
         /\ (forall r, rows = [r] ->
                       Boroughs r = Some (most_affected_borough stats)
                       /\ (PrimFloat.is_nan (CrimeRatePer1000 r) = false ->
                           PrimFloat.eqb (highest_crime_rate stats)
                                         (CrimeRatePer1000 r) = true)))
      /\ ((forall r, In r rows -> Boroughs r = None) ->
          update_statistics_and_table selected_crime_type g
          = (Raise ValueError, g)))
  /\ fst (update_statistics_and_table
            "Burglary" (startup tenths_csv sample_geojson))
     = Ok ({| total_crimes := 6;
              average_crime_rate := 0.20000000000000004%float;
              most_affected_borough := "Camden";
              highest_crime_rate := 0.19999999999999998%float |},
           [ {| agg_key := "Camden"; agg_CrimeCount := 6;
                agg_CrimeRatePer1000 := 0.19999999999999998%float |} ])
  /\ fst (update_statistics_and_table
            "Burglary" (startup ten_tenths_csv sample_geojson))
     = Ok ({| total_crimes := 10;
              average_crime_rate := 0.1%float;
              most_affected_borough := "Camden";
              highest_crime_rate := 0.1%float |},
           [ {| agg_key := "Camden"; agg_CrimeCount := 10;
                agg_CrimeRatePer1000 := 0.1%float |} ])
  /\ fst (update_statistics_and_table
            "Burglary" (startup blank_borough_csv sample_geojson))
     = Ok ({| total_crimes := 15;
              average_crime_rate := 2.5%float;
              most_affected_borough := "Camden";
              highest_crime_rate := 1.0%float |},
           [ {| agg_key := "Camden"; agg_CrimeCount := 5;
                agg_CrimeRatePer1000 := 1.0%float |} ]).
Proof.
  split; [|vm_compute; repeat split].
  intros g sel rows. split; [|apply statistics_no_borough].
  intros (r0 & Hr0 & Hb0).
  destruct (idxmax_first_max (agg_sum Boroughs CrimeCount rows))
    as (b & i & v & Hb & Hi & Hle & Hlt).
  { rewrite agg_sum_rows. intros E. apply map_eq_nil in E.
    apply Hb0. exact (proj1 (group_keys_nil Boroughs rows) E r0 Hr0). }
  rewrite agg_sum_boroughs in Hi, Hle, Hlt.
  rewrite nth_error_map in Hi.
  destruct (nth_error (group_keys Boroughs rows) i) as [b'|] eqn:Hnth;
    [|discriminate]. injection Hi as -> <-.
  eexists. split.
  { unfold update_statistics_and_table, bind, global, call, ret.
    fold rows. rewrite Hb. reflexivity. }
  simpl. rewrite agg_mean_boroughs.
  split; [apply Int64Facts.sum_wrap|]. split; [reflexivity|].
  split; [|split; [|split; [|split]]].
  - exists i. split; [assumption|]. split.
    + intros b0 Hin0.
      apply (Hle (b0, borough_count rows b0)).
      apply in_map_iff. exists b0. split; [reflexivity|].
      now apply group_keys_In.
    + intros j b0 Hj Hin0.
      apply (Hlt j (b0, borough_count rows b0) Hj).
      now rewrite nth_error_map, Hin0.
  - intros b0 Hin0 Hsame.
    apply (group_keys_In Boroughs rows b0), In_nth_error in Hin0.
    destruct Hin0 as (j & Hj).
    destruct (Nat.lt_trichotomy j i) as [Hji | [-> | Hij]].
    + specialize (Hlt j (b0, borough_count rows b0) Hji).
      rewrite nth_error_map, Hj in Hlt. specialize (Hlt eq_refl).
      simpl in Hlt. lia.
    + left. congruence.
    + right. change (key_lt b b0).
      eapply sorted_nth_error;
        [apply (group_keys_sorted Boroughs rows) | exact Hij
         | exact Hnth | exact Hj].
  - intros (b0 & Hin0 & Hn0).
    apply (is_max_of_same_values _ _ _ (borough_rates_same_values rows)).
    apply F64Facts.series_max_spec.
    exists (borough_rate rows b0). split; [|assumption].
    apply in_map. now apply group_keys_In.
  - intros Hall. apply F64Facts.series_max_spec.
    intros x Hx. apply in_map_iff in Hx. destruct Hx as (b1 & <- & Hb1).
    apply Hall. now apply (group_keys_In Boroughs rows b1).
  - intros r Hr.
    assert (Er : Boroughs r = Some b).
    { apply nth_error_In in Hnth.
      apply (group_keys_In Boroughs rows b) in Hnth.
      rewrite Hr in Hnth. simpl in Hnth. destruct Hnth as [E | []].
      exact E. }
    split; [exact Er|].
    intros Hnan. rewrite Hr. now apply (single_record_rate r b).
Qed.

Lemma statistics_summary_values_witness :
  exists stats,
    fst (update_statistics_and_table
           "Burglary" (startup (firstn 1 sample_csv) sample_geojson))
    = Ok (stats,
          [ {| agg_key := "Camden"; agg_CrimeCount := 10;
               agg_CrimeRatePer1000 := 2.0%float |} ])
    /\ total_crimes stats = 10
    /\ most_affected_borough stats = "Camden"
    /\ PrimFloat.eqb (highest_crime_rate stats) 2.0%float = true.
Proof.
  destruct statistics_summary_values as (Hall & _).
  destruct (Hall (startup (firstn 1 sample_csv) sample_geojson) "Burglary")
    as (Hsome & _).
  destruct Hsome as (stats & Hrun & Htotal & _ & _ & _ & _ & _ & Hsingle).
  - eexists. split; [left; reflexivity | discriminate].
  - exists stats. split; [now rewrite Hrun|]. split; [exact Htotal|].
    destruct (Hsingle (add_season
                         {| csv_Boroughs := Some "Camden"; csv_Year := 2023;
                            csv_Month := 1; csv_MajorCrime := Some "Burglary";
                            csv_CrimeCount := 10;
                            csv_CrimeRatePer1000 := 2.0%float;
                            csv_Population := 270000 |}) eq_refl)
      as (Hmost & Hrate).
    split; [simpl in Hmost; congruence|]. apply Hrate. reflexivity.
Defined.

(** C9 (as stated, it fails): on the sample table no row has the crime
    type "Robbery", and the statistics callback returns no statistics
    for it, NaN or other: it raises. *)
Lemma empty_selection_returns_no_statistics :
  filter_crime_type "Robbery" (crime_data (startup sample_csv sample_geojson))
  = []
  /\ ~ (exists stats table,
          fst (update_statistics_and_table
                 "Robbery" (startup sample_csv sample_geojson))
          = Ok (stats, table)).
Proof.
  split; [reflexivity|]. intros (stats & table & H). discriminate H.
Qed.

(** C9 (amended): when no row has the selected crime type, the
    aggregation has no group, the total CrimeCount is 0 and the mean
    CrimeRatePer1000 is NaN, but [idxmax] of the empty per-borough sums
    raises, so the statistics callback raises ValueError and returns no
    statistics; the module-level state is kept. *)
Theorem empty_selection_raises_value_error :
  forall (g : Globals) (selected_crime_type : string),
    let rows := filter_crime_type selected_crime_type (crime_data g) in
    rows = [] ->
    groupby Boroughs rows = []
    /\ group_borough rows = []
    /\ Int64.sum (map CrimeCount rows) = 0
    /\ F64.mean (map CrimeRatePer1000 rows) = PrimFloat.nan
    /\ idxmax (agg_sum Boroughs CrimeCount rows) = Raise ValueError
    /\ update_statistics_and_table selected_crime_type g
       = (Raise ValueError, g)
    /\ handler statistics_callback [VStr selected_crime_type] g
       = (Raise ValueError, g).
Proof.
  intros g sel rows E.
  assert (Hrun : update_statistics_and_table sel g = (Raise ValueError, g))
    by now apply statistics_empty.
  repeat split; try (rewrite E; reflexivity); try assumption.
  simpl. unfold bind. now rewrite Hrun.
Qed.

Lemma empty_selection_raises_value_error_witness :
  update_statistics_and_table "Robbery" (startup sample_csv sample_geojson)
  = (Raise ValueError, startup sample_csv sample_geojson).
Proof.
  apply (empty_selection_raises_value_error
           (startup sample_csv sample_geojson) "Robbery").
  reflexivity.
Defined.

(** * Further properties *)

(** ** Borough name normalization *)

Module PyStrFacts.

Lemma lower_char_idempotent (c : ascii) :
  PyStr.lower_char (PyStr.lower_char c) = PyStr.lower_char c.
Proof. destruct c as [[] [] [] [] [] [] [] []]; reflexivity. Qed.

Lemma is_space_lower_char (c : ascii) :
  PyStr.is_space (PyStr.lower_char c) = PyStr.is_space c.
Proof. destruct c as [[] [] [] [] [] [] [] []]; reflexivity. Qed.

Lemma lower_idempotent (s : string) : PyStr.lower (PyStr.lower s) = PyStr.lower s.
Proof.
  induction s as [|c s IH]; simpl; [reflexivity|].
  now rewrite lower_char_idempotent, IH.
Qed.

Lemma lower_length (s : string) : String.length (PyStr.lower s) = String.length s.
Proof. induction s as [|c s IH]; simpl; congruence. Qed.

Lemma lstrip_lower (s : string) :
  PyStr.lstrip (PyStr.lower s) = PyStr.lower (PyStr.lstrip s).
Proof.
  induction s as [|c s IH]; simpl; [reflexivity|].
  rewrite is_space_lower_char. now destruct (PyStr.is_space c).
Qed.

Lemma rstrip_lower (s : string) :
  PyStr.rstrip (PyStr.lower s) = PyStr.lower (PyStr.rstrip s).
Proof.
  induction s as [|c s IH]; simpl; [reflexivity|].
  rewrite IH, is_space_lower_char.
  destruct (PyStr.rstrip s); simpl; [|reflexivity].
  now destruct (PyStr.is_space c).
Qed.

Lemma strip_lower (s : string) :
  PyStr.strip (PyStr.lower s) = PyStr.lower (PyStr.strip s).
Proof. unfold PyStr.strip. now rewrite lstrip_lower, rstrip_lower. Qed.

Lemma lstrip_starts_clean (s : string) : starts_clean (PyStr.lstrip s).
Proof.
  induction s as [|c s IH]; simpl; [exact I|].
  destruct (PyStr.is_space c) eqn:E; [exact IH | exact E].
Qed.

Lemma lstrip_clean (s : string) : starts_clean s -> PyStr.lstrip s = s.
Proof. destruct s as [|c s]; simpl; [reflexivity|]. now intros ->. Qed.

Lemma rstrip_starts_clean (s : string) :
  starts_clean s -> starts_clean (PyStr.rstrip s).
Proof.
  destruct s as [|c s]; simpl; [auto|]. intros Hc.
  destruct (PyStr.rstrip s); simpl; [|exact Hc].
  rewrite Hc. exact Hc.
Qed.

Lemma rstrip_ends_clean (s : string) : ends_clean (PyStr.rstrip s).
Proof.
  induction s as [|c s IH]; simpl; [exact I|].
  destruct (PyStr.rstrip s) as [|d t] eqn:E.
  - destruct (PyStr.is_space c) eqn:Ec; simpl; auto.
  - simpl. simpl in IH. exact IH.
Qed.

Lemma rstrip_clean (s : string) : ends_clean s -> PyStr.rstrip s = s.
Proof.
  induction s as [|c s IH]; simpl; [reflexivity|].
  destruct s as [|d t].
  - simpl. now intros ->.
  - intros H. rewrite (IH H). reflexivity.
Qed.

Lemma strip_clean (s : string) :
  starts_clean (PyStr.strip s) /\ ends_clean (PyStr.strip s).
Proof.
  unfold PyStr.strip. split.
  - apply rstrip_starts_clean, lstrip_starts_clean.
  - apply rstrip_ends_clean.
Qed.

Lemma strip_of_clean (s : string) :
  starts_clean s -> ends_clean s -> PyStr.strip s = s.
Proof.
  intros Hs He. unfold PyStr.strip. rewrite (lstrip_clean s Hs).
  now apply rstrip_clean.
Qed.

Lemma strip_idempotent (s : string) : PyStr.strip (PyStr.strip s) = PyStr.strip s.
Proof. apply strip_of_clean; apply strip_clean. Qed.

Lemma lower_starts_clean (s : string) : starts_clean s -> starts_clean (PyStr.lower s).
Proof. destruct s; simpl; [auto|]. now rewrite is_space_lower_char. Qed.

Lemma lower_ends_clean (s : string) : ends_clean s -> ends_clean (PyStr.lower s).
Proof.
  induction s as [|c s IH]; simpl; [auto|].
  destruct s as [|d t]; simpl in *.
  - now rewrite is_space_lower_char.
  - exact IH.
Qed.

Lemma normalize_idempotent (s : string) :
  PyStr.normalize (PyStr.normalize s) = PyStr.normalize s.
Proof.
  unfold PyStr.normalize. rewrite strip_lower, strip_idempotent.
  apply lower_idempotent.
Qed.

End PyStrFacts.

(** X1: normalizing a borough name (strip, then lower) gives a name that
    neither starts nor ends with a blank and that stripping, lower-casing
    or normalizing again leave unchanged; and a name normalizes to the
    same result as its stripped form, its lower-cased form, and itself
    with one more leading blank. *)
Theorem normalize_is_fixpoint :
  forall s : string,
    starts_clean (PyStr.normalize s)
    /\ ends_clean (PyStr.normalize s)
    /\ PyStr.strip (PyStr.normalize s) = PyStr.normalize s
    /\ PyStr.lower (PyStr.normalize s) = PyStr.normalize s
    /\ PyStr.normalize (PyStr.normalize s) = PyStr.normalize s
    /\ PyStr.normalize (PyStr.strip s) = PyStr.normalize s
    /\ PyStr.normalize (PyStr.lower s) = PyStr.normalize s
    /\ (forall c, PyStr.is_space c = true ->
                  PyStr.normalize (String c s) = PyStr.normalize s).
Proof.
  intros s.
  destruct (PyStrFacts.strip_clean s) as [Hs He].
  assert (Hs' := PyStrFacts.lower_starts_clean _ Hs).
  assert (He' := PyStrFacts.lower_ends_clean _ He).
  assert (E : PyStr.strip (PyStr.normalize s) = PyStr.normalize s)
    by now apply PyStrFacts.strip_of_clean.
  split; [exact Hs'|]. split; [exact He'|]. split; [exact E|].
  split; [apply PyStrFacts.lower_idempotent|].
  split; [apply PyStrFacts.normalize_idempotent|].
  unfold PyStr.normalize. split; [|split].
  - now rewrite PyStrFacts.strip_idempotent.
  - rewrite PyStrFacts.strip_lower. apply PyStrFacts.lower_idempotent.
  - intros c Hc. unfold PyStr.strip. simpl. now rewrite Hc.
Qed.

(** ** The two geo merges *)

Lemma group_borough_level_boroughs (rows : list CrimeRecord) (b : string) :
  In b (map geo_Boroughs (group_borough_level rows))
  <-> In (Some b) (map Boroughs rows).
Proof. apply (group_borough_level_ok rows). Qed.

Lemma merged_names_In (left : list Boundary) (right : list GeoAggRow) (n : string) :
  In n (merged_names (merge left right))
  <-> In n (map name left) /\ In n (map geo_Boroughs right).
Proof.
  unfold merged_names. rewrite !in_map_iff. split.
  - intros ([b r] & <- & Hin). apply merge_In in Hin.
    destruct Hin as (Hb & Hr & E). simpl. split.
    + now exists b.
    + exists r. split; [now symmetry | assumption].
  - intros ((b & <- & Hb) & (r & E & Hr)).
    exists (b, r). split; [reflexivity|]. apply merge_In. auto.
Qed.

Lemma crime_data_boroughs (csv : list CsvRow) :
  map Boroughs (map add_season csv) = map csv_Boroughs csv.
Proof. rewrite map_map. reflexivity. Qed.

(** X2: a name is drawn on the start-up map exactly when it is the
    normalized name of a boundary feature and the normalized name of a
    borough of the crime table; boundaries and boroughs without such a
    partner are left out. *)
Theorem startup_map_names :
  forall (csv : list CsvRow) (geojson : list Boundary) (n : string),
    In n (merged_names (merged_geo_df (startup csv geojson)))
    <-> (exists b, In b geojson /\ PyStr.normalize (name b) = n)
        /\ (exists r borough, In r csv /\ csv_Boroughs r = Some borough
                              /\ PyStr.normalize borough = n).
Proof.
  intros csv geojson n. simpl. rewrite merged_names_In.
  unfold normalize_names, normalize_boroughs. rewrite !map_map. simpl.
  rewrite !in_map_iff. split.
  - intros ((b & <- & Hb) & (r & E & Hr)). split; [exists b; auto|].
    assert (Hk : In (Some (geo_Boroughs r)) (map Boroughs (map add_season csv))).
    { apply group_borough_level_boroughs. now apply in_map. }
    rewrite crime_data_boroughs in Hk. apply in_map_iff in Hk.
    destruct Hk as (c & Hc & Hin). exists c, (geo_Boroughs r). auto.
  - intros ((b & Hb & <-) & (c & borough & Hc & Eb & E)).
    split; [exists b; auto|].
    assert (Hk : In borough (map geo_Boroughs
                      (group_borough_level (map add_season csv)))).
    { apply group_borough_level_boroughs. rewrite crime_data_boroughs.
      rewrite <- Eb. now apply in_map. }
    apply in_map_iff in Hk. destruct Hk as (r & Hr & Hin).
    exists r. split; [|assumption]. now rewrite Hr.
Qed.

Lemma filter_crime_type_boroughs (csv : list CsvRow) (crime_type n : string) :
  In (Some n)
     (map Boroughs (filter_crime_type crime_type (map add_season csv)))
  <-> exists r, In r csv /\ csv_MajorCrime r = Some crime_type
                /\ csv_Boroughs r = Some n.
Proof.
  unfold filter_crime_type. rewrite in_map_iff. split.
  - intros (x & Ex & Hx). apply filter_In in Hx. destruct Hx as [Hx E].
    apply in_map_iff in Hx. destruct Hx as (r & <- & Hr).
    apply cell_is_eq in E. exists r. auto.
  - intros (r & Hr & Ec & En). exists (add_season r). split; [exact En|].
    apply filter_In. split; [now apply in_map | now apply cell_is_eq].
Qed.

(** X3: the map callback draws a name exactly when it is the normalized
    name of a boundary feature and, letter for letter, the borough of a
    CSV row of the selected crime type.  So it draws only boroughs that
    the CSV already spells in normalized form. *)
Theorem callback_map_names :
  forall (csv : list CsvRow) (geojson : list Boundary)
         (selected_crime_type : string),
  exists rows,
    update_geospatial_map selected_crime_type (startup csv geojson)
    = (Ok {| chart := ChoroplethMapbox; data := GeoRows rows;
             title := ("Crime Rates Across London Boroughs: "
                       ++ selected_crime_type)%string |},
       startup csv geojson)
    /\ (forall n,
           In n (merged_names rows)
           <-> (exists b, In b geojson /\ PyStr.normalize (name b) = n)
               /\ (exists r, In r csv
                             /\ csv_MajorCrime r = Some selected_crime_type
                             /\ csv_Boroughs r = Some n))
    /\ (forall n, In n (merged_names rows) -> PyStr.normalize n = n).
Proof.
  intros csv geojson sel.
  exists (merge (normalize_names geojson)
                (group_borough_level
                   (filter_crime_type sel (map add_season csv)))).
  split; [reflexivity|].
  assert (H : forall n,
             In n (merged_names
                     (merge (normalize_names geojson)
                            (group_borough_level
                               (filter_crime_type sel (map add_season csv)))))
             <-> (exists b, In b geojson /\ PyStr.normalize (name b) = n)
                 /\ (exists r, In r csv /\ csv_MajorCrime r = Some sel
                               /\ csv_Boroughs r = Some n)).
  { intros n. rewrite merged_names_In, group_borough_level_boroughs,
      filter_crime_type_boroughs.
    unfold normalize_names. rewrite map_map, in_map_iff. simpl.
    split; intros ((b & H1 & H2) & Hr); (split; [exists b; auto | exact Hr]). }
  split; [exact H|].
  intros n Hn. apply H in Hn. destruct Hn as ((b & _ & <-) & _).
  apply PyStrFacts.normalize_idempotent.
Qed.

(** ** The page *)

Lemma unique_nil {K : Type} `{GroupKey K} (l : list K) : unique l = [] <-> l = [].
Proof. destruct l; simpl; split; congruence. Qed.



Lemma layout_dropdowns (g : Globals) (p : Component) :
  layout g = Ok p ->
  exists first_crime rest,
    unique (map MajorCrime (crime_data g)) = first_crime :: rest
    /\ dropdowns p
       = [ ("borough-dropdown",
            (Some "All" :: unique (map Boroughs (crime_data g)),
             Single (Some "All")));
           ("crime-type-dropdown",
            (first_crime :: rest, Single first_crime));
           ("borough-comparison-dropdown",
            (unique (map Boroughs (crime_data g)),
             Multi (firstn 3 (unique (map Boroughs (crime_data g))))));
           ("crime-type-dropdown-stats",
            (first_crime :: rest, Single first_crime)) ].
Proof.
  unfold layout.
  destruct (unique (map MajorCrime (crime_data g))) as [|c rest] eqn:E;
    [discriminate|].
  intros [= <-]. exists c, rest. split; [reflexivity|].
  simpl. unfold options_of. rewrite !map_map. simpl. rewrite !map_id.
  reflexivity.
Qed.

Lemma firstn_included {A : Type} (n : nat) (l : list A) : incl (firstn n l) l.
Proof.
  intros x Hx. rewrite <- (firstn_skipn n l). apply in_or_app. now left.
Qed.

(** X5: on the page every dropdown starts at a value that its own option
    list offers: "All" for the season tab, the crime type of the first
    CSV row for the two crime-type selectors, and the first three
    distinct boroughs (fewer if there are fewer) for the comparison. *)
Theorem dropdown_defaults_are_offered :
  forall (g : Globals) (p : Component),
    layout g = Ok p ->
    (forall d, In d (dropdowns p) -> value_offered d)
    /\ (exists r rows,
           crime_data g = r :: rows
           /\ In ("crime-type-dropdown-stats",
                  (unique (map MajorCrime (crime_data g)),
                   Single (MajorCrime r))) (dropdowns p)
           /\ In ("crime-type-dropdown",
                  (unique (map MajorCrime (crime_data g)),
                   Single (MajorCrime r))) (dropdowns p))
    /\ In ("borough-comparison-dropdown",
           (unique (map Boroughs (crime_data g)),
            Multi (firstn 3 (unique (map Boroughs (crime_data g))))))
          (dropdowns p).
Proof.
  intros g p Hp. destruct (layout_dropdowns g p Hp) as (c & rest & Hu & Hd).
  rewrite Hd. split; [|split].
  - intros d [<- | [<- | [<- | [<- | []]]]]; unfold value_offered;
      cbn [fst snd]; try (now left).
    apply firstn_included.
  - destruct (crime_data g) as [|r rows]; [discriminate Hu|].
    exists r, rows. split; [reflexivity|].
    simpl in Hu. injection Hu as <- <-. simpl. auto 6.
  - simpl. auto.
Qed.

Lemma dropdown_defaults_are_offered_witness :
  exists p,
    layout (startup sample_csv sample_geojson) = Ok p
    /\ forall d, In d (dropdowns p) -> value_offered d.
Proof.
  eexists. split; [reflexivity|].
  apply (dropdown_defaults_are_offered (startup sample_csv sample_geojson)).
  reflexivity.
Defined.

(** X6: the crime-type selectors offer every crime type of the table
    exactly once, and the comparison selector offers every borough of the
    table exactly once; the season-tab selector offers "All" followed by
    the same boroughs. *)
Theorem dropdown_options_are_distinct_values :
  forall (g : Globals) (p : Component),
    layout g = Ok p ->
    exists crimes boroughs default_crime default_boroughs,
      dropdowns p
      = [ ("borough-dropdown",
            (Some "All" :: boroughs, Single (Some "All")));
          ("crime-type-dropdown", (crimes, Single default_crime));
          ("borough-comparison-dropdown", (boroughs, Multi default_boroughs));
          ("crime-type-dropdown-stats", (crimes, Single default_crime)) ]
      /\ NoDup crimes
      /\ (forall c, In c crimes <-> In c (map MajorCrime (crime_data g)))
      /\ NoDup boroughs
      /\ (forall b, In b boroughs <-> In b (map Boroughs (crime_data g))).
Proof.
  intros g p Hp. destruct (layout_dropdowns g p Hp) as (c & rest & Hu & Hd).
  exists (c :: rest), (unique (map Boroughs (crime_data g))), c,
         (firstn 3 (unique (map Boroughs (crime_data g)))).
  split; [exact Hd|]. rewrite <- Hu.
  repeat split; try apply unique_NoDup; try apply unique_In.
Qed.

Lemma dropdown_options_are_distinct_values_witness :
  exists p,
    layout (startup sample_csv sample_geojson) = Ok p
    /\ map fst (dropdowns p)
       = ["borough-dropdown"; "crime-type-dropdown";
          "borough-comparison-dropdown"; "crime-type-dropdown-stats"].
Proof.
  eexists. split; [reflexivity|].
  destruct (dropdown_options_are_distinct_values
              (startup sample_csv sample_geojson) _ eq_refl)
    as (crimes & boroughs & dc & db & Hd & _).
  rewrite Hd. reflexivity.
Defined.

(** X7: whatever the data, the components of the page carry pairwise
    different ids, every output of a registered callback is a component
    of the page, and every input of a registered callback other than
    [crime-type-dropdown-map] is a dropdown of the page. *)
Theorem page_ids_distinct_and_outputs_exist :
  forall (g : Globals) (p : Component),
    layout g = Ok p ->
    NoDup (component_ids p)
    /\ (forall cb o, In cb callbacks -> In o (outputs cb) ->
                     In (fst o) (component_ids p))
    /\ (forall cb i, In cb callbacks -> In i (inputs cb) ->
                     fst i <> "crime-type-dropdown-map" ->
                     In (fst i) (map fst (dropdowns p))).
Proof.
  intros g p Hp.
  rewrite (layout_ids g p Hp), (layout_dropdown_ids g p Hp).
  split; [|split].
  - repeat (constructor; [simpl; intuition discriminate|]). constructor.
  - intros cb o Hcb Ho. simpl in Hcb.
    destruct Hcb as [<- | [<- | [<- | [<- | []]]]]; simpl in Ho;
      repeat (destruct Ho as [<- | Ho]; [simpl; tauto|]); destruct Ho.
  - intros cb i Hcb Hi Hne. simpl in Hcb.
    destruct Hcb as [<- | [<- | [<- | [<- | []]]]]; simpl in Hi;
      repeat (destruct Hi as [<- | Hi]; [simpl in *; tauto|]); destruct Hi.
Qed.

Lemma page_ids_distinct_and_outputs_exist_witness :
  exists p,
    layout (startup sample_csv sample_geojson) = Ok p
    /\ NoDup (component_ids p).
Proof.
  eexists. split; [reflexivity|].
  apply (page_ids_distinct_and_outputs_exist (startup sample_csv sample_geojson)).
  reflexivity.
Defined.

(** ** Selections on the served page *)

Lemma serve_page (csv : list CsvRow) (geojson : list Boundary) (st : AppState) :
  serve csv geojson = Ok st -> layout (startup csv geojson) = Ok (page st).
Proof.
  unfold serve. destruct (module_body csv geojson) as [g|e] eqn:Eg;
    [|discriminate].
  destruct (module_body_ok _ _ _ Eg) as (-> & _).
  destruct (layout (startup csv geojson)) as [p|e]; [|discriminate].
  intros [= <-]. f_equal. symmetry.
  now destruct (fire_all_frame callbacks
                  {| globals := startup csv geojson; page := p;
                     view := fold_left (fun w pv => set_prop (fst pv) (snd pv) w)
                                       (initial_props p) (fun _ => None) |})
    as (_ & Hp & _).
Qed.

Lemma reachable_page (csv : list CsvRow) (geojson : list Boundary)
      (st : AppState) :
  reachable csv geojson st -> layout (startup csv geojson) = Ok (page st).
Proof.
  induction 1 as [st Hst | st ctl v _ IH].
  - now apply serve_page.
  - destruct (on_change_frame ctl v st) as (_ & Hp & _). now rewrite Hp.
Qed.

Lemma sample_state_served : serve sample_csv sample_geojson = Ok sample_state.
Proof. vm_compute. reflexivity. Qed.

Lemma sample_state_reachable : reachable sample_csv sample_geojson sample_state.
Proof. apply reachable_serve. exact sample_state_served. Qed.

(** A selection change on a dropdown of the page, step by step. *)
Lemma on_change_dropdown (ctl : string) (v : DropdownValue) (st : AppState) :
  In ctl (map fst (dropdowns (page st))) ->
  on_change ctl v st
  = fold_left (fun s cb => fire cb s)
              (filter (depends_on ctl) callbacks)
              {| globals := globals st; page := page st;
                 view := set_prop (ctl, "value") (dropdown_value v) (view st) |}.
Proof.
  intros Hin. unfold on_change.
  destruct (existsb (String.eqb ctl) (map fst (dropdowns (page st)))) eqn:E;
    [reflexivity|].
  exfalso. apply Bool.not_true_iff_false in E. apply E.
  apply existsb_exists. exists ctl. split; [assumption | apply String.eqb_refl].
Qed.

Lemma prop_eqb_refl (p : Prop_id) : prop_eqb p p = true.
Proof. now apply prop_eqb_eq. Qed.

Lemma set_prop_same (p : Prop_id) (v : PropValue) (w : View) :
  set_prop p v w p = Some v.
Proof. unfold set_prop. now rewrite prop_eqb_refl. Qed.

Lemma set_prop_other (p q : Prop_id) (v : PropValue) (w : View) :
  prop_eqb q p = false -> set_prop p v w q = w q.
Proof. intros E. unfold set_prop. now rewrite E. Qed.

(** Running a callback that returns, and one that raises. *)
Lemma fire_ok (cb : Callback) (st : AppState) (args outs : list PropValue) :
  gather (view st) (inputs cb) = Some args ->
  handler cb args (globals st) = (Ok outs, globals st) ->
  fire cb st = {| globals := globals st; page := page st;
                  view := set_props (outputs cb) outs (view st) |}.
Proof. intros Hargs Hrun. unfold fire. now rewrite Hargs, Hrun. Qed.

Lemma fire_raise (cb : Callback) (st : AppState) (args : list PropValue)
      (e : PyError) :
  gather (view st) (inputs cb) = Some args ->
  handler cb args (globals st) = (Raise e, globals st) ->
  fire cb st = {| globals := globals st; page := page st; view := view st |}.
Proof. intros Hargs Hrun. unfold fire. now rewrite Hargs, Hrun. Qed.

Lemma fire_missing_input (cb : Callback) (st : AppState) :
  gather (view st) (inputs cb) = None -> fire cb st = st.
Proof. intros Hargs. unfold fire. now rewrite Hargs. Qed.

Lemma update_seasonal_graph_returns (selected_borough : string) (g : Globals) :
  exists f, update_seasonal_graph selected_borough g = (Ok f, g).
Proof.
  unfold update_seasonal_graph, bind, global, ret.
  destruct (String.eqb selected_borough "All"); eexists; reflexivity.
Qed.

(** X8: on the served page, choosing a borough (or "All") in the season
    tab stores the choice and replaces the seasonal graph by the figure
    that [update_seasonal_graph] computes for it from the start-up
    tables; the callback never raises. *)
Theorem season_selection_updates_graph :
  forall (csv : list CsvRow) (geojson : list Boundary) (st : AppState)
         (selected_borough : string),
    reachable csv geojson st ->
    exists f,
      update_seasonal_graph selected_borough (startup csv geojson)
      = (Ok f, startup csv geojson)
      /\ view (on_change "borough-dropdown" (Single (Some selected_borough)) st)
              ("borough-dropdown", "value")
         = Some (VStr selected_borough)
      /\ view (on_change "borough-dropdown" (Single (Some selected_borough)) st)
              ("seasonal-crime-pattern-graph", "figure")
         = Some (VFigure f).
Proof.
  intros csv geojson st b Hst.
  pose proof (reachable_globals csv geojson st Hst) as Hg.
  pose proof (reachable_page csv geojson st Hst) as Hp.
  destruct (update_seasonal_graph_returns b (startup csv geojson)) as (f & Hf).
  exists f. split; [exact Hf|].
  rewrite on_change_dropdown
    by (rewrite (layout_dropdown_ids _ _ Hp); simpl; auto).
  change (filter (depends_on "borough-dropdown") callbacks)
    with [seasonal_callback].
  cbn [fold_left].
  erewrite fire_ok with (args := [VStr b]) (outs := [VFigure f]).
  - cbn [view outputs seasonal_callback set_props]. split.
    + rewrite set_prop_other by reflexivity. apply set_prop_same.
    + apply set_prop_same.
  - cbn [view inputs seasonal_callback gather]. now rewrite set_prop_same.
  - cbn [globals handler seasonal_callback]. unfold bind.
    rewrite Hg, Hf. reflexivity.
Qed.

Lemma season_selection_updates_graph_witness :
  exists f,
    view (on_change "borough-dropdown" (Single (Some "Camden")) sample_state)
         ("seasonal-crime-pattern-graph", "figure")
    = Some (VFigure f)
    /\ title f = "Seasonal Crime Patterns in Camden".
Proof.
  destruct (season_selection_updates_graph
              sample_csv sample_geojson sample_state "Camden"
              sample_state_reachable)
    as (f & Hf & _ & Hview).
  exists f. split; [exact Hview|].
  apply (f_equal fst) in Hf. vm_compute in Hf.
  injection Hf as <-. reflexivity.
Defined.

Lemma crime_data_crime_types (csv : list CsvRow) :
  map MajorCrime (map add_season csv) = map csv_MajorCrime csv.
Proof. rewrite map_map. reflexivity. Qed.

(** The rows of the selected crime type that name a borough, read off
    the CSV. *)
Lemma selected_row_with_borough (csv : list CsvRow) (crime_type : string) :
  (exists r, In r (filter_crime_type crime_type (map add_season csv))
             /\ Boroughs r <> None)
  <-> exists x, In x csv /\ csv_MajorCrime x = Some crime_type
                /\ csv_Boroughs x <> None.
Proof.
  unfold filter_crime_type. split.
  - intros (r & Hr & Hb). apply filter_In in Hr. destruct Hr as [Hr E].
    apply in_map_iff in Hr. destruct Hr as (x & <- & Hx).
    apply cell_is_eq in E. exists x. auto.
  - intros (x & Hx & Ec & Hb). exists (add_season x). split; [|exact Hb].
    apply filter_In. split; [now apply in_map | now apply cell_is_eq].
Qed.

(** The statistics callback returns exactly when some row of the
    selected crime type names a borough. *)
Lemma statistics_returns (g : Globals) (selected_crime_type : string) :
  (exists r, In r (filter_crime_type selected_crime_type (crime_data g))
             /\ Boroughs r <> None) ->
  exists stats,
    update_statistics_and_table selected_crime_type g
    = (Ok (stats,
           group_borough (filter_crime_type selected_crime_type (crime_data g))),
       g).
Proof.
  intros (r & Hr & Hb).
  destruct (idxmax_first_max
              (agg_sum Boroughs CrimeCount
                       (filter_crime_type selected_crime_type (crime_data g))))
    as (b & _ & _ & Hmax & _).
  - rewrite agg_sum_rows. intros E. apply map_eq_nil in E.
    apply Hb. exact (proj1 (group_keys_nil Boroughs _) E r Hr).
  - eexists. unfold update_statistics_and_table, bind, global, call, ret.
    rewrite Hmax. reflexivity.
Qed.

Lemma statistics_raises (g : Globals) (selected_crime_type : string) :
  ~ (exists r, In r (filter_crime_type selected_crime_type (crime_data g))
               /\ Boroughs r <> None) ->
  update_statistics_and_table selected_crime_type g = (Raise ValueError, g).
Proof.
  intros Hnot. apply statistics_no_borough. intros r Hr.
  destruct (Boroughs r) as [b|] eqn:Eb; [|reflexivity].
  exfalso. apply Hnot. exists r. split; [assumption | congruence].
Qed.

Lemma selected_row_with_borough_dec (csv : list CsvRow) (crime_type : string) :
  (exists x, In x csv /\ csv_MajorCrime x = Some crime_type
             /\ csv_Boroughs x <> None)
  \/ ~ (exists x, In x csv /\ csv_MajorCrime x = Some crime_type
                  /\ csv_Boroughs x <> None).
Proof.
  induction csv as [|x csv IH].
  - right. intros (x & [] & _).
  - destruct IH as [(y & Hy & H) | Hnot]; [left; exists y; simpl; auto|].
    destruct (cell_is crime_type (csv_MajorCrime x)) eqn:Ec;
      [destruct (csv_Boroughs x) as [b|] eqn:Eb|].
    + left. exists x. apply cell_is_eq in Ec. rewrite Eb.
      split; [now left|]. split; [assumption | discriminate].
    + right. intros (y & [<- | Hy] & Hc & Hb); [congruence|].
      apply Hnot. eauto.
    + right. intros (y & [<- | Hy] & Hc & Hb).
      * apply cell_is_eq in Hc. congruence.
      * apply Hnot. eauto.
Qed.

(** X9: on the served page, choosing a crime type in the statistics tab
    stores the choice.  When some CSV row of that crime type names a
    borough, the statistics list and the table are replaced by what
    [update_statistics_and_table] returns; when none does (no row has the
    crime type, or the borough cell of each such row is blank), the
    callback raises and the list and the table stay as they were, next to
    the new choice. *)
Theorem statistics_selection_updates_or_keeps :
  forall (csv : list CsvRow) (geojson : list Boundary) (st : AppState)
         (selected_crime_type : string),
    reachable csv geojson st ->
    view (on_change "crime-type-dropdown-stats"
                    (Single (Some selected_crime_type)) st)
         ("crime-type-dropdown-stats", "value")
    = Some (VStr selected_crime_type)
    /\ ((exists x, In x csv /\ csv_MajorCrime x = Some selected_crime_type
                   /\ csv_Boroughs x <> None) ->
        exists stats table,
          update_statistics_and_table selected_crime_type (startup csv geojson)
          = (Ok (stats, table), startup csv geojson)
          /\ view (on_change "crime-type-dropdown-stats"
                             (Single (Some selected_crime_type)) st)
                  ("statistics-content", "children")
             = Some (VStatistics stats)
          /\ view (on_change "crime-type-dropdown-stats"
                             (Single (Some selected_crime_type)) st)
                  ("crime-data-table", "data")
             = Some (VRecords table))
    /\ (~ (exists x, In x csv /\ csv_MajorCrime x = Some selected_crime_type
                     /\ csv_Boroughs x <> None) ->
        update_statistics_and_table selected_crime_type (startup csv geojson)
        = (Raise ValueError, startup csv geojson)
        /\ view (on_change "crime-type-dropdown-stats"
                           (Single (Some selected_crime_type)) st)
                ("statistics-content", "children")
           = view st ("statistics-content", "children")
        /\ view (on_change "crime-type-dropdown-stats"
                           (Single (Some selected_crime_type)) st)
                ("crime-data-table", "data")
           = view st ("crime-data-table", "data")).
Proof.
  intros csv geojson st c Hst.
  pose proof (reachable_globals csv geojson st Hst) as Hg.
  pose proof (reachable_page csv geojson st Hst) as Hp.
  rewrite on_change_dropdown
    by (rewrite (layout_dropdown_ids _ _ Hp); simpl; auto 6).
  change (filter (depends_on "crime-type-dropdown-stats") callbacks)
    with [statistics_callback].
  cbn [fold_left].
  set (s0 := {| globals := globals st; page := page st;
                view := set_prop ("crime-type-dropdown-stats", "value")
                                 (dropdown_value (Single (Some c)))
                                 (view st) |}).
  assert (Hargs : gather (view s0) (inputs statistics_callback) = Some [VStr c]).
  { cbn [s0 view inputs statistics_callback gather]. now rewrite set_prop_same. }
  destruct (selected_row_with_borough_dec csv c) as [Hin | Hnot].
  - assert (Hin' : exists r,
               In r (filter_crime_type c (crime_data (startup csv geojson)))
               /\ Boroughs r <> None)
      by now apply selected_row_with_borough.
    destruct (statistics_returns (startup csv geojson) c Hin') as (stats & Hrun).
    rewrite (fire_ok statistics_callback s0 [VStr c]
               [VStatistics stats;
                VRecords (group_borough
                            (filter_crime_type c (crime_data (startup csv geojson))))]
               Hargs)
      by (cbn [s0 globals handler statistics_callback]; unfold bind;
          rewrite Hg, Hrun; reflexivity).
    cbn [view outputs statistics_callback set_props s0].
    split; [|split].
    + rewrite !set_prop_other by reflexivity. apply set_prop_same.
    + intros _. eexists. eexists. split; [exact Hrun|]. split.
      * rewrite set_prop_other by reflexivity. apply set_prop_same.
      * apply set_prop_same.
    + intros Hnot. contradiction.
  - assert (Hnot' : ~ (exists r,
               In r (filter_crime_type c (crime_data (startup csv geojson)))
               /\ Boroughs r <> None)).
    { intros H. apply Hnot. now apply selected_row_with_borough. }
    pose proof (statistics_raises (startup csv geojson) c Hnot') as Hrun.
    rewrite (fire_raise statistics_callback s0 [VStr c] ValueError Hargs)
      by (cbn [s0 globals handler statistics_callback]; unfold bind;
          rewrite Hg, Hrun; reflexivity).
    cbn [view s0]. split; [|split].
    + apply set_prop_same.
    + intros Hin. contradiction.
    + intros _. split; [exact Hrun|].
      split; rewrite set_prop_other by reflexivity; reflexivity.
Qed.

Lemma statistics_selection_updates_or_keeps_witness :
  view (on_change "crime-type-dropdown-stats" (Single (Some "Robbery"))
                  sample_state)
       ("statistics-content", "children")
  = view sample_state ("statistics-content", "children")
  /\ exists stats,
      view (on_change "crime-type-dropdown-stats" (Single (Some "Burglary"))
                      sample_state)
           ("statistics-content", "children")
      = Some (VStatistics stats).
Proof.
  split.
  - destruct (statistics_selection_updates_or_keeps
                sample_csv sample_geojson sample_state "Robbery"
                sample_state_reachable)
      as (_ & _ & Hkeep).
    apply Hkeep. intros (x & [<- | [<- | []]] & Hc & _); discriminate Hc.
  - destruct (statistics_selection_updates_or_keeps
                sample_csv sample_geojson sample_state "Burglary"
                sample_state_reachable)
      as (_ & Hupd & _).
    destruct Hupd as (stats & table & _ & Hview & _).
    + eexists. split; [left; reflexivity|]. split; [reflexivity | discriminate].
    + exists stats. exact Hview.
Defined.

Lemma update_borough_comparison_returns (selected_crime_type : string)
      (selected_boroughs : list (option string)) (g : Globals) :
  exists f,
    update_borough_comparison selected_crime_type selected_boroughs g = (Ok f, g).
Proof. eexists. reflexivity. Qed.

(** X10: on the served page the comparison chart follows both of its
    controls: a new crime type is combined with the boroughs currently
    selected, and a new borough selection with the crime type currently
    selected; in both cases the chart becomes the figure that
    [update_borough_comparison] computes from the start-up tables. *)
Theorem comparison_selection_updates_chart :
  forall (csv : list CsvRow) (geojson : list Boundary) (st : AppState)
         (selected_crime_type : string)
         (selected_boroughs : list (option string)),
    reachable csv geojson st ->
    exists f,
      update_borough_comparison selected_crime_type selected_boroughs
                                (startup csv geojson)
      = (Ok f, startup csv geojson)
      /\ (view st ("borough-comparison-dropdown", "value")
          = Some (VList selected_boroughs) ->
          view (on_change "crime-type-dropdown"
                          (Single (Some selected_crime_type)) st)
               ("borough-comparison-bar-chart", "figure")
          = Some (VFigure f))
      /\ (view st ("crime-type-dropdown", "value")
          = Some (VStr selected_crime_type) ->
          view (on_change "borough-comparison-dropdown"
                          (Multi selected_boroughs) st)
               ("borough-comparison-bar-chart", "figure")
          = Some (VFigure f)).
Proof.
  intros csv geojson st c bs Hst.
  pose proof (reachable_globals csv geojson st Hst) as Hg.
  pose proof (reachable_page csv geojson st Hst) as Hp.
  destruct (update_borough_comparison_returns c bs (startup csv geojson))
    as (f & Hf).
  exists f. split; [exact Hf|]. split; intros Hcur.
  - rewrite on_change_dropdown
      by (rewrite (layout_dropdown_ids _ _ Hp); simpl; auto 6).
    change (filter (depends_on "crime-type-dropdown") callbacks)
      with [comparison_callback].
    cbn [fold_left].
    erewrite fire_ok with (args := [VStr c; VList bs]) (outs := [VFigure f]).
    + cbn [view outputs comparison_callback set_props]. apply set_prop_same.
    + cbn [view inputs comparison_callback gather].
      rewrite set_prop_same, set_prop_other by reflexivity. now rewrite Hcur.
    + cbn [globals handler comparison_callback]. unfold bind.
      rewrite Hg, Hf. reflexivity.
  - rewrite on_change_dropdown
      by (rewrite (layout_dropdown_ids _ _ Hp); simpl; auto 6).
    change (filter (depends_on "borough-comparison-dropdown") callbacks)
      with [comparison_callback].
    cbn [fold_left].
    erewrite fire_ok with (args := [VStr c; VList bs]) (outs := [VFigure f]).
    + cbn [view outputs comparison_callback set_props]. apply set_prop_same.
    + cbn [view inputs comparison_callback gather].
      rewrite set_prop_same, set_prop_other by reflexivity. now rewrite Hcur.
    + cbn [globals handler comparison_callback]. unfold bind.
      rewrite Hg, Hf. reflexivity.
Qed.

Lemma comparison_selection_updates_chart_witness :
  exists f,
    view (on_change "crime-type-dropdown" (Single (Some "Robbery"))
                    sample_state)
         ("borough-comparison-bar-chart", "figure")
    = Some (VFigure f)
    /\ data f = CountByBorough [].
Proof.
  destruct (comparison_selection_updates_chart
              sample_csv sample_geojson sample_state "Robbery"
              [Some "Camden"]
              sample_state_reachable)
    as (f & Hf & Hview & _).
  exists f. split; [apply Hview; vm_compute; reflexivity|].
  apply (f_equal fst) in Hf. vm_compute in Hf.
  injection Hf as <-. reflexivity.
Defined.

(** ** What the charts show *)

Lemma filter_twice {A : Type} (p q : A -> bool) (l : list A) :
  filter p (filter q l) = filter (fun x => q x && p x) l.
Proof.
  induction l as [|a l IH]; simpl; [reflexivity|].
  destruct (q a); simpl; [|exact IH].
  destruct (p a); now rewrite IH.
Qed.

Lemma isin_In (v : option string) (values : list (option string)) :
  isin v values = true <-> In v values.
Proof. unfold isin. apply existsb_key_eqb. Qed.

(** Grouping looks at the rows that have a key only. *)
Lemma agg_sum_keyed {K R : Type} `{GroupKeyOk K} (key : R -> option K)
      (c : R -> Z) (rows : list R) :
  agg_sum key c rows = agg_sum key c (filter (fun r => keyed (key r)) rows).
Proof.
  rewrite !agg_sum_rows.
  assert (Ek : present_keys key (filter (fun r => keyed (key r)) rows)
               = present_keys key rows).
  { unfold present_keys. induction rows as [|r rows IH]; simpl; [reflexivity|].
    destruct (key r) as [k|] eqn:Ek; simpl; [|exact IH].
    rewrite Ek. simpl. now rewrite IH. }
  unfold group_keys. rewrite Ek. apply map_ext. intros k.
  unfold group_rows. rewrite filter_twice. do 3 f_equal.
  apply filter_ext. intros r.
  destruct (key r) as [k'|]; simpl; [reflexivity|reflexivity].
Qed.

(** X11: the comparison chart has one bar per selected borough that has
    a row of the selected crime type, and no other bar; a bar's height
    is the sum of CrimeCount over the rows of that borough and crime
    type; and the chart depends on which boroughs are selected, not on
    their order or repetition in the selection, nor on a null in it. *)
Theorem comparison_chart_bars :
  forall (g : Globals) (selected_crime_type : string)
         (selected_boroughs : list (option string)),
  exists rows,
    update_borough_comparison selected_crime_type selected_boroughs g
    = (Ok {| chart := Bar; data := CountByBorough rows;
             title := ("Crime Count for '" ++ selected_crime_type
                       ++ "' Across Selected Boroughs")%string |}, g)
    /\ NoDup (map fst rows)
    /\ (forall b,
           In b (map fst rows)
           <-> In (Some b) selected_boroughs
               /\ exists r, In r (crime_data g)
                            /\ MajorCrime r = Some selected_crime_type
                            /\ Boroughs r = Some b)
    /\ (forall b n,
           In (b, n) rows ->
           n = Int64.sum
                 (map CrimeCount
                      (filter (fun r => cell_is selected_crime_type (MajorCrime r)
                                        && cell_is b (Boroughs r))
                              (crime_data g))))
    /\ (forall other_selection,
           (forall b : string,
               In (Some b) selected_boroughs <-> In (Some b) other_selection) ->
           update_borough_comparison selected_crime_type other_selection g
           = update_borough_comparison selected_crime_type selected_boroughs g).
Proof.
  intros g c bs.
  set (selected := filter (fun r => cell_is c (MajorCrime r)
                                    && isin (Boroughs r) bs) (crime_data g)).
  exists (agg_sum Boroughs CrimeCount selected).
  split; [reflexivity|].
  assert (Hkeys : forall b, In b (group_keys Boroughs selected)
                            <-> In (Some b) bs
                                /\ exists r, In r (crime_data g)
                                             /\ MajorCrime r = Some c
                                             /\ Boroughs r = Some b).
  { intros b. rewrite group_keys_In, in_map_iff. unfold selected. split.
    - intros (r & Eb & Hr). apply filter_In in Hr. destruct Hr as [Hr E].
      apply andb_true_iff in E. destruct E as [E1 E2].
      apply cell_is_eq in E1. apply isin_In in E2. rewrite Eb in E2.
      split; [assumption|]. exists r. auto.
    - intros (Hb & r & Hr & E1 & E2). exists r. split; [assumption|].
      apply filter_In. split; [assumption|]. apply andb_true_iff. split.
      + now apply cell_is_eq.
      + apply isin_In. now rewrite E2. }
  rewrite agg_sum_rows, map_map. simpl. rewrite map_id.
  split; [apply group_keys_NoDup|]. split; [exact Hkeys|]. split.
  - intros b n Hin. apply in_map_iff in Hin.
    destruct Hin as (b' & [= -> <-] & Hb). apply Hkeys in Hb.
    destruct Hb as [Hb _]. f_equal. f_equal.
    unfold group_rows, selected. rewrite filter_twice.
    apply filter_ext. intros r. rewrite has_key_string.
    destruct (cell_is b (Boroughs r)) eqn:E.
    + apply cell_is_eq in E. apply isin_In in Hb. rewrite E, Hb.
      now rewrite !andb_true_r.
    + now rewrite !andb_false_r.
  - intros bs' Hsame. unfold update_borough_comparison, bind, global, ret.
    assert (E : forall l : list (option string),
               agg_sum Boroughs CrimeCount
                       (filter (fun r => cell_is c (MajorCrime r)
                                         && isin (Boroughs r) l) (crime_data g))
               = agg_sum Boroughs CrimeCount
                         (filter (fun r => (cell_is c (MajorCrime r)
                                            && isin (Boroughs r) l)
                                           && keyed (Boroughs r))
                                 (crime_data g))).
    { intros l. now rewrite agg_sum_keyed, filter_twice. }
    rewrite (E bs), (E bs').
    replace (filter (fun r => (cell_is c (MajorCrime r) && isin (Boroughs r) bs')
                              && keyed (Boroughs r)) (crime_data g))
      with (filter (fun r => (cell_is c (MajorCrime r) && isin (Boroughs r) bs)
                             && keyed (Boroughs r)) (crime_data g));
      [reflexivity|].
    apply filter_ext. intros r.
    destruct (Boroughs r) as [b|]; simpl; [|now rewrite !andb_false_r].
    rewrite !andb_true_r. f_equal.
    apply Bool.eq_iff_eq_true. rewrite !isin_In. apply Hsame.
Qed.

(** The seasonal aggregate, restricted to one borough. *)
Lemma seasonal_rows_of_borough (rows : list CrimeRecord) (b : string) :
  filter (fun a : AggRow (string * string) => String.eqb (fst (agg_key a)) b)
         (group_borough_season rows)
  = map (fun k => {| agg_key := k;
                     agg_CrimeCount :=
                       Int64.sum (map CrimeCount (rows_of_borough_season k rows));
                     agg_CrimeRatePer1000 :=
                       F64.group_mean
                         (map CrimeRatePer1000
                              (rows_of_borough_season k rows)) |})
        (filter (fun k => String.eqb (fst k) b)
                (group_keys borough_season_key rows)).
Proof.
  unfold group_borough_season. rewrite agg_sum_mean_rows, filter_map_comm.
  simpl. apply map_ext. intros k. now rewrite group_rows_borough_season.
Qed.

(** The (borough, season) keys of the table, read off the CSV. *)
Lemma borough_season_keys (csv : list CsvRow) (k : string * string) :
  In k (group_keys borough_season_key (map add_season csv))
  <-> exists r, In r csv /\ csv_Boroughs r = Some (fst k)
                /\ get_season (csv_Month r) = snd k.
Proof.
  rewrite group_keys_In, map_map, in_map_iff.
  unfold borough_season_key. simpl. split.
  - intros (r & E & Hr). exists r. split; [assumption|].
    destruct (csv_Boroughs r) as [b|]; [|discriminate].
    injection E as <-. auto.
  - intros (r & Hr & Eb & Es). exists r. split; [|assumption].
    rewrite Eb, Es. now destruct k.
Qed.

(** X12: for a borough other than "All", the seasonal graph shows the
    rows of that borough only, one per season in which the borough has
    records; a row carries the sum of CrimeCount, wrapped to int64, and
    the grouped mean of CrimeRatePer1000 over the borough's records of
    that season.  A borough without records gives an empty chart, not an
    error.  For the three Camden records of January with the counts 1,
    2, 3 and the rates 0.1, 0.2, 0.3 the graph of Camden has the single
    row (Camden, Winter, 6, 0.19999999999999998). *)
#[warnings="-inexact-float"] Theorem season_chart_of_one_borough :
  (forall (csv : list CsvRow) (geojson : list Boundary)
          (selected_borough : string),
      selected_borough <> "All" ->
      exists rows,
        update_seasonal_graph selected_borough (startup csv geojson)
        = (Ok {| chart := Bar; data := ByBoroughSeason rows;
                 title := ("Seasonal Crime Patterns in "
                           ++ selected_borough)%string |},
           startup csv geojson)
        /\ NoDup (map (@agg_key _) rows)
        /\ (forall k,
               In k (map (@agg_key _) rows)
               <-> fst k = selected_borough
                   /\ exists r, In r csv
                                /\ csv_Boroughs r = Some selected_borough
                                /\ get_season (csv_Month r) = snd k)
        /\ (forall row,
               In row rows ->
               agg_CrimeCount row
               = Int64.wrap
                   (Zsum (map CrimeCount
                              (rows_of_borough_season
                                 (agg_key row) (map add_season csv))))
               /\ agg_CrimeRatePer1000 row
                  = F64.group_mean
                      (map CrimeRatePer1000
                           (rows_of_borough_season
                              (agg_key row) (map add_season csv))))
        /\ (rows = [] <-> ~ In (Some selected_borough) (map csv_Boroughs csv)))
  /\ fst (update_seasonal_graph "Camden" (startup tenths_csv sample_geojson))
     = Ok {| chart := Bar;
             data := ByBoroughSeason
                       [ {| agg_key := ("Camden", "Winter");
                            agg_CrimeCount := 6;
                            agg_CrimeRatePer1000 :=
                              0.19999999999999998%float |} ];
             title := "Seasonal Crime Patterns in Camden" |}.
Proof.
  split; [|vm_compute; reflexivity].
  intros csv geojson b Hb.
  assert (E : String.eqb b "All" = false) by now apply String.eqb_neq.
  set (crime := map add_season csv).
  exists (filter (fun a : AggRow (string * string) =>
                    String.eqb (fst (agg_key a)) b)
                 (group_borough_season crime)).
  split.
  { unfold update_seasonal_graph, bind, global, ret. rewrite E. reflexivity. }
  rewrite seasonal_rows_of_borough.
  set (ks := filter (fun k : string * string => String.eqb (fst k) b)
                    (group_keys borough_season_key crime)).
  assert (Hks : forall k, In k ks
                          <-> fst k = b
                              /\ exists r, In r csv /\ csv_Boroughs r = Some b
                                           /\ get_season (csv_Month r) = snd k).
  { intros k. unfold ks, crime.
    rewrite filter_In, String.eqb_eq, borough_season_keys. split.
    - intros ((r & Hr & E1 & E2) & Hk). split; [assumption|].
      exists r. rewrite <- Hk. auto.
    - intros (Hk & r & Hr & E1 & E2). split; [|assumption].
      exists r. rewrite Hk. auto. }
  rewrite map_map. simpl. rewrite map_id.
  split; [apply NoDup_filter, group_keys_NoDup|].
  split; [exact Hks|]. split.
  - intros row Hrow. apply in_map_iff in Hrow.
    destruct Hrow as (k & <- & _). simpl.
    split; [apply Int64Facts.sum_wrap | reflexivity].
  - split.
    + intros Hnil Hin. apply map_eq_nil in Hnil.
      apply in_map_iff in Hin. destruct Hin as (r & Hr1 & Hr2).
      assert (Hk : In (b, get_season (csv_Month r)) ks).
      { apply Hks. simpl. split; [reflexivity|]. exists r. auto. }
      rewrite Hnil in Hk. destruct Hk.
    + intros Hnot. destruct ks as [|k ks']; [reflexivity|].
      exfalso. apply Hnot.
      destruct (proj1 (Hks k) (or_introl eq_refl)) as (_ & r & Hr & Hr' & _).
      apply in_map_iff. now exists r.
Qed.

Lemma season_chart_of_one_borough_witness :
  exists rows,
    fst (update_seasonal_graph "Camden" (startup sample_csv sample_geojson))
    = Ok {| chart := Bar; data := ByBoroughSeason rows;
            title := "Seasonal Crime Patterns in Camden" |}
    /\ NoDup (map (@agg_key _) rows).
Proof.
  destruct season_chart_of_one_borough as (Hall & _).
  destruct (Hall sample_csv sample_geojson "Camden")
    as (rows & Hrun & Hnd & _).
  - discriminate.
  - exists rows. split; [now rewrite Hrun | exact Hnd].
Defined.

Lemma get_season_label (month : Z) : In (get_season month) season_labels.
Proof.
  unfold get_season, season_labels.
  repeat match goal with
         | |- context [if ?b then _ else _] => destruct b
         end; simpl; auto.
Qed.

(** X13: every record gets one of the four season labels, so the
    seasonal aggregate has at most four rows for any borough and the
    "All" view of the seasonal graph has at most four bars. *)
Theorem at_most_four_seasons :
  forall (csv : list CsvRow) (geojson : list Boundary),
    (forall r, In r (crime_data (startup csv geojson)) ->
               In (Season r) season_labels)
    /\ (forall b,
           (List.length
              (filter (fun a : AggRow (string * string) =>
                         String.eqb (fst (agg_key a)) b)
                      (seasonal_data (startup csv geojson))) <= 4)%nat)
    /\ exists rows,
        update_seasonal_graph "All" (startup csv geojson)
        = (Ok {| chart := Bar; data := BySeason rows;
                 title := "Seasonal Crime Patterns Across All Boroughs" |},
           startup csv geojson)
        /\ (List.length rows <= 4)%nat.
Proof.
  intros csv geojson.
  assert (Hlabel : forall r, In r (map add_season csv) ->
                             In (Season r) season_labels).
  { intros r Hr. apply in_map_iff in Hr. destruct Hr as (c & <- & _).
    simpl. apply get_season_label. }
  split; [exact Hlabel|]. split.
  - intros b. simpl seasonal_data. rewrite seasonal_rows_of_borough, length_map.
    set (ks := filter (fun k : string * string => String.eqb (fst k) b)
                      (group_keys borough_season_key (map add_season csv))).
    rewrite <- (length_map (@snd string string) ks).
    change 4%nat with (List.length season_labels).
    apply NoDup_incl_length.
    + assert (Hnd : NoDup ks) by apply NoDup_filter, group_keys_NoDup.
      assert (Hfst : forall k, In k ks -> fst k = b).
      { intros k Hk. apply filter_In in Hk. now apply String.eqb_eq. }
      clearbody ks. induction Hnd as [|k ks' Hk Hnd IH]; simpl; constructor.
      * intros Hin. apply in_map_iff in Hin. destruct Hin as (k' & E & Hk').
        apply Hk. replace k with k'; [assumption|].
        pose proof (Hfst k (or_introl eq_refl)) as H1.
        pose proof (Hfst k' (or_intror Hk')) as H2.
        destruct k, k'. simpl in *. congruence.
      * apply IH. intros k' Hk'. apply Hfst. now right.
    + intros s Hs. apply in_map_iff in Hs. destruct Hs as (k & <- & Hk).
      apply filter_In in Hk. destruct Hk as [Hk _].
      apply borough_season_keys in Hk. destruct Hk as (r & Hr & _ & <-).
      apply get_season_label.
  - eexists. split; [reflexivity|].
    rewrite agg_sum_mean_rows, length_map.
    change 4%nat with (List.length season_labels).
    apply NoDup_incl_length; [apply group_keys_NoDup|].
    intros s Hs. apply group_keys_In in Hs.
    change (seasonal_data (startup csv geojson))
      with (group_borough_season (map add_season csv)) in Hs.
    apply seasonal_seasons in Hs.
    destruct Hs as (r & Hr & _ & <-). now apply Hlabel.
Qed.

Lemma filter_none {R : Type} (p : R -> bool) (rows : list R) :
  (forall r, In r rows -> p r = false) -> filter p rows = [].
Proof.
  induction rows as [|r rows IH]; simpl; intros Hp; [reflexivity|].
  rewrite Hp by now left. apply IH. intros; apply Hp; now right.
Qed.

(** Splitting a sum along a test. *)
Lemma Zsum_filter_split {R : Type} (c : R -> Z) (p : R -> bool) (rows : list R) :
  Zsum (map c rows)
  = Zsum (map c (filter p rows))
    + Zsum (map c (filter (fun r => negb (p r)) rows)).
Proof.
  induction rows as [|r rows IH]; simpl; [reflexivity|].
  destruct (p r); simpl; lia.
Qed.

(** X14: when the statistics callback returns, its list and its table
    agree: the table is not empty; the total is the sum of the table's
    CrimeCount column plus the counts of the selected rows whose borough
    cell is blank, which the table leaves out (so it is the sum of the
    table's column when every selected row names a borough); the most
    affected borough is a row of the table whose CrimeCount no other row
    exceeds; and no rate of the table that is not NaN exceeds the highest
    rate. *)
Theorem statistics_agree_with_table :
  forall (g : Globals) (selected_crime_type : string)
         (stats : Statistics) (table : list (AggRow string)),
    update_statistics_and_table selected_crime_type g = (Ok (stats, table), g) ->
    let rows := filter_crime_type selected_crime_type (crime_data g) in
    table <> []
    /\ total_crimes stats
       = Int64.wrap
           (Zsum (map (@agg_CrimeCount _) table)
            + Zsum (map CrimeCount
                        (filter (fun r => negb (keyed (Boroughs r))) rows)))
    /\ ((forall r, In r rows -> Boroughs r <> None) ->
        total_crimes stats = Int64.wrap (Zsum (map (@agg_CrimeCount _) table)))
    /\ (exists row,
           In row table
           /\ agg_key row = most_affected_borough stats
           /\ forall other, In other table ->
                            agg_CrimeCount other <= agg_CrimeCount row)
    /\ (forall row,
           In row table ->
           PrimFloat.is_nan (agg_CrimeRatePer1000 row) = false ->
           PrimFloat.leb (agg_CrimeRatePer1000 row) (highest_crime_rate stats)
           = true).
Proof.
  intros g c stats table Hrun rows.
  assert (Hne : group_keys Boroughs rows <> []).
  { intros E.
    rewrite (statistics_no_borough g c (proj1 (group_keys_nil Boroughs rows) E))
      in Hrun.
    discriminate. }
  destruct (idxmax_first_max (agg_sum Boroughs CrimeCount rows))
    as (b & i & v & Hb & Hi & Hle & _).
  { rewrite agg_sum_rows. intros E. now apply map_eq_nil in E. }
  unfold update_statistics_and_table, bind, global, call, ret in Hrun.
  fold rows in Hrun. rewrite Hb in Hrun. injection Hrun as <- <-.
  cbn [total_crimes most_affected_borough highest_crime_rate].
  unfold group_borough. rewrite agg_sum_mean_rows.
  rewrite agg_sum_rows in Hi, Hle. rewrite nth_error_map in Hi.
  destruct (nth_error (group_keys Boroughs rows) i) as [b'|] eqn:Hnth;
    [|discriminate]. injection Hi as -> <-.
  assert (Htotal : Int64.sum (map CrimeCount rows)
                   = Int64.wrap
                       (Zsum (map (@agg_CrimeCount _)
                                  (map (fun k =>
                                          {| agg_key := k;
                                             agg_CrimeCount :=
                                               Int64.sum
                                                 (map CrimeCount
                                                      (group_rows Boroughs rows k));
                                             agg_CrimeRatePer1000 :=
                                               F64.group_mean
                                                 (map CrimeRatePer1000
                                                      (group_rows Boroughs rows k)) |})
                                       (group_keys Boroughs rows)))
                        + Zsum (map CrimeCount
                                    (filter (fun r => negb (keyed (Boroughs r)))
                                            rows)))).
  { rewrite map_map. simpl.
    rewrite <- Int64Facts.wrap_add_l, (sum_groups Boroughs CrimeCount rows).
    rewrite Int64Facts.wrap_add_l, Int64Facts.sum_wrap.
    f_equal. apply Zsum_filter_split. }
  split; [|split; [|split; [|split]]].
  - intros E. now apply map_eq_nil in E.
  - exact Htotal.
  - intros Hall. rewrite Htotal. f_equal.
    rewrite filter_none; [simpl; lia|].
    intros r Hr. specialize (Hall r Hr).
    destruct (Boroughs r); [reflexivity | congruence].
  - eexists. split; [|split].
    + apply in_map. eapply nth_error_In. exact Hnth.
    + reflexivity.
    + intros other Hother. apply in_map_iff in Hother.
      destruct Hother as (k & <- & Hk). simpl.
      apply (Hle (k, Int64.sum (map CrimeCount (group_rows Boroughs rows k)))).
      apply in_map_iff. now exists k.
  - intros row Hrow Hnan. apply in_map_iff in Hrow.
    destruct Hrow as (k & <- & Hk). simpl in *.
    rewrite agg_mean_rows, map_map. simpl.
    destruct (F64Facts.series_max_spec
                (map (fun k0 => F64.group_mean
                                  (map CrimeRatePer1000
                                       (group_rows Boroughs rows k0)))
                     (group_keys Boroughs rows))) as [Hmax _].
    destruct Hmax as (_ & _ & Hall).
    + eexists. split; [|exact Hnan]. apply in_map_iff. now exists k.
    + apply Hall; [|exact Hnan]. apply in_map_iff. now exists k.
Qed.

Lemma statistics_agree_with_table_witness :
  exists stats table,
    fst (update_statistics_and_table
           "Burglary" (startup blank_borough_csv sample_geojson))
    = Ok (stats, table)
    /\ total_crimes stats = 15
    /\ map (@agg_CrimeCount _) table = [5].
Proof.
  eexists. eexists. split; [reflexivity|].
  destruct (statistics_agree_with_table
              (startup blank_borough_csv sample_geojson) "Burglary" _ _ eq_refl)
    as (_ & Htotal & _).
  split; [exact Htotal | reflexivity].
Defined.

(** ** Sums without overflow *)

Lemma Zsum_nonneg (l : list Z) : (forall x, In x l -> 0 <= x) -> 0 <= Zsum l.
Proof.
  induction l as [|x l IH]; simpl; intros H; [lia|].
  assert (0 <= x) by (apply H; now left).
  assert (0 <= Zsum l) by (apply IH; intros; apply H; now right). lia.
Qed.

Lemma Zsum_filter_le {R : Type} (c : R -> Z) (p : R -> bool) (rows : list R) :
  (forall r, In r rows -> 0 <= c r) ->
  0 <= Zsum (map c (filter p rows)) <= Zsum (map c rows).
Proof.
  induction rows as [|r rows IH]; simpl; intros H; [lia|].
  assert (0 <= c r) by (apply H; now left).
  assert (0 <= Zsum (map c (filter p rows)) <= Zsum (map c rows))
    by (apply IH; intros; apply H; now right).
  destruct (p r); simpl; lia.
Qed.

(** With non-negative counts whose exact total fits int64, every group
    sum is exact and the group sums add up exactly to the total of the
    rows that have a key. *)
Lemma agg_sum_mean_exact {K R : Type} `{GroupKeyOk K}
      (key : R -> option K) (c : R -> Z) (rate : R -> float) (rows : list R) :
  (forall r, In r rows -> 0 <= c r) ->
  Zsum (map c rows) < 2 ^ 63 ->
  (forall row, In row (agg_sum_mean key c rate rows) ->
               agg_CrimeCount row
               = Zsum (map c (group_rows key rows (agg_key row))))
  /\ Zsum (map (@agg_CrimeCount K) (agg_sum_mean key c rate rows))
     = Zsum (map c (filter (fun r => keyed (key r)) rows)).
Proof.
  intros Hpos Hfit. rewrite agg_sum_mean_rows.
  assert (Hgroup : forall k, Int64.sum (map c (group_rows key rows k))
                             = Zsum (map c (group_rows key rows k))).
  { intros k. apply Int64Facts.sum_exact.
    pose proof (Zsum_filter_le c (fun r => has_key k (key r)) rows Hpos).
    unfold group_rows. lia. }
  split.
  - intros row Hrow. apply in_map_iff in Hrow.
    destruct Hrow as (k & <- & _). simpl. apply Hgroup.
  - rewrite map_map. simpl.
    rewrite (map_ext _ (fun k => Zsum (map c (group_rows key rows k))) Hgroup).
    rewrite Zsum_groups by apply group_keys_NoDup.
    now rewrite filter_group_keys.
Qed.

Lemma csv_counts (csv : list CsvRow) (p : CrimeRecord -> bool) :
  map CrimeCount (filter p (map add_season csv))
  = map csv_CrimeCount (filter (fun r => p (add_season r)) csv).
Proof. now rewrite filter_map_comm, map_map. Qed.

(** X15: when no CrimeCount of the CSV is negative and their exact total
    is below 2^63, int64 wrap-around plays no part: each row of the
    per-borough and per-(borough, season) aggregates carries the exact
    sum of its group, and the CrimeCount column of the per-borough, the
    per-(borough, season) and the per-(year, crime type) aggregate adds up
    exactly to the counts of the CSV rows that have the key (a borough for
    the first two, a crime type for the third), hence to the total of the
    CSV when no such cell is blank. *)
Theorem aggregate_counts_exact_without_overflow :
  forall (csv : list CsvRow) (geojson : list Boundary),
    (forall r, In r csv -> 0 <= csv_CrimeCount r) ->
    Zsum (map csv_CrimeCount csv) < 2 ^ 63 ->
    let g := startup csv geojson in
    (forall row, In row (borough_data g) ->
                 agg_CrimeCount row
                 = Zsum (map csv_CrimeCount
                             (filter (fun r => cell_is (agg_key row)
                                                       (csv_Boroughs r)) csv)))
    /\ (forall row, In row (seasonal_data g) ->
                    agg_CrimeCount row
                    = Zsum (map csv_CrimeCount
                                (filter (fun r =>
                                           cell_is (fst (agg_key row))
                                                   (csv_Boroughs r)
                                           && String.eqb
                                                (get_season (csv_Month r))
                                                (snd (agg_key row))) csv)))
    /\ Zsum (map (@agg_CrimeCount _) (borough_data g))
       = Zsum (map csv_CrimeCount
                   (filter (fun r => keyed (csv_Boroughs r)) csv))
    /\ Zsum (map (@agg_CrimeCount _) (seasonal_data g))
       = Zsum (map csv_CrimeCount
                   (filter (fun r => keyed (csv_Boroughs r)) csv))
    /\ Zsum (map (@agg_CrimeCount _) (yearly_data g))
       = Zsum (map csv_CrimeCount
                   (filter (fun r => keyed (csv_MajorCrime r)) csv))
    /\ ((forall r, In r csv -> csv_Boroughs r <> None) ->
        Zsum (map (@agg_CrimeCount _) (borough_data g))
        = Zsum (map csv_CrimeCount csv)
        /\ Zsum (map (@agg_CrimeCount _) (seasonal_data g))
           = Zsum (map csv_CrimeCount csv))
    /\ ((forall r, In r csv -> csv_MajorCrime r <> None) ->
        Zsum (map (@agg_CrimeCount _) (yearly_data g))
        = Zsum (map csv_CrimeCount csv)).
Proof.
  intros csv geojson Hpos Hfit g.
  assert (Hc : map CrimeCount (map add_season csv) = map csv_CrimeCount csv)
    by (rewrite map_map; reflexivity).
  assert (Hpos' : forall r, In r (map add_season csv) -> 0 <= CrimeCount r).
  { intros r Hr. apply in_map_iff in Hr. destruct Hr as (x & <- & Hx).
    simpl. now apply Hpos. }
  assert (Hfit' : Zsum (map CrimeCount (map add_season csv)) < 2 ^ 63)
    by now rewrite Hc.
  destruct (agg_sum_mean_exact Boroughs CrimeCount CrimeRatePer1000
              (map add_season csv) Hpos' Hfit') as [H1 H1'].
  destruct (agg_sum_mean_exact borough_season_key CrimeCount
              CrimeRatePer1000 (map add_season csv) Hpos' Hfit') as [H2 H2'].
  destruct (agg_sum_mean_exact year_crime_key CrimeCount
              CrimeRatePer1000 (map add_season csv) Hpos' Hfit') as [_ H3'].
  rewrite csv_counts in H1', H2', H3'.
  assert (E1 : Zsum (map (@agg_CrimeCount _) (borough_data g))
               = Zsum (map csv_CrimeCount
                           (filter (fun r => keyed (csv_Boroughs r)) csv)))
    by exact H1'.
  assert (E2 : Zsum (map (@agg_CrimeCount _) (seasonal_data g))
               = Zsum (map csv_CrimeCount
                           (filter (fun r => keyed (csv_Boroughs r)) csv))).
  { etransitivity; [exact H2'|]. do 2 f_equal. apply filter_ext. intros r.
    unfold borough_season_key. simpl. now destruct (csv_Boroughs r). }
  assert (E3 : Zsum (map (@agg_CrimeCount _) (yearly_data g))
               = Zsum (map csv_CrimeCount
                           (filter (fun r => keyed (csv_MajorCrime r)) csv))).
  { etransitivity; [exact H3'|]. do 2 f_equal. apply filter_ext. intros r.
    unfold year_crime_key. simpl. now destruct (csv_MajorCrime r). }
  split; [|split; [|split; [|split; [|split; [|split]]]]].
  - intros row Hrow. rewrite (H1 row Hrow), group_rows_borough.
    unfold rows_of_borough. now rewrite csv_counts.
  - intros row Hrow. rewrite (H2 row Hrow), group_rows_borough_season.
    unfold rows_of_borough_season. now rewrite csv_counts.
  - exact E1.
  - exact E2.
  - exact E3.
  - intros Hall. rewrite E1, E2. rewrite filter_all; [auto|].
    intros r Hr. specialize (Hall r Hr).
    destruct (csv_Boroughs r); [reflexivity | congruence].
  - intros Hall. rewrite E3. rewrite filter_all; [auto|].
    intros r Hr. specialize (Hall r Hr).
    destruct (csv_MajorCrime r); [reflexivity | congruence].
Qed.

Lemma aggregate_counts_exact_without_overflow_witness :
  Zsum (map (@agg_CrimeCount _)
            (borough_data (startup blank_borough_csv sample_geojson)))
  = 5
  /\ Zsum (map (@agg_CrimeCount _)
               (yearly_data (startup blank_borough_csv sample_geojson)))
     = 15.
Proof.
  destruct (aggregate_counts_exact_without_overflow
              blank_borough_csv sample_geojson)
    as (_ & _ & H & _ & H' & _).
  - intros r [<- | [<- | []]]; simpl; lia.
  - vm_compute. reflexivity.
  - split; [exact H | exact H'].
Defined.

(** ** The bars of the seasonal graph add up *)

Lemma sum_singleton_groups (rows : list CrimeRecord) (b : string) :
  Int64.wrap
    (Zsum
       (map (@agg_CrimeCount _)
            (filter (fun a : AggRow (string * string) =>
                       String.eqb (fst (agg_key a)) b)
                    (group_borough_season rows))))
  = Int64.wrap (Zsum (map CrimeCount (rows_of_borough b rows))).
Proof.
  rewrite seasonal_rows_of_borough, map_map. simpl.
  set (ks := filter (fun k : string * string => String.eqb (fst k) b)
                    (group_keys borough_season_key rows)).
  assert (Hnd : NoDup ks) by apply NoDup_filter, group_keys_NoDup.
  rewrite (map_ext _ (fun k => Int64.sum (map CrimeCount
             (group_rows borough_season_key rows k))))
    by (intros k; now rewrite group_rows_borough_season).
  rewrite (sum_groups_filter borough_season_key CrimeCount rows ks Hnd).
  f_equal. f_equal. f_equal. unfold rows_of_borough.
  apply filter_ext_in. intros r Hr.
  apply Bool.eq_iff_eq_true. rewrite existsb_has_key, cell_is_eq.
  unfold ks, borough_season_key. split.
  - intros (k & Ek & Hk). apply filter_In in Hk. destruct Hk as [_ Eb].
    apply String.eqb_eq in Eb.
    destruct (Boroughs r) as [b'|]; [|discriminate].
    injection Ek as <-. simpl in Eb. now subst.
  - intros Eb. exists (b, Season r). rewrite Eb. split; [reflexivity|].
    apply filter_In. split; [|apply String.eqb_refl].
    apply group_keys_In, in_map_iff. exists r. split; [|assumption].
    unfold borough_season_key. now rewrite Eb.
Qed.

(** X16: the bars of the seasonal graph add up, as int64 sums.  In the
    "All" view the counts of the bars sum to the CrimeCount of the CSV
    rows that name a borough (rows with a blank borough cell are in no
    bar); in the view of one borough they sum to the CrimeCount of that
    borough's rows. *)
Theorem season_bars_add_up :
  forall (csv : list CsvRow) (geojson : list Boundary)
         (selected_borough : string),
  exists f,
    update_seasonal_graph selected_borough (startup csv geojson)
    = (Ok f, startup csv geojson)
    /\ (selected_borough = "All" ->
        exists rows,
          data f = BySeason rows
          /\ Int64.wrap (Zsum (map (@agg_CrimeCount _) rows))
             = Int64.wrap
                 (Zsum (map csv_CrimeCount
                            (filter (fun r => keyed (csv_Boroughs r)) csv))))
    /\ (selected_borough <> "All" ->
        exists rows,
          data f = ByBoroughSeason rows
          /\ Int64.wrap (Zsum (map (@agg_CrimeCount _) rows))
             = Int64.wrap
                 (Zsum (map csv_CrimeCount
                            (filter (fun r => cell_is selected_borough
                                                      (csv_Boroughs r)) csv)))).
Proof.
  intros csv geojson b.
  unfold update_seasonal_graph, bind, global, ret.
  destruct (String.eqb b "All") eqn:E; eexists; (split; [reflexivity|]).
  - split; [|intros Hne; apply String.eqb_eq in E; contradiction].
    intros _. eexists. split; [reflexivity|].
    cbn [seasonal_data startup].
    destruct (agg_sum_mean_ok
                (fun a : AggRow (string * string) => Some (snd (agg_key a)))
                (@agg_CrimeCount _) (@agg_CrimeRatePer1000 _)
                (group_borough_season (map add_season csv))) as (_ & _ & H1).
    destruct (aggregates_map add_season borough_season_key CrimeCount
                (@agg_key _) (@agg_CrimeCount _) csv _
                (agg_sum_mean_ok borough_season_key CrimeCount
                   CrimeRatePer1000 (map add_season csv))) as (_ & _ & H2).
    unfold count_preserved in *. unfold group_borough_season in *.
    rewrite H1. simpl. rewrite filter_all by reflexivity.
    rewrite H2. do 3 f_equal. apply filter_ext. intros r.
    unfold borough_season_key. simpl. now destruct (csv_Boroughs r).
  - split; [intros ->; discriminate E|].
    intros _. eexists. split; [reflexivity|].
    cbn [seasonal_data startup].
    change (agg_sum_mean borough_season_key CrimeCount
                         CrimeRatePer1000 (map add_season csv))
      with (group_borough_season (map add_season csv)).
    rewrite sum_singleton_groups. do 2 f_equal.
    unfold rows_of_borough. now rewrite csv_counts.
Qed.

Lemma season_bars_add_up_witness :
  exists f rows,
    update_seasonal_graph "All" (startup blank_borough_csv sample_geojson)
    = (Ok f, startup blank_borough_csv sample_geojson)
    /\ data f = BySeason rows
    /\ Int64.wrap (Zsum (map (@agg_CrimeCount _) rows)) = 5.
Proof.
  destruct (season_bars_add_up blank_borough_csv sample_geojson "All")
    as (f & Hf & Hall & _).
  destruct (Hall eq_refl) as (rows & Hrows & Hsum).
  exists f, rows. split; [exact Hf|]. split; [exact Hrows|].
  rewrite Hsum. reflexivity.
Defined.

(** ** The page as first served *)

(** The properties the layout itself sets: the figures of the static
    graphs and the initial values of the four dropdowns. *)
Lemma initial_view (g : Globals) (p : Component) :
  layout g = Ok p ->
  exists first_crime rest,
    unique (map MajorCrime (crime_data g)) = first_crime :: rest
    /\ forall q,
        fold_left (fun w pv => set_prop (fst pv) (snd pv) w)
                  (initial_props p) (fun _ => None) q
        = fold_left (fun w pv => set_prop (fst pv) (snd pv) w)
            [ (("borough-crime-bar-chart", "figure"),
               VFigure {| chart := Bar; data := ByBorough (borough_data g);
                          title := "Crime Counts and Rates by Borough" |});
              (("borough-pie-chart", "figure"),
               VFigure {| chart := Pie; data := ByBorough (borough_data g);
                          title := "Crime Distribution by Borough" |});
              (("borough-dropdown", "value"), VStr "All");
              (("yearly-trends-graph", "figure"),
               VFigure {| chart := Line; data := ByYearCrime (yearly_data g);
                          title :=
                            "Yearly Trends of Crime Rates by Major Crime Type" |});
              (("crime-type-dropdown", "value"),
               dropdown_value (Single first_crime));
              (("borough-comparison-dropdown", "value"),
               VList (firstn 3 (unique (map Boroughs (crime_data g)))));
              (("crime-type-dropdown-stats", "value"),
               dropdown_value (Single first_crime));
              (("crime-choropleth-map", "figure"), VFigure (fig g)) ]
            (fun _ => None) q.
Proof.
  unfold layout.
  destruct (unique (map MajorCrime (crime_data g))) as [|c rest] eqn:E;
    [discriminate|].
  intros [= <-]. exists c, rest. split; [reflexivity|]. intros q. reflexivity.
Qed.

Lemma first_unique {K : Type} `{GroupKey K} (l : list K) (k : K) (rest : list K) :
  unique l = k :: rest -> exists t, l = k :: t.
Proof.
  destruct l as [|x t]; simpl; [discriminate|]. intros [= -> _]. now exists t.
Qed.

(** X17: the page as first served, for a CSV whose first row has a crime
    type.  The boundary file has a feature; every callback whose input is
    on the page has run once: the seasonal graph shows the "All" view,
    the comparison chart shows the crime type of the first CSV row for
    the first three distinct borough cells, and the map shows the
    start-up figure.  When some row of the first row's crime type names a
    borough, the statistics list and table are those of that crime type;
    when none does, the statistics callback has raised and the list and
    the table have no content. *)
Theorem page_as_first_served :
  forall (csv : list CsvRow) (geojson : list Boundary) (st : AppState)
         (r : CsvRow) (rest : list CsvRow) (first_crime : string),
    serve csv geojson = Ok st ->
    csv = r :: rest ->
    csv_MajorCrime r = Some first_crime ->
    exists f_season f_comparison,
      geojson <> []
      /\ update_seasonal_graph "All" (startup csv geojson)
         = (Ok f_season, startup csv geojson)
      /\ view st ("seasonal-crime-pattern-graph", "figure")
         = Some (VFigure f_season)
      /\ update_borough_comparison
           first_crime (firstn 3 (unique (map csv_Boroughs csv)))
           (startup csv geojson)
         = (Ok f_comparison, startup csv geojson)
      /\ view st ("borough-comparison-bar-chart", "figure")
         = Some (VFigure f_comparison)
      /\ ((exists x, In x csv /\ csv_MajorCrime x = Some first_crime
                     /\ csv_Boroughs x <> None) ->
          exists stats table,
            update_statistics_and_table first_crime (startup csv geojson)
            = (Ok (stats, table), startup csv geojson)
            /\ view st ("statistics-content", "children")
               = Some (VStatistics stats)
            /\ view st ("crime-data-table", "data") = Some (VRecords table))
      /\ (~ (exists x, In x csv /\ csv_MajorCrime x = Some first_crime
                       /\ csv_Boroughs x <> None) ->
          update_statistics_and_table first_crime (startup csv geojson)
          = (Raise ValueError, startup csv geojson)
          /\ view st ("statistics-content", "children") = None
          /\ view st ("crime-data-table", "data") = None)
      /\ view st ("crime-choropleth-map", "figure")
         = Some (VFigure (fig (startup csv geojson))).
Proof.
  intros csv geojson st r rest c Hserve Hcsv Hc.
  unfold serve in Hserve.
  destruct (module_body csv geojson) as [g0|e] eqn:Eg; [|discriminate].
  destruct (module_body_ok _ _ _ Eg) as (-> & Hgeo & _). clear Eg.
  set (g := startup csv geojson) in *.
  destruct (layout g) as [p|e] eqn:Hp; [|discriminate].
  destruct (initial_view g p Hp) as (c0 & crimes & Hu & Hw).
  assert (Hc0 : c0 = Some c).
  { destruct (first_unique _ _ _ Hu) as (t & Ht).
    unfold g in Ht. rewrite Hcsv in Ht. simpl in Ht.
    injection Ht as <- _. exact Hc. }
  subst c0.
  set (w0 := fold_left (fun w pv => set_prop (fst pv) (snd pv) w)
                       (initial_props p) (fun _ => None)) in *.
  assert (Hq1 : w0 ("borough-dropdown", "value") = Some (VStr "All"))
    by (rewrite Hw; reflexivity).
  assert (Hq2 : w0 ("crime-type-dropdown", "value") = Some (VStr c))
    by (rewrite Hw; reflexivity).
  assert (Hq3 : w0 ("borough-comparison-dropdown", "value")
                = Some (VList (firstn 3 (unique (map Boroughs (crime_data g))))))
    by (rewrite Hw; reflexivity).
  assert (Hq4 : w0 ("crime-type-dropdown-stats", "value") = Some (VStr c))
    by (rewrite Hw; reflexivity).
  assert (Hq5 : w0 ("crime-type-dropdown-map", "value") = None)
    by (rewrite Hw; reflexivity).
  assert (Hq6 : w0 ("crime-choropleth-map", "figure") = Some (VFigure (fig g)))
    by (rewrite Hw; reflexivity).
  assert (Hq7 : w0 ("statistics-content", "children") = None)
    by (rewrite Hw; reflexivity).
  assert (Hq8 : w0 ("crime-data-table", "data") = None)
    by (rewrite Hw; reflexivity).
  clear Hw.
  assert (Hb : unique (map Boroughs (crime_data g)) = unique (map csv_Boroughs csv))
    by (unfold g; simpl; now rewrite crime_data_boroughs).
  destruct (update_seasonal_graph_returns "All" g) as (f1 & Hf1).
  destruct (update_borough_comparison_returns
              c (firstn 3 (unique (map csv_Boroughs csv))) g) as (f2 & Hf2).
  exists f1, f2.
  cbn [callbacks fold_left] in Hserve.
  set (s0 := {| globals := g; page := p; view := w0 |}) in Hserve.
  rewrite (fire_ok seasonal_callback s0 [VStr "All"] [VFigure f1]) in Hserve.
  2:{ cbn [s0 view inputs seasonal_callback gather]. now rewrite Hq1. }
  2:{ cbn [s0 globals handler seasonal_callback]. unfold bind.
      now rewrite Hf1. }
  cbn [s0 globals page view outputs seasonal_callback set_props] in Hserve.
  set (s1 := {| globals := g; page := p;
                view := set_prop ("seasonal-crime-pattern-graph", "figure")
                                 (VFigure f1) w0 |}) in Hserve.
  rewrite (fire_ok comparison_callback s1
             [VStr c; VList (firstn 3 (unique (map csv_Boroughs csv)))]
             [VFigure f2]) in Hserve.
  2:{ cbn [s1 view inputs comparison_callback gather].
      rewrite !set_prop_other by reflexivity. now rewrite Hq2, Hq3, Hb. }
  2:{ cbn [s1 globals handler comparison_callback]. unfold bind.
      now rewrite Hf2. }
  cbn [s1 globals page view outputs comparison_callback set_props] in Hserve.
  set (s2 := {| globals := g; page := p;
                view := set_prop ("borough-comparison-bar-chart", "figure")
                          (VFigure f2)
                          (set_prop ("seasonal-crime-pattern-graph", "figure")
                                    (VFigure f1) w0) |}) in Hserve.
  assert (Hargs : gather (view s2) (inputs statistics_callback)
                  = Some [VStr c]).
  { cbn [s2 view inputs statistics_callback gather].
    rewrite !set_prop_other by reflexivity. now rewrite Hq4. }
  split; [exact Hgeo|]. split; [exact Hf1|].
  destruct (selected_row_with_borough_dec csv c) as [Hin | Hnot].
  - assert (Hin' : exists x, In x (filter_crime_type c (crime_data g))
                             /\ Boroughs x <> None)
      by now apply selected_row_with_borough.
    destruct (statistics_returns g c Hin') as (stats & Hf3).
    rewrite (fire_ok statistics_callback s2 [VStr c]
               [VStatistics stats;
                VRecords (group_borough (filter_crime_type c (crime_data g)))]
               Hargs)
      in Hserve
      by (cbn [s2 globals handler statistics_callback]; unfold bind;
          now rewrite Hf3).
    cbn [s2 globals page view outputs statistics_callback set_props] in Hserve.
    rewrite fire_missing_input in Hserve.
    2:{ cbn [view inputs map_callback gather].
        rewrite !set_prop_other by reflexivity. now rewrite Hq5. }
    injection Hserve as <-. cbn [view].
    split. { rewrite !set_prop_other by reflexivity. apply set_prop_same. }
    split; [exact Hf2|].
    split. { rewrite !set_prop_other by reflexivity. apply set_prop_same. }
    split.
    { intros _. exists stats, (group_borough (filter_crime_type c (crime_data g))).
      split; [exact Hf3|]. split.
      - rewrite set_prop_other by reflexivity. apply set_prop_same.
      - apply set_prop_same. }
    split; [intros H; contradiction|].
    rewrite !set_prop_other by reflexivity. exact Hq6.
  - assert (Hnot' : ~ (exists x, In x (filter_crime_type c (crime_data g))
                                 /\ Boroughs x <> None)).
    { intros H. apply Hnot. now apply selected_row_with_borough. }
    pose proof (statistics_raises g c Hnot') as Hf3.
    rewrite (fire_raise statistics_callback s2 [VStr c] ValueError Hargs)
      in Hserve
      by (cbn [s2 globals handler statistics_callback]; unfold bind;
          now rewrite Hf3).
    cbn [s2 globals page view] in Hserve.
    rewrite fire_missing_input in Hserve.
    2:{ cbn [view inputs map_callback gather].
        rewrite !set_prop_other by reflexivity. now rewrite Hq5. }
    injection Hserve as <-. cbn [view].
    split. { rewrite !set_prop_other by reflexivity. apply set_prop_same. }
    split; [exact Hf2|].
    split. { apply set_prop_same. }
    split; [intros H; contradiction|].
    split.
    { intros _. split; [exact Hf3|].
      split; rewrite !set_prop_other by reflexivity; assumption. }
    rewrite !set_prop_other by reflexivity. exact Hq6.
Qed.

Lemma page_as_first_served_witness :
  exists stats,
    view sample_state ("statistics-content", "children")
    = Some (VStatistics stats)
    /\ total_crimes stats = 30.
Proof.
  destruct (page_as_first_served sample_csv sample_geojson sample_state
                                 _ _ "Burglary" sample_state_served
                                 eq_refl eq_refl)
    as (f1 & f2 & _ & _ & _ & _ & _ & Hsome & _).
  destruct Hsome as (stats & table & Hrun & Hview & _).
  - eexists. split; [left; reflexivity|]. split; [reflexivity | discriminate].
  - exists stats. split; [exact Hview|].
    apply (f_equal fst) in Hrun. vm_compute in Hrun.
    injection Hrun as <- _. reflexivity.
Defined.

(** ** Order and repetition of callbacks *)

Lemma prop_id_dec (a b : Prop_id) : {a = b} + {a <> b}.
Proof. decide equality; apply string_dec. Qed.

Lemma same_page_refl (a : AppState) : same_page a a.
Proof. repeat split. Qed.

Lemma same_page_trans (a b c : AppState) :
  same_page a b -> same_page b c -> same_page a c.
Proof.
  intros (H1 & H2 & H3) (H1' & H2' & H3').
  split; [congruence|]. split; [congruence|].
  intros q. now rewrite H3.
Qed.

Lemma same_page_sym (a b : AppState) : same_page a b -> same_page b a.
Proof. intros (H1 & H2 & H3). repeat split; auto. Qed.

Lemma gather_ext (w w' : View) (ps : list Prop_id) :
  (forall p, In p ps -> w p = w' p) -> gather w ps = gather w' ps.
Proof.
  induction ps as [|p ps IH]; simpl; intros H; [reflexivity|].
  rewrite (H p) by now left. rewrite IH by (intros; apply H; now right).
  reflexivity.
Qed.

Lemma set_props_congr (ps : list Prop_id) (vs : list PropValue) (w w' : View)
      (q : Prop_id) :
  w q = w' q -> set_props ps vs w q = set_props ps vs w' q.
Proof.
  revert vs w w'. induction ps as [|p ps IH]; intros vs w w' H; simpl;
    [assumption|].
  destruct vs as [|v vs]; [assumption|].
  apply IH. unfold set_prop. now destruct (prop_eqb q p).
Qed.

Lemma set_props_twice (ps : list Prop_id) (vs : list PropValue) (w : View)
      (q : Prop_id) :
  NoDup ps -> set_props ps vs (set_props ps vs w) q = set_props ps vs w q.
Proof.
  intros Hnd. revert vs w. induction Hnd as [|p ps Hp Hnd IH]; intros vs w;
    simpl; [reflexivity|].
  destruct vs as [|v vs]; [reflexivity|].
  destruct (prop_id_dec q p) as [-> | Hne].
  - rewrite !set_props_frame by assumption. now rewrite !set_prop_same.
  - transitivity (set_props ps vs (set_props ps vs (set_prop p v w)) q);
      [|apply IH].
    apply set_props_congr. now apply set_prop_frame.
Qed.

(** The page after a callback has run. *)
Lemma fire_view (cb : Callback) (st : AppState) (q : Prop_id) :
  view (fire cb st) q
  = match outputs_of_run cb st with
    | Some outs => set_props (outputs cb) outs (view st) q
    | None => view st q
    end.
Proof.
  unfold fire, outputs_of_run.
  destruct (gather (view st) (inputs cb)) as [args|]; [|reflexivity].
  destruct (handler cb args (globals st)) as [[outs|e] g']; reflexivity.
Qed.

Lemma outputs_of_run_ext (cb : Callback) (a b : AppState) :
  globals a = globals b ->
  (forall p, In p (inputs cb) -> view a p = view b p) ->
  outputs_of_run cb a = outputs_of_run cb b.
Proof.
  intros Hg Hv. unfold outputs_of_run.
  now rewrite (gather_ext (view a) (view b) (inputs cb) Hv), Hg.
Qed.

(** Running a registered callback on two states that show the same page
    gives two states that show the same page. *)
Lemma fire_same_page (cb : Callback) (a b : AppState) :
  In cb callbacks -> same_page a b -> same_page (fire cb a) (fire cb b).
Proof.
  intros Hcb (Hg & Hp & Hv).
  destruct (fire_frame cb a Hcb) as (Hga & Hpa & _).
  destruct (fire_frame cb b Hcb) as (Hgb & Hpb & _).
  split; [congruence|]. split; [congruence|].
  intros q. rewrite !fire_view.
  rewrite (outputs_of_run_ext cb a b Hg) by (intros; apply Hv).
  destruct (outputs_of_run cb b); [|apply Hv].
  apply set_props_congr, Hv.
Qed.

(** No registered callback reads a property that a registered callback
    writes, and the registered callbacks have no output twice. *)
Lemma inputs_are_not_outputs (cb cb' : Callback) (i : Prop_id) :
  In cb callbacks -> In cb' callbacks -> In i (inputs cb) ->
  ~ In i (outputs cb').
Proof.
  intros Hcb Hcb' Hi. simpl in Hcb, Hcb'.
  destruct Hcb as [<- | [<- | [<- | [<- | []]]]];
    destruct Hcb' as [<- | [<- | [<- | [<- | []]]]];
    simpl in *; intuition (subst; discriminate).
Qed.

Lemma outputs_NoDup (cb : Callback) : In cb callbacks -> NoDup (outputs cb).
Proof.
  intros Hcb. simpl in Hcb.
  destruct Hcb as [<- | [<- | [<- | [<- | []]]]]; simpl;
    repeat (constructor; [simpl; intuition discriminate|]); constructor.
Qed.

Lemma outputs_of_run_after (cb cb' : Callback) (st : AppState) :
  In cb callbacks -> In cb' callbacks ->
  outputs_of_run cb (fire cb' st) = outputs_of_run cb st.
Proof.
  intros Hcb Hcb'. destruct (fire_frame cb' st Hcb') as (Hg & _ & Hv).
  apply outputs_of_run_ext; [assumption|].
  intros p Hp. apply Hv. now apply (inputs_are_not_outputs cb cb' p).
Qed.

Lemma fire_twice (cb : Callback) (st : AppState) :
  In cb callbacks -> same_page (fire cb (fire cb st)) (fire cb st).
Proof.
  intros Hcb.
  destruct (fire_frame cb st Hcb) as (Hg & Hp & _).
  destruct (fire_frame cb (fire cb st) Hcb) as (Hg' & Hp' & _).
  split; [congruence|]. split; [congruence|].
  intros q. rewrite (fire_view cb (fire cb st)).
  rewrite (outputs_of_run_after cb cb st Hcb Hcb).
  pose proof (fire_view cb st q) as Hq.
  destruct (outputs_of_run cb st) as [outs|]; [|reflexivity].
  rewrite Hq, <- (set_props_twice (outputs cb) outs (view st) q)
    by now apply outputs_NoDup.
  apply set_props_congr. exact Hq.
Qed.

Lemma fire_swap (cb1 cb2 : Callback) (st : AppState) :
  In cb1 callbacks -> In cb2 callbacks ->
  (forall o, In o (outputs cb1) -> ~ In o (outputs cb2)) ->
  same_page (fire cb1 (fire cb2 st)) (fire cb2 (fire cb1 st)).
Proof.
  intros H1 H2 Hdisj.
  destruct (fire_frame cb1 st H1) as (Hg1 & Hp1 & Hv1).
  destruct (fire_frame cb2 st H2) as (Hg2 & Hp2 & Hv2).
  destruct (fire_frame cb1 (fire cb2 st) H1) as (Hg12 & Hp12 & _).
  destruct (fire_frame cb2 (fire cb1 st) H2) as (Hg21 & Hp21 & _).
  split; [congruence|]. split; [congruence|].
  intros q.
  rewrite (fire_view cb1 (fire cb2 st)), (fire_view cb2 (fire cb1 st)).
  rewrite (outputs_of_run_after cb1 cb2 st H1 H2).
  rewrite (outputs_of_run_after cb2 cb1 st H2 H1).
  destruct (in_dec prop_id_dec q (outputs cb1)) as [Hin | Hout].
  - pose proof (Hdisj q Hin) as Hq2.
    rewrite (Hv2 q Hq2).
    replace (match outputs_of_run cb2 st with
             | Some outs => set_props (outputs cb2) outs (view (fire cb1 st)) q
             | None => view (fire cb1 st) q
             end) with (view (fire cb1 st) q)
      by (destruct (outputs_of_run cb2 st);
          [now rewrite set_props_frame | reflexivity]).
    rewrite fire_view.
    destruct (outputs_of_run cb1 st); [|auto].
    apply set_props_congr. auto.
  - rewrite (Hv1 q Hout).
    replace (match outputs_of_run cb1 st with
             | Some outs => set_props (outputs cb1) outs (view (fire cb2 st)) q
             | None => view (fire cb2 st) q
             end) with (view (fire cb2 st) q)
      by (destruct (outputs_of_run cb1 st);
          [now rewrite set_props_frame | reflexivity]).
    rewrite fire_view.
    destruct (outputs_of_run cb2 st); [|reflexivity].
    apply set_props_congr. symmetry. auto.
Qed.

Lemma fire_commute (cb1 cb2 : Callback) (st : AppState) :
  In cb1 callbacks -> In cb2 callbacks ->
  same_page (fire cb1 (fire cb2 st)) (fire cb2 (fire cb1 st)).
Proof.
  intros H1 H2.
  pose proof H1 as H1'. pose proof H2 as H2'. simpl in H1', H2'.
  destruct H1' as [<- | [<- | [<- | [<- | []]]]];
    destruct H2' as [<- | [<- | [<- | [<- | []]]]];
    try apply same_page_refl;
    (apply fire_swap; [assumption | assumption |];
     simpl; intuition (subst; discriminate)).
Qed.

(** X18: the registered callbacks do not interfere.  Running one a second
    time changes nothing on the page, and running two of them in either
    order leads to the same page: no callback reads a property that a
    callback writes, and no two callbacks write the same property. *)
Theorem callbacks_repeat_and_commute :
  forall (cb1 cb2 : Callback) (st : AppState),
    In cb1 callbacks -> In cb2 callbacks ->
    same_page (fire cb1 (fire cb1 st)) (fire cb1 st)
    /\ same_page (fire cb1 (fire cb2 st)) (fire cb2 (fire cb1 st)).
Proof.
  intros cb1 cb2 st H1 H2. split; [now apply fire_twice|].
  now apply fire_commute.
Qed.

Lemma callbacks_repeat_and_commute_witness :
  same_page (fire seasonal_callback (fire statistics_callback sample_state))
            (fire statistics_callback (fire seasonal_callback sample_state)).
Proof.
  apply (callbacks_repeat_and_commute seasonal_callback statistics_callback
                                      sample_state).
  - simpl. auto.
  - simpl. auto.
Defined.

(** ** Selecting the same value again *)

Lemma fire_all_same_page (cbs : list Callback) (a b : AppState) :
  (forall cb, In cb cbs -> In cb callbacks) ->
  same_page a b ->
  same_page (fold_left (fun s cb => fire cb s) cbs a)
            (fold_left (fun s cb => fire cb s) cbs b).
Proof.
  revert a b. induction cbs as [|cb cbs IH]; intros a b Hcbs Hab; simpl;
    [assumption|].
  apply IH; [intros; apply Hcbs; now right|].
  apply fire_same_page; [apply Hcbs; now left | assumption].
Qed.

Lemma fire_through_all (cbs : list Callback) (cb : Callback) (st : AppState) :
  (forall c, In c cbs -> In c callbacks) -> In cb callbacks ->
  same_page (fold_left (fun s c => fire c s) cbs (fire cb st))
            (fire cb (fold_left (fun s c => fire c s) cbs st)).
Proof.
  revert st. induction cbs as [|c cbs IH]; intros st Hcbs Hcb; simpl;
    [apply same_page_refl|].
  eapply same_page_trans; [|apply IH; [intros; apply Hcbs; now right | assumption]].
  apply fire_all_same_page; [intros; apply Hcbs; now right|].
  apply fire_commute; [apply Hcbs; now left | assumption].
Qed.

Lemma fire_all_twice (cbs : list Callback) (st : AppState) :
  (forall c, In c cbs -> In c callbacks) ->
  same_page (fold_left (fun s c => fire c s) cbs
                       (fold_left (fun s c => fire c s) cbs st))
            (fold_left (fun s c => fire c s) cbs st).
Proof.
  revert st. induction cbs as [|cb cbs IH]; intros st Hcbs; simpl;
    [apply same_page_refl|].
  assert (Hcbs' : forall c, In c cbs -> In c callbacks)
    by (intros; apply Hcbs; now right).
  assert (Hcb : In cb callbacks) by (apply Hcbs; now left).
  eapply same_page_trans; [|apply (IH (fire cb st) Hcbs')].
  apply fire_all_same_page; [assumption|].
  eapply same_page_trans.
  - apply same_page_sym, fire_through_all; assumption.
  - apply fire_all_same_page; [assumption|]. now apply fire_twice.
Qed.

(** X19: selecting in a dropdown the value it already has is harmless:
    after a selection change, the same selection change once more leads
    to a state that shows the same page. *)
Theorem same_selection_again_changes_nothing :
  forall (ctl : string) (v : DropdownValue) (st : AppState),
    same_page (on_change ctl v (on_change ctl v st)) (on_change ctl v st).
Proof.
  intros ctl v st.
  destruct (on_change_frame ctl v st) as (Hg & Hp & Hv).
  unfold on_change at 1. rewrite Hp.
  destruct (existsb (String.eqb ctl) (map fst (dropdowns (page st)))) eqn:E;
    [|apply same_page_refl].
  set (cbs := filter (depends_on ctl) callbacks).
  assert (Hcbs : forall c, In c cbs -> In c callbacks)
    by (intros c Hc; apply filter_In in Hc; tauto).
  assert (Hst1 : on_change ctl v st
                 = fold_left (fun s cb => fire cb s) cbs
                     {| globals := globals st; page := page st;
                        view := set_prop (ctl, "value") (dropdown_value v)
                                         (view st) |}).
  { unfold on_change. now rewrite E. }
  set (s0 := {| globals := globals st; page := page st;
                view := set_prop (ctl, "value") (dropdown_value v) (view st) |})
    in *.
  assert (Hsame : same_page
                    {| globals := globals (on_change ctl v st);
                       page := page st;
                       view := set_prop (ctl, "value") (dropdown_value v)
                                        (view (on_change ctl v st)) |}
                    (on_change ctl v st)).
  { split; [reflexivity|]. split; [now rewrite Hp|]. intros q. cbn [view].
    destruct (prop_id_dec q (ctl, "value")) as [-> | Hne];
      [|now apply set_prop_frame].
    rewrite set_prop_same, Hst1.
    destruct (fire_all_frame cbs s0 Hcbs) as (_ & _ & Hframe).
    rewrite Hframe.
    - unfold s0. cbn [view]. now rewrite set_prop_same.
    - intros cb Hcb. apply filter_In in Hcb. destruct Hcb as [Hcb Hdep].
      unfold depends_on in Hdep. apply existsb_exists in Hdep.
      destruct Hdep as (i & Hi & Ei). apply prop_eqb_eq in Ei. subst i.
      now apply (inputs_are_not_outputs cb cb). }
  eapply same_page_trans.
  - apply fire_all_same_page; [exact Hcbs | exact Hsame].
  - rewrite Hst1. now apply fire_all_twice.
Qed.

(** ** How often a boundary is drawn *)

Lemma filter_unique_key {A : Type} (f : A -> string) (x : string) (l : list A) :
  NoDup (map f l) ->
  (List.length (filter (fun r => String.eqb x (f r)) l) <= 1)%nat.
Proof.
  induction l as [|a l IH]; simpl; intros Hnd; [lia|].
  inversion Hnd as [|? ? Ha Hl]; subst.
  destruct (String.eqb x (f a)) eqn:E; [|now apply IH].
  apply String.eqb_eq in E. subst x. simpl.
  replace (filter (fun r => String.eqb (f a) (f r)) l) with (@nil A); [simpl; lia|].
  symmetry. destruct (filter (fun r => String.eqb (f a) (f r)) l) as [|b t] eqn:Ef;
    [reflexivity|].
  exfalso. apply Ha.
  assert (Hb : In b (filter (fun r => String.eqb (f a) (f r)) l))
    by (rewrite Ef; now left).
  apply filter_In in Hb. destruct Hb as [Hb Eb].
  apply String.eqb_eq in Eb. rewrite Eb. now apply in_map.
Qed.

Lemma merge_length (left : list Boundary) (right : list GeoAggRow) :
  NoDup (map geo_Boroughs right) ->
  (List.length (merge left right) <= List.length left)%nat.
Proof.
  intros Hnd. unfold merge. induction left as [|l left IH]; simpl; [lia|].
  rewrite length_app, length_map.
  pose proof (filter_unique_key geo_Boroughs (name l) right Hnd). lia.
Qed.

Lemma merge_names_NoDup (left : list Boundary) (right : list GeoAggRow) :
  NoDup (map geo_Boroughs right) -> NoDup (map name left) ->
  NoDup (merged_names (merge left right)).
Proof.
  intros Hr Hl. unfold merged_names, merge.
  induction left as [|l left IH]; simpl; [constructor|].
  inversion Hl as [|? ? Hl1 Hl2]; subst.
  rewrite map_app, map_map. simpl.
  pose proof (filter_unique_key geo_Boroughs (name l) right Hr) as Hle.
  destruct (filter (fun r => String.eqb (name l) (geo_Boroughs r)) right)
    as [|r [|r' t]]; simpl in *; [now apply IH | | lia].
  constructor; [|now apply IH].
  intros Hin. apply Hl1.
  change (In (name l) (merged_names (merge left right))) in Hin.
  apply merged_names_In in Hin. tauto.
Qed.

(** X20: when no two boroughs of the CSV that are spelled differently
    normalize to the same name, the start-up merge draws each boundary
    feature at most once, so the map has at most as many rows as the
    boundary file has features; if the boundary names are also distinct
    after normalization, no name is drawn twice. *)
Theorem startup_map_draws_each_boundary_once :
  forall (csv : list CsvRow) (geojson : list Boundary),
    (forall r1 r2 b1 b2, In r1 csv -> In r2 csv ->
                         csv_Boroughs r1 = Some b1 ->
                         csv_Boroughs r2 = Some b2 ->
                         PyStr.normalize b1 = PyStr.normalize b2 ->
                         b1 = b2) ->
    (List.length (merged_geo_df (startup csv geojson))
     <= List.length geojson)%nat
    /\ (NoDup (map (fun b => PyStr.normalize (name b)) geojson) ->
        NoDup (merged_names (merged_geo_df (startup csv geojson)))).
Proof.
  intros csv geojson Hinj.
  assert (Hnd : NoDup (map geo_Boroughs
                           (normalize_boroughs
                              (group_borough_level (map add_season csv))))).
  { unfold normalize_boroughs, group_borough_level, groupby.
    rewrite !map_map. simpl.
    apply NoDup_map_NoDup_ForallPairs; [|apply group_keys_NoDup].
    intros a b Ha Hb E.
    apply (group_keys_In Boroughs (map add_season csv)) in Ha, Hb.
    rewrite crime_data_boroughs in Ha, Hb.
    apply in_map_iff in Ha, Hb.
    destruct Ha as (r1 & E1 & Hr1). destruct Hb as (r2 & E2 & Hr2).
    now apply (Hinj r1 r2 a b). }
  simpl merged_geo_df. split.
  - rewrite <- (length_map (fun b => {| name := PyStr.normalize (name b);
                                        geometry := geometry b |}) geojson).
    now apply merge_length.
  - intros Hgeo. apply merge_names_NoDup; [assumption|].
    unfold normalize_names. rewrite map_map. exact Hgeo.
Qed.

Lemma startup_map_draws_each_boundary_once_witness :
  (List.length (merged_geo_df (startup sample_csv sample_geojson)) <= 1)%nat.
Proof.
  apply (startup_map_draws_each_boundary_once sample_csv sample_geojson).
  intros r1 r2 b1 b2 [<- | [<- | []]] [<- | [<- | []]] E1 E2 _;
    simpl in E1, E2; congruence.
Defined.

(** ** A borough with a single record *)

(** X21: a borough that has exactly one record in the CSV appears in the
    per-borough aggregate with that record's values: its CrimeCount when
    that fits int64, and a CrimeRatePer1000 equal as a float to the
    record's when that is not NaN. *)
Theorem borough_with_one_record :
  forall (csv : list CsvRow) (geojson : list Boundary) (r : CsvRow)
         (borough : string),
    csv_Boroughs r = Some borough ->
    filter (fun x => cell_is borough (csv_Boroughs x)) csv = [r] ->
    exists row,
      In row (borough_data (startup csv geojson))
      /\ agg_key row = borough
      /\ (- 2 ^ 63 <= csv_CrimeCount r < 2 ^ 63 ->
          agg_CrimeCount row = csv_CrimeCount r)
      /\ (PrimFloat.is_nan (csv_CrimeRatePer1000 r) = false ->
          PrimFloat.eqb (agg_CrimeRatePer1000 row) (csv_CrimeRatePer1000 r)
          = true).
Proof.
  intros csv geojson r b Eb Hone.
  assert (Hrows : group_rows Boroughs (map add_season csv) b
                  = [add_season r]).
  { rewrite group_rows_borough. unfold rows_of_borough.
    rewrite filter_map_comm.
    erewrite filter_ext; [rewrite Hone; reflexivity|].
    intros x. reflexivity. }
  assert (Hin : In r csv).
  { assert (H : In r (filter (fun x => cell_is b (csv_Boroughs x)) csv))
      by (rewrite Hone; now left).
    now apply filter_In in H. }
  simpl borough_data. unfold group_borough. rewrite agg_sum_mean_rows.
  exists {| agg_key := b;
            agg_CrimeCount :=
              Int64.sum (map CrimeCount
                             (group_rows Boroughs (map add_season csv) b));
            agg_CrimeRatePer1000 :=
              F64.group_mean
                (map CrimeRatePer1000
                     (group_rows Boroughs (map add_season csv) b)) |}.
  split; [|split; [|split]].
  - apply in_map_iff. exists b. split; [reflexivity|].
    apply (group_keys_In Boroughs (map add_season csv)).
    rewrite crime_data_boroughs, <- Eb. now apply in_map.
  - reflexivity.
  - intros Hfit. simpl. rewrite Hrows. simpl.
    unfold Int64.sum, Int64.add. simpl fold_left.
    now apply Int64Facts.wrap_small.
  - intros Hnan. simpl. rewrite Hrows. simpl.
    now apply F64Facts.group_mean_singleton.
Qed.

Lemma borough_with_one_record_witness :
  exists row,
    In row (borough_data (startup (firstn 1 sample_csv) sample_geojson))
    /\ agg_key row = "Camden"
    /\ agg_CrimeCount row = 10.
Proof.
  destruct (borough_with_one_record
              (firstn 1 sample_csv) sample_geojson
              {| csv_Boroughs := Some "Camden"; csv_Year := 2023;
                 csv_Month := 1; csv_MajorCrime := Some "Burglary";
                 csv_CrimeCount := 10;
                 csv_CrimeRatePer1000 := 2.0%float;
                 csv_Population := 270000 |} "Camden")
    as (row & Hin & Hkey & Hcount & _).
  - reflexivity.
  - reflexivity.
  - exists row. split; [exact Hin|]. split; [exact Hkey|].
    apply Hcount. simpl. lia.
Defined.
